(** * Citation Graph Auditor: a shallow embedding of the extraction,
      classification, graph-construction and analysis pipeline

    The development follows the Python sources module by module:
    [utils] (utils.py), [CitationGraphBuilder] (graph_builder.py),
    [GraphAnalyzer] (graph_analyzer.py) and [ArticleIngester]
    (article_ingester.py).

    Python values are modelled as follows.
    - [float] is Rocq's primitive binary64 float, which is the IEEE 754 type
      behind Python's [float]; literals denote the same nearest double.
    - [int] is [Z]; [len] of a list is [Z.of_nat (length l)].
    - [str] is [string]; the string methods defined here act on ASCII, which
      is what URLs, domains and category names are made of.
    - a [dict] read with [d.get(k, default)] whose keys are fixed is a record
      of [option] fields; a [dict] built as a result is a [gmap]; a counting
      [dict] whose iteration order is observed is an association list.
    - an exception is a [Raise] result. *)

From Stdlib Require Import ZArith String Ascii List Floats Lia.
From stdpp Require Import gmap strings list fin_maps pretty.

#[local] Set Warnings "-inexact-float,-clear-no-such-hyp".
#[local] Open Scope string_scope.
#[local] Open Scope Z_scope.

(** ** Python runtime: exceptions, numbers and strings *)

Inductive PyError : Type :=
  | KeyError
  | TypeError
  | ValueError
  | ZeroDivisionError
  | OverflowError.

Inductive PyResult (A : Type) : Type :=
  | Ok (a : A)
  | Raise (e : PyError).

Arguments Ok {A} a.
Arguments Raise {A} e.

Definition res_bind {A B} (r : PyResult A) (k : A -> PyResult B) : PyResult B :=
  match r with
  | Ok a => k a
  | Raise e => Raise e
  end.

Declare Scope res_scope.
Delimit Scope res_scope with res.
Notation "'do' x <- r ; k" := (res_bind r (fun x => k))
  (at level 10, x name, r at level 100, k at level 200) : res_scope.

(** [[f(x) for x in l]] when [f] may raise: the first exception wins. *)
Fixpoint res_map {A B} (f : A -> PyResult B) (l : list A) : PyResult (list B) :=
  match l with
  | [] => Ok []
  | x :: xs =>
      (do y <- f x; do ys <- res_map f xs; Ok (y :: ys))%res
  end.

(** [float(n)] for an [int]: the nearest double (exact below 2^53). *)
Definition float_of_int (z : Z) : float :=
  SF2Prim (binary_normalize prec emax z 0 false).

Definition len {A} (l : list A) : Z := Z.of_nat (length l).

(** [a / b] on floats; Python raises on a zero divisor of either sign. *)
Definition float_truediv (a b : float) : PyResult float :=
  if (b =? 0)%float then Raise ZeroDivisionError else Ok (a / b)%float.

(** [a / b] on ints: true division, which tests the divisor as an int. *)
Definition int_truediv (a b : Z) : PyResult float :=
  if b =? 0 then Raise ZeroDivisionError
  else Ok (float_of_int a / float_of_int b)%float.

(** [a / n] for a float and an int: [float(n)] is zero exactly when [n] is. *)
Definition float_div_int (a : float) (n : Z) : PyResult float :=
  if n =? 0 then Raise ZeroDivisionError
  else Ok (a / float_of_int n)%float.

(** The two-argument builtins [min(a, b)] and [max(a, b)]: the first argument
    is kept unless the second is strictly smaller (resp. larger), so a NaN
    second argument never replaces the first. *)
Definition py_min (a b : float) : float := if (b <? a)%float then b else a.
Definition py_max (a b : float) : float := if (a <? b)%float then b else a.

(** [max(values)] over a sequence of ints: [ValueError] when it is empty,
    otherwise the first maximal element. *)
Definition max_int (l : list Z) : PyResult Z :=
  match l with
  | [] => Raise ValueError
  | x :: xs => Ok (fold_left (fun m y => if m <? y then y else m) xs x)
  end.

(** [len(set(l))]. *)
Definition count_unique (l : list string) : Z :=
  Z.of_nat (size (list_to_set (C := gset string) l)).

(** Interpreter and C-library behaviour that the sources rely on and that is
    not fixed by the language: [sum] over floats (a left fold before CPython
    3.12, compensated summation since), [x ** n] (the platform's [pow],
    [OverflowError] when the result is out of range) and the text an f-string
    gives a float. *)
Class Builtins : Type := {
  float_sum : list float -> float;
  float_pow : float -> Z -> PyResult float;
  float_str : float -> string
}.

(** *** Strings *)

Definition char_in (c : ascii) (chars : string) : bool :=
  existsb (Ascii.eqb c) (list_ascii_of_string chars).

(** [s.rstrip(chars)]: drop the longest suffix made of characters of [chars]. *)
Fixpoint rstrip (chars : string) (s : string) : string :=
  match s with
  | EmptyString => EmptyString
  | String c s' =>
      match rstrip chars s' with
      | EmptyString => if char_in c chars then EmptyString else String c EmptyString
      | r => String c r
      end
  end.

Fixpoint lstrip (chars : string) (s : string) : string :=
  match s with
  | EmptyString => EmptyString
  | String c s' => if char_in c chars then lstrip chars s' else s
  end.

(** The ASCII characters for which [str.isspace] holds. *)
Definition whitespace : string :=
  string_of_list_ascii
    (map ascii_of_nat [9; 10; 11; 12; 13; 28; 29; 30; 31; 32]%nat).

(** [s.strip()]. *)
Definition strip (s : string) : string := rstrip whitespace (lstrip whitespace s).

Definition lower_ascii (c : ascii) : ascii :=
  let n := nat_of_ascii c in
  if (Nat.leb 65 n && Nat.leb n 90)%bool then ascii_of_nat (n + 32) else c.

(** [s.lower()]. *)
Fixpoint lower (s : string) : string :=
  match s with
  | EmptyString => EmptyString
  | String c s' => String (lower_ascii c) (lower s')
  end.

(** [s.startswith(p)]. *)
Definition startswith (s p : string) : bool := String.prefix p s.

(** [needle in haystack] on strings. *)
Fixpoint contains (needle haystack : string) : bool :=
  String.prefix needle haystack ||
  match haystack with
  | EmptyString => false
  | String _ rest => contains needle rest
  end.

(** [text[max(0, i - n):i]]. *)
Definition slice_before (text : string) (i n : nat) : string :=
  substring (i - n) (i - (i - n)) text.

(** [sep.join(parts)]. *)
Definition join (sep : string) (parts : list string) : string :=
  String.concat sep parts.

Definition str_eqb (a b : string) : bool := bool_decide (a = b).
Definition str_in (a : string) (l : list string) : bool := bool_decide (a ∈ l).

(** *** Counting dictionaries

    [counts[k] = counts.get(k, 0) + 1] on a [dict]: a key keeps the position
    of its first insertion, which is the order [items()] and [values()]
    follow. *)

Definition Counts : Type := list (string * Z).

Fixpoint count_get (counts : Counts) (k : string) : Z :=
  match counts with
  | [] => 0
  | (k', v) :: rest => if str_eqb k k' then v else count_get rest k
  end.

Fixpoint count_set (counts : Counts) (k : string) (v : Z) : Counts :=
  match counts with
  | [] => [(k, v)]
  | (k', v') :: rest =>
      if str_eqb k k' then (k', v) :: rest else (k', v') :: count_set rest k v
  end.

Definition count_incr (counts : Counts) (k : string) : Counts :=
  count_set counts k (count_get counts k + 1).

(** The loop [for k in keys: counts[k] = counts.get(k, 0) + 1]. *)
Definition count_all (keys : list string) : Counts :=
  fold_left count_incr keys [].

Definition count_values (counts : Counts) : list Z := map snd counts.

(** [max(counts.items(), key=lambda x: x[1])[0]]: the first key whose count
    is maximal. *)
Definition argmax_count (counts : Counts) : PyResult string :=
  match counts with
  | [] => Raise ValueError
  | kv :: rest =>
      Ok (fst (fold_left (fun m y => if snd m <? snd y then y else m) rest kv))
  end.

(** ** Configuration

    [config.py] is read by the sources but is not part of them: its
    constants are the fields of a record that the functions take as an
    argument. *)

Record Config : Type := {
  RELIABILITY_SCORES : gmap string float;
  TRUSTED_DOMAINS : list string;
  SOURCE_CATEGORIES : list (string * list string);
  MIN_CITATIONS : Z;
  BIAS_THRESHOLD : float;
  CLUSTER_RISK_THRESHOLD : float;
  GROKIPEDIA_BASE_URL : string
}.

(** ** External libraries

    [urllib.parse.urlparse] (which may raise [ValueError]) and
    [tldextract.extract], each reduced to the fields the sources read; and
    [re.finditer], which yields the matches of a pattern in a text, each with
    its groups (group 0 first) and its span. *)

Record ParseResult : Type := { netloc : string; path : string }.

Record ExtractResult : Type := {
  ext_subdomain : string;
  ext_domain : string;
  ext_suffix : string
}.

Class UrlLib : Type := {
  urlparse : string -> PyResult ParseResult;
  tldextract_extract : string -> ExtractResult
}.

Record Match : Type := { m_groups : list string; m_start : nat; m_end : nat }.

Definition group (m : Match) (i : nat) : string := nth i (m_groups m) "".

Class ReLib : Type := {
  re_finditer : string -> bool -> string -> list Match
}.

(** ** utils.py *)

Module utils.

Record TextCitation : Type := {
  tc_text : string;
  tc_url : string;
  tc_type : string
}.

Definition suspicious : list string := ["blogspot"; "wordpress"; "tumblr"; "wix"].

Definition dq : string := String (ascii_of_nat 34) EmptyString.

Definition markdown_pattern : string := "\[([^\]]+)\]\(([^\)]+)\)".
Definition html_pattern : string :=
  "<a[^>]+href=[" +:+ dq +:+ "\']([^" +:+ dq +:+ "\']+)[" +:+ dq
    +:+ "\'][^>]*>([^<]+)</a>".
Definition url_pattern : string :=
  "https?://[^\s<>" +:+ dq +:+ "\'\)\[\]]+".

Definition punctuation : string := ".,;:!?)".

Section with_libraries.
Context {url_lib : UrlLib} {re_lib : ReLib}.
Variable config : Config.

Definition extract_domain (url : string) : string :=
  match urlparse url with
  | Ok parsed =>
      let domain := if str_eqb (netloc parsed) "" then path parsed else netloc parsed in
      lower domain
  | Raise _ => lower url
  end.

(** The keyword loop of [classify_source_type]: the first category other than
    ["other"], in the table's order, one of whose keywords occurs in the
    domain. *)
Fixpoint match_category (categories : list (string * list string))
    (domain_lower : string) : option string :=
  match categories with
  | [] => None
  | (category, keywords) :: rest =>
      if str_eqb category "other" then match_category rest domain_lower
      else if existsb (fun keyword => contains keyword domain_lower) keywords
      then Some category
      else match_category rest domain_lower
  end.

Definition classify_source_type (url : string) : string :=
  let domain := extract_domain url in
  let ext := tldextract_extract domain in
  if str_in (ext_suffix ext) ["edu"; "ac.uk"; "edu.au"] then "academic"
  else if str_eqb (ext_suffix ext) "gov" || startswith (ext_suffix ext) "gov."
  then "government"
  else if str_eqb (ext_suffix ext) "org" then "ngo"
  else
    let domain_lower := lower domain in
    match match_category (SOURCE_CATEGORIES config) domain_lower with
    | Some category => category
    | None => "other"
    end.

Definition calculate_reliability_score (url source_type : string) : float :=
  let base_score := default 0.5%float (RELIABILITY_SCORES config !! source_type) in
  let ext := tldextract_extract (extract_domain url) in
  let base_score :=
    if str_in (ext_suffix ext) (TRUSTED_DOMAINS config)
    then (base_score + 0.1)%float else base_score in
  let domain := lower (extract_domain url) in
  let base_score :=
    if existsb (fun s => contains s domain) suspicious
    then (base_score - 0.2)%float else base_score in
  py_max 0 (py_min 1 base_score).

(** The loop state of [extract_citations_from_text]: the citations appended
    so far and the set [seen_urls]. *)
Definition Seen : Type := (list TextCitation * gset string)%type.

Definition add_if_new (st : Seen) (c : TextCitation) : Seen :=
  if bool_decide (tc_url c ∉ st.2)
  then ((st.1 ++ [c])%list, {[tc_url c]} ∪ st.2)
  else st.

Definition markdown_step (st : Seen) (m : Match) : Seen :=
  let url := strip (group m 2) in
  if startswith url "http://" || startswith url "https://" then
    let normalized_url := rstrip punctuation url in
    add_if_new st {| tc_text := group m 1; tc_url := normalized_url; tc_type := "markdown" |}
  else st.

Definition html_step (st : Seen) (m : Match) : Seen :=
  let url := strip (group m 1) in
  if startswith url "http://" || startswith url "https://" then
    let normalized_url := rstrip punctuation url in
    add_if_new st {| tc_text := strip (group m 2); tc_url := normalized_url; tc_type := "html" |}
  else st.

Definition bare_step (text : string) (st : Seen) (m : Match) : Seen :=
  let url := rstrip punctuation (group m 0) in
  let start_pos := m_start m in
  let context_before := slice_before text start_pos 10 in
  if negb (contains "](" context_before) && negb (contains "<a" (lower context_before))
  then add_if_new st {| tc_text := url; tc_url := url; tc_type := "bare" |}
  else st.

Definition extract_citations_from_text (text : string) : list TextCitation :=
  let st := ([], ∅) in
  let st := fold_left markdown_step (re_finditer markdown_pattern false text) st in
  let st := fold_left html_step (re_finditer html_pattern true text) st in
  let st := fold_left (bare_step text) (re_finditer url_pattern false text) st in
  st.1.

Definition normalize_domain (url : string) : string :=
  let ext := tldextract_extract (extract_domain url) in
  if negb (str_eqb (ext_domain ext) "") && negb (str_eqb (ext_suffix ext) "")
  then ext_domain ext +:+ "." +:+ ext_suffix ext
  else extract_domain url.

Definition calculate_diversity_score (domains : list string) : PyResult float :=
  match domains with
  | [] => Ok 0%float
  | _ =>
      let domain_counts := count_all (map normalize_domain domains) in
      let total := len domains in
      let unique := len domain_counts in
      (do diversity <- (if 0 <? total then int_truediv unique total else Ok 0%float);
       match domain_counts with
       | [] => Ok diversity
       | _ =>
           do max_count <- max_int (count_values domain_counts);
           do concentration <- int_truediv max_count total;
           Ok (diversity * (1 - concentration * 0.5))%float
       end)%res
  end.

End with_libraries.

End utils.

(** ** networkx.DiGraph

    The part of [networkx.DiGraph] the sources use.  Nodes are kept in
    insertion order; a node's attribute dictionary is a record of the
    attributes the sources read with [get], [None] standing for an absent
    key.  [add_node] and [add_edge] update the attributes of an existing node
    or edge, and [add_edge] creates the end points it does not find. *)

Record NodeAttrs : Type := {
  node_type : option string;
  title : option string;
  word_count : option Z;
  citation_count : option Z;
  domain : option string;
  source_type : option string;
  reliability : option float
}.

Record EdgeAttrs : Type := {
  weight : option float;
  citation_text : option string
}.

Definition no_attrs : NodeAttrs :=
  {| node_type := None; title := None; word_count := None; citation_count := None;
     domain := None; source_type := None; reliability := None |}.

Definition override {A} (new old : option A) : option A :=
  match new with
  | Some x => Some x
  | None => old
  end.

(** [old.update(new)]. *)
Definition update_node_attrs (old new : NodeAttrs) : NodeAttrs :=
  {| node_type := override (node_type new) (node_type old);
     title := override (title new) (title old);
     word_count := override (word_count new) (word_count old);
     citation_count := override (citation_count new) (citation_count old);
     domain := override (domain new) (domain old);
     source_type := override (source_type new) (source_type old);
     reliability := override (reliability new) (reliability old) |}.

Definition update_edge_attrs (old new : EdgeAttrs) : EdgeAttrs :=
  {| weight := override (weight new) (weight old);
     citation_text := override (citation_text new) (citation_text old) |}.

Record DiGraph : Type := {
  nodes : list (string * NodeAttrs);
  edges : list ((string * string) * EdgeAttrs)
}.

Definition empty_graph : DiGraph := {| nodes := []; edges := [] |}.

Definition node_names (g : DiGraph) : list string := map fst (nodes g).

Definition has_node (g : DiGraph) (n : string) : bool := str_in n (node_names g).

(** [g.nodes[n]]. *)
Definition node_data (g : DiGraph) (n : string) : PyResult NodeAttrs :=
  match find (fun kv => str_eqb n (fst kv)) (nodes g) with
  | Some kv => Ok (snd kv)
  | None => Raise KeyError
  end.

Fixpoint update_node (l : list (string * NodeAttrs)) (n : string) (attrs : NodeAttrs)
    : list (string * NodeAttrs) :=
  match l with
  | [] => [(n, attrs)]
  | (k, old) :: rest =>
      if str_eqb n k then (k, update_node_attrs old attrs) :: rest
      else (k, old) :: update_node rest n attrs
  end.

Definition add_node (g : DiGraph) (n : string) (attrs : NodeAttrs) : DiGraph :=
  {| nodes := update_node (nodes g) n attrs; edges := edges g |}.

Definition edge_eqb (e e' : string * string) : bool :=
  str_eqb (fst e) (fst e') && str_eqb (snd e) (snd e').

Fixpoint update_edge (l : list ((string * string) * EdgeAttrs)) (e : string * string)
    (attrs : EdgeAttrs) : list ((string * string) * EdgeAttrs) :=
  match l with
  | [] => [(e, attrs)]
  | (k, old) :: rest =>
      if edge_eqb e k then (k, update_edge_attrs old attrs) :: rest
      else (k, old) :: update_edge rest e attrs
  end.

Definition add_edge (g : DiGraph) (u v : string) (attrs : EdgeAttrs) : DiGraph :=
  let g := if has_node g u then g else add_node g u no_attrs in
  let g := if has_node g v then g else add_node g v no_attrs in
  {| nodes := nodes g; edges := update_edge (edges g) (u, v) attrs |}.

(** [[n for n in g.nodes() if g.nodes[n].get("node_type") == "source"]]. *)
Definition is_source (g : DiGraph) (n : string) : bool :=
  match node_data g n with
  | Ok attrs => bool_decide (node_type attrs = Some "source")
  | Raise _ => false
  end.

Definition source_nodes (g : DiGraph) : list string :=
  filter (fun n => is_source g n = true) (node_names g).

(** ** graph_builder.py *)

Record Citation : Type := {
  cit_url : string;
  cit_text : option string;
  cit_type : option string;
  cit_source_type : option string;
  cit_domain : option string;
  cit_reliability : option float
}.

Record ArticleData : Type := {
  art_url : string;
  art_title : option string;
  art_word_count : option Z;
  art_citations : option (list Citation)
}.

Module CitationGraphBuilder.

Section with_libraries.
Context {url_lib : UrlLib}.

Definition _calculate_edge_weight (citation : Citation) (article_data : ArticleData)
    : PyResult float :=
  let base_weight := default 0.5%float (cit_reliability citation) in
  let all_domains :=
    map (fun c => default "" (cit_domain c)) (default [] (art_citations article_data)) in
  (do diversity <- utils.calculate_diversity_score all_domains;
   let diversity_boost := (diversity * 0.2)%float in
   let source_types :=
     map (fun c => default "other" (cit_source_type c))
         (default [] (art_citations article_data)) in
   let unique_types := count_unique source_types in
   let type_boost := py_min 0.1 (float_of_int unique_types * 0.02)%float in
   let weight := (base_weight + diversity_boost + type_boost)%float in
   Ok (py_min 1 (py_max 0 weight)))%res.

(** One iteration of the loop over the citations. *)
Definition add_citation (article_data : ArticleData) (g : DiGraph) (citation : Citation)
    : PyResult DiGraph :=
  let article_id := art_url article_data in
  let source_id := cit_url citation in
  let g :=
    if negb (has_node g source_id) then
      add_node g source_id
        {| node_type := Some "source";
           title := None; word_count := None; citation_count := None;
           domain := Some (default "" (cit_domain citation));
           source_type := Some (default "other" (cit_source_type citation));
           reliability := Some (default 0.5%float (cit_reliability citation)) |}
    else g in
  (do weight <- _calculate_edge_weight citation article_data;
   Ok (add_edge g article_id source_id
         {| weight := Some weight;
            citation_text := Some (default "" (cit_text citation)) |}))%res.

Fixpoint add_citations (article_data : ArticleData) (g : DiGraph)
    (citations : list Citation) : PyResult DiGraph :=
  match citations with
  | [] => Ok g
  | citation :: rest =>
      (do g' <- add_citation article_data g citation;
       add_citations article_data g' rest)%res
  end.

Definition build_graph (article_data : ArticleData) : PyResult DiGraph :=
  let article_id := art_url article_data in
  let citations := default [] (art_citations article_data) in
  let g :=
    add_node empty_graph article_id
      {| node_type := Some "article";
         title := Some (default "" (art_title article_data));
         word_count := Some (default 0 (art_word_count article_data));
         citation_count := Some (len citations);
         domain := None; source_type := None; reliability := None |} in
  add_citations article_data g citations.

End with_libraries.

End CitationGraphBuilder.

(** ** graph_analyzer.py *)

(** The values held by the metric dictionaries. *)
Inductive Value : Type :=
  | VFloat (x : float)
  | VInt (n : Z)
  | VStr (s : string)
  | VNone
  | VCounts (c : Counts).

Record Flag : Type := {
  flag_type : string;
  severity : string;
  message : string
}.

Record AnalysisResult : Type := {
  bias_metrics : gmap string Value;
  diversity_metrics : gmap string Value;
  red_flags : list Flag;
  quality_scores : gmap string Value;
  recommendations : list string
}.

(** [d[k]] where the value is then used as a number. *)
Definition get_number (d : gmap string Value) (k : string) : PyResult float :=
  match d !! k with
  | Some (VFloat x) => Ok x
  | Some (VInt n) => Ok (float_of_int n)
  | Some _ => Raise TypeError
  | None => Raise KeyError
  end.

Module GraphAnalyzer.

(** The analyzer object: the graph and the four cache attributes. *)
Record State : Type := {
  graph : DiGraph;
  _bias_metrics_cache : option (gmap string Value);
  _diversity_metrics_cache : option (gmap string Value);
  _quality_scores_cache : option (gmap string Value);
  _source_nodes_cache : option (list string)
}.

(** [GraphAnalyzer(graph)]. *)
Definition __init__ (g : DiGraph) : State :=
  {| graph := g;
     _bias_metrics_cache := None;
     _diversity_metrics_cache := None;
     _quality_scores_cache := None;
     _source_nodes_cache := None |}.

(** A method: it reads and updates the object and returns or raises. *)
Definition M (A : Type) : Type := State -> PyResult A * State.

Definition ret {A} (a : A) : M A := fun s => (Ok a, s).

Definition bind {A B} (m : M A) (k : A -> M B) : M B :=
  fun s =>
    match m s with
    | (Ok a, s') => k a s'
    | (Raise e, s') => (Raise e, s')
    end.

Definition lift {A} (r : PyResult A) : M A := fun s => (r, s).

Definition get_graph : M DiGraph := fun s => (Ok (graph s), s).

Declare Scope method_scope.
Delimit Scope method_scope with method.
Notation "'let*' x := m 'in' k" := (bind m (fun x => k))
  (at level 10, x name, m at level 100, k at level 200) : method_scope.

Definition zero_bias_metrics : gmap string Value :=
  <["source_concentration" := VFloat 0]>
  (<["single_cluster_risk" := VFloat 0]>
  (<["top_domain_percentage" := VFloat 0]>
  (<["ideological_cluster_score" := VFloat 0]> ∅))).

Definition zero_diversity_metrics : gmap string Value :=
  <["domain_diversity" := VFloat 0]>
  (<["source_type_diversity" := VFloat 0]>
  (<["reliability_diversity" := VFloat 0]>
  (<["overall_diversity" := VFloat 0]> ∅))).

Definition zero_quality_scores : gmap string Value :=
  <["citation_quality" := VFloat 0]>
  (<["source_reliability" := VFloat 0]>
  (<["diversity_score" := VFloat 0]>
  (<["overall_quality" := VFloat 0]> ∅))).

(** [[g.nodes[n].get(key, default) for n in names]]. *)
Definition node_attr {A} (g : DiGraph) (field : NodeAttrs -> option A) (dflt : A)
    (names : list string) : PyResult (list A) :=
  res_map (fun n => (do attrs <- node_data g n; Ok (default dflt (field attrs)))%res) names.

(** [max(counts.values()) / total if total > 0 else 0.0]. *)
Definition top_share (counts : Counts) (total : Z) : PyResult float :=
  if 0 <? total then
    (do max_count <- max_int (count_values counts); int_truediv max_count total)%res
  else Ok 0%float.

Section with_builtins.
Context {builtins : Builtins}.
Variable config : Config.

(** The text an f-string gives a value. *)
Definition py_str (v : Value) : string :=
  match v with
  | VFloat x => float_str x
  | VInt n => pretty n
  | VStr s => s
  | VNone => "None"
  | VCounts c =>
      "{" +:+ join ", " (map (fun kv => "'" +:+ fst kv +:+ "': " +:+ pretty (snd kv)) c) +:+ "}"
  end.

Definition _get_source_nodes : M (list string) :=
  fun s =>
    match _source_nodes_cache s with
    | None =>
        let l := source_nodes (graph s) in
        (Ok l,
         {| graph := graph s;
            _bias_metrics_cache := _bias_metrics_cache s;
            _diversity_metrics_cache := _diversity_metrics_cache s;
            _quality_scores_cache := _quality_scores_cache s;
            _source_nodes_cache := Some l |})
    | Some l => (Ok l, s)
    end.

Definition _calculate_bias_metrics : M (gmap string Value) :=
  fun s =>
    match _bias_metrics_cache s with
    | Some cached => (Ok cached, s)
    | None =>
        (let* source_nodes := _get_source_nodes in
         match source_nodes with
         | [] => ret zero_bias_metrics
         | _ =>
             let* g := get_graph in
             let* domains := lift (node_attr g domain "unknown" source_nodes) in
             let domain_counts := count_all domains in
             let total := len domains in
             let* top_domain_percentage := lift (top_share domain_counts total) in
             let* source_types := lift (node_attr g source_type "other" source_nodes) in
             let type_counts := count_all source_types in
             let* single_cluster_risk := lift (top_share type_counts total) in
             let* source_concentration :=
               lift (float_div_int (top_domain_percentage + single_cluster_risk)%float 2) in
             let* top_domain :=
               lift (match domain_counts with
                     | [] => Ok VNone
                     | _ => (do k <- argmax_count domain_counts; Ok (VStr k))%res
                     end) in
             ret (<["source_concentration" := VFloat source_concentration]>
                  (<["single_cluster_risk" := VFloat single_cluster_risk]>
                  (<["top_domain_percentage" := VFloat top_domain_percentage]>
                  (<["top_domain" := top_domain]>
                  (<["domain_distribution" := VCounts domain_counts]>
                  (<["source_type_distribution" := VCounts type_counts]>
                  (<["ideological_cluster_score" := VFloat single_cluster_risk]> ∅)))))))
         end)%method s
    end.

(** [x / len(l) if l else 0.0] for an int [x]. *)
Definition ratio_or_zero {A} (x : Z) (l : list A) : PyResult float :=
  match l with
  | [] => Ok 0%float
  | _ => int_truediv x (len l)
  end.

Definition reliability_spread (reliabilities : list float) : PyResult float :=
  match reliabilities with
  | [] => Ok 0%float
  | _ =>
      (do avg_reliability <- float_div_int (float_sum reliabilities) (len reliabilities);
       do squares <- res_map (fun r => float_pow (r - avg_reliability)%float 2) reliabilities;
       do reliability_variance <- float_div_int (float_sum squares) (len reliabilities);
       Ok (py_min 1 (reliability_variance * 4)%float))%res
  end.

Definition _calculate_diversity_metrics : M (gmap string Value) :=
  fun s =>
    match _diversity_metrics_cache s with
    | Some cached => (Ok cached, s)
    | None =>
        (let* source_nodes := _get_source_nodes in
         match source_nodes with
         | [] => ret zero_diversity_metrics
         | _ =>
             let* g := get_graph in
             let* domains := lift (node_attr g domain "" source_nodes) in
             let* source_types := lift (node_attr g source_type "other" source_nodes) in
             let* reliabilities := lift (node_attr g reliability 0.5%float source_nodes) in
             let unique_domains := count_unique domains in
             let* domain_diversity := lift (ratio_or_zero unique_domains domains) in
             let unique_types := count_unique source_types in
             let* source_type_diversity := lift (ratio_or_zero unique_types source_types) in
             let* reliability_diversity := lift (reliability_spread reliabilities) in
             let overall_diversity :=
               (domain_diversity * 0.4 + source_type_diversity * 0.4
                + reliability_diversity * 0.2)%float in
             ret (<["domain_diversity" := VFloat domain_diversity]>
                  (<["source_type_diversity" := VFloat source_type_diversity]>
                  (<["reliability_diversity" := VFloat reliability_diversity]>
                  (<["overall_diversity" := VFloat overall_diversity]>
                  (<["unique_domains" := VInt unique_domains]>
                  (<["unique_source_types" := VInt unique_types]> ∅))))))
         end)%method s
    end.

Definition _calculate_quality_scores : M (gmap string Value) :=
  (let* g := get_graph in
   let source_nodes := source_nodes g in
   match source_nodes with
   | [] => ret zero_quality_scores
   | _ =>
       let* reliabilities := lift (node_attr g reliability 0.5%float source_nodes) in
       let* source_reliability :=
         lift (float_div_int (float_sum reliabilities) (len reliabilities)) in
       let* diversity_metrics := _calculate_diversity_metrics in
       let* diversity_score := lift (get_number diversity_metrics "overall_diversity") in
       let citation_count := len source_nodes in
       let* share := lift (float_truediv (float_of_int citation_count) 10) in
       let citation_count_score := py_min 1 share in
       let overall_quality :=
         (source_reliability * 0.4 + diversity_score * 0.3
          + citation_count_score * 0.3)%float in
       ret (<["citation_quality" := VFloat overall_quality]>
            (<["source_reliability" := VFloat source_reliability]>
            (<["diversity_score" := VFloat diversity_score]>
            (<["citation_count_score" := VFloat citation_count_score]>
            (<["overall_quality" := VFloat overall_quality]> ∅)))))
   end)%method.

Definition append_if {A} (cond : bool) (l : list A) (x : A) : list A :=
  if cond then (l ++ [x])%list else l.

Definition _detect_red_flags (bias_metrics quality_scores : option (gmap string Value))
    : M (list Flag) :=
  (let red_flags := [] in
   let* source_nodes := _get_source_nodes in
   let* bias_metrics :=
     match bias_metrics with
     | None => _calculate_bias_metrics
     | Some d => ret d
     end in
   let* quality_scores :=
     match quality_scores with
     | None => _calculate_quality_scores
     | Some d => ret d
     end in
   let red_flags :=
     append_if (len source_nodes <? MIN_CITATIONS config) red_flags
       {| flag_type := "insufficient_citations";
          severity := "high";
          message := "Article has only " +:+ pretty (len source_nodes)
                     +:+ " citations (minimum recommended: "
                     +:+ pretty (MIN_CITATIONS config) +:+ ")" |} in
   let* g := get_graph in
   let* source_reliabilities := lift (node_attr g reliability 0.5%float source_nodes) in
   let low_reliability_sources :=
     List.filter (fun r => (r <? 0.4)%float) source_reliabilities in
   let red_flags :=
     append_if (float_of_int (len source_nodes) * 0.5
                <? float_of_int (len low_reliability_sources))%float red_flags
       {| flag_type := "low_reliability_dominance";
          severity := "medium";
          message := "Over 50% of citations are from low-reliability sources" |} in
   let* source_concentration := lift (get_number bias_metrics "source_concentration") in
   let red_flags :=
     append_if (BIAS_THRESHOLD config <? source_concentration)%float red_flags
       {| flag_type := "high_source_concentration";
          severity := "high";
          message := "Over " +:+ float_str (BIAS_THRESHOLD config * 100)%float
                     +:+ "% of citations from top domain: "
                     +:+ py_str (default (VStr "unknown") (bias_metrics !! "top_domain")) |} in
   let* single_cluster_risk := lift (get_number bias_metrics "single_cluster_risk") in
   let red_flags :=
     append_if (CLUSTER_RISK_THRESHOLD config <? single_cluster_risk)%float red_flags
       {| flag_type := "single_cluster_risk";
          severity := "high";
          message := "Over " +:+ float_str (CLUSTER_RISK_THRESHOLD config * 100)%float
                     +:+ "% of citations from single source type cluster" |} in
   let* source_types := lift (node_attr g source_type "other" source_nodes) in
   let required_types := ["academic"; "government"; "news"] in
   let missing_types := List.filter (fun t => negb (str_in t source_types)) required_types in
   let red_flags :=
     append_if (negb (bool_decide (missing_types = []))) red_flags
       {| flag_type := "missing_viewpoint_diversity";
          severity := "medium";
          message := "Missing citations from: " +:+ join ", " missing_types |} in
   ret red_flags)%method.

Definition _generate_recommendations
    (bias_metrics diversity_metrics quality_scores : option (gmap string Value))
    (red_flags : option (list Flag)) : M (list string) :=
  (let recommendations := [] in
   let* bias_metrics :=
     match bias_metrics with
     | None => _calculate_bias_metrics
     | Some d => ret d
     end in
   let* diversity_metrics :=
     match diversity_metrics with
     | None => _calculate_diversity_metrics
     | Some d => ret d
     end in
   let* quality_scores :=
     match quality_scores with
     | None => _calculate_quality_scores
     | Some d => ret d
     end in
   let* red_flags :=
     match red_flags with
     | None => _detect_red_flags (Some bias_metrics) (Some quality_scores)
     | Some l => ret l
     end in
   let* overall_quality := lift (get_number quality_scores "overall_quality") in
   let recommendations :=
     append_if (overall_quality <? 0.6)%float recommendations
       "Overall citation quality is below recommended standards. Consider adding more diverse, high-reliability sources." in
   let* source_concentration := lift (get_number bias_metrics "source_concentration") in
   let recommendations :=
     append_if (0.5 <? source_concentration)%float recommendations
       ("High concentration from "
        +:+ py_str (default (VStr "one domain") (bias_metrics !! "top_domain"))
        +:+ ". Diversify sources across multiple domains.") in
   let* source_type_diversity :=
     lift (get_number diversity_metrics "source_type_diversity") in
   let recommendations :=
     append_if (source_type_diversity <? 0.5)%float recommendations
       "Limited source type diversity. Add citations from academic, government, and NGO sources for balance." in
   let* source_reliability := lift (get_number quality_scores "source_reliability") in
   let recommendations :=
     append_if (source_reliability <? 0.6)%float recommendations
       "Average source reliability is low. Replace low-reliability sources with more authoritative ones." in
   let* source_nodes := _get_source_nodes in
   let* g := get_graph in
   let* source_types := lift (node_attr g source_type "other" source_nodes) in
   let missing_types :=
     List.filter (fun t => negb (str_in t source_types)) ["academic"; "government"] in
   let recommendations :=
     append_if (negb (bool_decide (missing_types = []))) recommendations
       ("Add citations from " +:+ join ", " missing_types
        +:+ " sources to improve credibility.") in
   ret recommendations)%method.

Definition analyze : M AnalysisResult :=
  (let* bias_metrics := _calculate_bias_metrics in
   let* diversity_metrics := _calculate_diversity_metrics in
   let* quality_scores := _calculate_quality_scores in
   let* red_flags := _detect_red_flags (Some bias_metrics) (Some quality_scores) in
   let* recommendations :=
     _generate_recommendations (Some bias_metrics) (Some diversity_metrics)
       (Some quality_scores) (Some red_flags) in
   ret {| bias_metrics := bias_metrics;
          diversity_metrics := diversity_metrics;
          red_flags := red_flags;
          quality_scores := quality_scores;
          recommendations := recommendations |})%method.

End with_builtins.

End GraphAnalyzer.

(** ** article_ingester.py *)

Module ArticleIngester.

(** An element of [soup.find_all('a', href=True)]: its [href] attribute and
    [get_text(strip=True)]. *)
Record Anchor : Type := {
  href : string;
  anchor_text : string
}.

Section with_libraries.
Context {url_lib : UrlLib} {re_lib : ReLib}.
Variable config : Config.

Definition _is_valid_citation_url (url : string) : bool :=
  if str_eqb url "" || negb (startswith url "http://" || startswith url "https://")
  then false
  else if contains (GROKIPEDIA_BASE_URL config) (lower url) then false
  else if existsb (fun ex => startswith url ex) ["mailto:"; "javascript:"; "#"; "tel:"]
  then false
  else true.

(** The citation dictionary both loops of [_extract_citations] build. *)
Definition make_citation (url text type : string) : Citation :=
  {| cit_url := url;
     cit_text := Some text;
     cit_type := Some type;
     cit_source_type := Some (utils.classify_source_type config url);
     cit_domain := Some (utils.normalize_domain url);
     cit_reliability :=
       Some (utils.calculate_reliability_score config url
               (utils.classify_source_type config url)) |}.

Definition link_step (citations : list Citation) (link : Anchor) : list Citation :=
  if _is_valid_citation_url (href link) then
    let text := if str_eqb (anchor_text link) "" then href link else anchor_text link in
    (citations ++ [make_citation (href link) text "html"])%list
  else citations.

Definition text_step (citations : list Citation) (cit : utils.TextCitation)
    : list Citation :=
  if _is_valid_citation_url (utils.tc_url cit) then
    if negb (existsb (fun c => str_eqb (cit_url c) (utils.tc_url cit)) citations) then
      (citations ++ [make_citation (utils.tc_url cit) (utils.tc_text cit) (utils.tc_type cit)])%list
    else citations
  else citations.

(** The last loop: keep the first citation for each URL stripped of its
    trailing slashes. *)
Definition unique_step (st : list Citation * gset string) (cit : Citation)
    : list Citation * gset string :=
  let normalized_url := rstrip "/" (cit_url cit) in
  if bool_decide (normalized_url ∉ st.2)
  then ((st.1 ++ [cit])%list, {[normalized_url]} ∪ st.2)
  else st.

Definition _extract_citations (links : list Anchor) (content : string) : list Citation :=
  let citations := fold_left link_step links [] in
  let text_citations := utils.extract_citations_from_text content in
  let citations := fold_left text_step text_citations citations in
  (fold_left unique_step citations ([], ∅)).1.

End with_libraries.

End ArticleIngester.

(** ** Sample data

    A small configuration and executable stand-ins for the external
    libraries, used to run the model on concrete inputs.  The URL functions
    handle [scheme://host/path] URLs and single-label public suffixes. *)

Module Sample.

Definition config : Config :=
  {| RELIABILITY_SCORES :=
       <["academic" := 0.9%float]>
       (<["government" := 0.85%float]>
       (<["ngo" := 0.7%float]>
       (<["news" := 0.6%float]>
       (<["other" := 0.4%float]> ∅))));
     TRUSTED_DOMAINS := ["edu"; "gov"];
     SOURCE_CATEGORIES :=
       [("academic", ["university"; "journal"]);
        ("news", ["news"; "times"]);
        ("other", [])];
     MIN_CITATIONS := 3;
     BIAS_THRESHOLD := 0.5%float;
     CLUSTER_RISK_THRESHOLD := 0.7%float;
     GROKIPEDIA_BASE_URL := "https://grokipedia.com" |}.

(** The text of [s] before the first occurrence of [c], and the text from
    that occurrence on. *)
Fixpoint split_at (c : ascii) (s : string) : string * string :=
  match s with
  | EmptyString => (EmptyString, EmptyString)
  | String c' rest =>
      if Ascii.eqb c c' then (EmptyString, s)
      else let (a, b) := split_at c rest in (String c' a, b)
  end.

Definition after_scheme (url : string) : option string :=
  if String.prefix "http://" url then Some (substring 7 (String.length url - 7) url)
  else if String.prefix "https://" url then Some (substring 8 (String.length url - 8) url)
  else None.

Definition sample_urlparse (url : string) : PyResult ParseResult :=
  match after_scheme url with
  | Some rest => let (host, p) := split_at "/" rest in Ok {| netloc := host; path := p |}
  | None => Ok {| netloc := ""; path := url |}
  end.

(** The labels of a host name, last label first. *)
Fixpoint labels_rev (fuel : nat) (host : string) (acc : list string) : list string :=
  match fuel with
  | O => host :: acc
  | S fuel' =>
      let (a, b) := split_at "." host in
      match b with
      | EmptyString => a :: acc
      | String _ rest => labels_rev fuel' rest (a :: acc)
      end
  end.

Definition sample_extract (host : string) : ExtractResult :=
  match labels_rev (String.length host) host [] with
  | suffix :: name :: sub =>
      {| ext_subdomain := join "." (rev sub); ext_domain := name; ext_suffix := suffix |}
  | [name] => {| ext_subdomain := ""; ext_domain := name; ext_suffix := "" |}
  | [] => {| ext_subdomain := ""; ext_domain := ""; ext_suffix := "" |}
  end.

#[export] Instance url_lib : UrlLib :=
  {| urlparse := sample_urlparse; tldextract_extract := sample_extract |}.

(** [sum] as a left fold from [0.0]; [x ** n] for the exponent 2 the sources
    use; the text of a float for the integral values the messages show. *)
Definition sample_sum (l : list float) : float :=
  fold_left (fun acc x => (acc + x)%float) l 0%float.

Definition sample_pow (x : float) (n : Z) : PyResult float :=
  let y := if n =? 2 then (x * x)%float else 1%float in
  if is_finite x && is_infinity y then Raise OverflowError else Ok y.

Definition sample_float_str (x : float) : string :=
  match Prim2SF x with
  | S754_zero s => if s then "-0.0" else "0.0"
  | S754_infinity s => if s then "-inf" else "inf"
  | S754_nan => "nan"
  | S754_finite s m e =>
      (if s then "-" else "")
      +:+ (if 0 <=? e then pretty (Z.pos m * 2 ^ e) +:+ ".0"
           else if Z.pos m mod 2 ^ (- e) =? 0 then pretty (Z.pos m / 2 ^ (- e)) +:+ ".0"
           else pretty (Z.pos m) +:+ "p" +:+ pretty e)
  end.

#[export] Instance builtins : Builtins :=
  {| float_sum := sample_sum; float_pow := sample_pow; float_str := sample_float_str |}.

Definition source_attrs (d t : string) (r : float) : NodeAttrs :=
  {| node_type := Some "source"; title := None; word_count := None;
     citation_count := None; domain := Some d; source_type := Some t;
     reliability := Some r |}.

Definition article_attrs : NodeAttrs :=
  {| node_type := Some "article"; title := Some "Sample"; word_count := Some 100;
     citation_count := Some 0; domain := None; source_type := None;
     reliability := None |}.

(** A graph with an article node and no source node. *)
Definition article_only : DiGraph :=
  {| nodes := [("https://grokipedia.com/page/Sample", article_attrs)]; edges := [] |}.

End Sample.

(** ** Vocabulary of the statements *)

(** [min(1.0, max(0.0, x))]. *)
Definition clamp01 (x : float) : float := py_min 1 (py_max 0 x).

(** [x] lies in the closed unit interval. *)
Definition in_unit_interval (x : float) : Prop :=
  (0 <=? x)%float = true /\ (x <=? 1)%float = true.

(** The number of times [x] occurs in [l]. *)
Definition occurrences (x : string) (l : list string) : nat :=
  length (filter (fun y => y = x) l).

(** The citations of an article and the two lists its edge weights read. *)
Definition citations_of (article_data : ArticleData) : list Citation :=
  default [] (art_citations article_data).

Definition all_domains (article_data : ArticleData) : list string :=
  map (fun c => default "" (cit_domain c)) (citations_of article_data).

Definition all_source_types (article_data : ArticleData) : list string :=
  map (fun c => default "other" (cit_source_type c)) (citations_of article_data).

(** The last citation of [l] whose URL is [url]. *)
Definition last_citation_for (l : list Citation) (url : string) : option Citation :=
  find (fun c => str_eqb (cit_url c) url) (rev l).

(** A node attribute as the analyzer reads it, with its default. *)
Definition attr_of {A} (g : DiGraph) (field : NodeAttrs -> option A) (dflt : A)
    (n : string) : A :=
  match node_data g n with
  | Ok attrs => default dflt (field attrs)
  | Raise _ => dflt
  end.

Definition source_domains (g : DiGraph) : list string :=
  map (attr_of g domain "unknown") (source_nodes g).

Definition source_types (g : DiGraph) : list string :=
  map (attr_of g source_type "other") (source_nodes g).

Definition has_flag (type sev : string) (flags : list Flag) : Prop :=
  exists f, f ∈ flags /\ flag_type f = type /\ severity f = sev.

(** URL normalization as the specification words it: trailing punctuation
    and the trailing slash stripped, read either as two passes or as one. *)
Definition strip_punctuation_then_slash (url : string) : string :=
  rstrip "/" (rstrip utils.punctuation url).

Definition strip_punctuation_and_slash (url : string) : string :=
  rstrip (utils.punctuation +:+ "/") url.

(** The analyzer once [_get_source_nodes] has run. *)
Definition warm (g : DiGraph) : GraphAnalyzer.State :=
  {| GraphAnalyzer.graph := g;
     GraphAnalyzer._bias_metrics_cache := None;
     GraphAnalyzer._diversity_metrics_cache := None;
     GraphAnalyzer._quality_scores_cache := None;
     GraphAnalyzer._source_nodes_cache := Some (source_nodes g) |}.

(** The states an analyzer of [g] can be in. *)
Definition analyzer_of (g : DiGraph) (s : GraphAnalyzer.State) : Prop :=
  s = GraphAnalyzer.__init__ g \/ s = warm g.

(** The key sets of the two shapes of the bias metrics. *)
Definition bias_keys_empty : gset string :=
  {[ "source_concentration"; "single_cluster_risk"; "top_domain_percentage";
     "ideological_cluster_score" ]}.

Definition bias_keys_full : gset string :=
  bias_keys_empty ∪ {[ "top_domain"; "domain_distribution"; "source_type_distribution" ]}.

(** A method is cache-transparent when, on every analyzer of [g], it returns
    what it returns once the source-node cache is filled, and leaves an
    analyzer of [g]. *)
Definition transparent {A} (m : GraphAnalyzer.M A) : Prop :=
  forall g s, analyzer_of g s ->
    (m s).1 = (m (warm g)).1 /\ analyzer_of g (m s).2.

(** The bias metrics of a graph with source nodes, given the largest domain
    count, the largest source-type count and the top domain. *)
Definition full_bias_metrics (g : DiGraph) (max_domain_count max_type_count : Z)
    (top : string) : gmap string Value :=
  let total := len (source_nodes g) in
  let top_domain_percentage := (float_of_int max_domain_count / float_of_int total)%float in
  let single_cluster_risk := (float_of_int max_type_count / float_of_int total)%float in
  let source_concentration :=
    ((top_domain_percentage + single_cluster_risk) / float_of_int 2)%float in
  <["source_concentration" := VFloat source_concentration]>
  (<["single_cluster_risk" := VFloat single_cluster_risk]>
  (<["top_domain_percentage" := VFloat top_domain_percentage]>
  (<["top_domain" := VStr top]>
  (<["domain_distribution" := VCounts (count_all (source_domains g))]>
  (<["source_type_distribution" := VCounts (count_all (source_types g))]>
  (<["ideological_cluster_score" := VFloat single_cluster_risk]> ∅)))))).

(** Scenario B: an article with ten sources, the first nine on [a.com] and
    the last on [b.com], with the given source types. *)
Definition scenario_article : string := "https://grokipedia.com/page/Sample".

Definition scenario_source (i : nat) (t : string) : string * NodeAttrs :=
  let d := if (i <? 9)%nat then "a.com" else "b.com" in
  ("https://" +:+ d +:+ "/" +:+ pretty i, Sample.source_attrs d t 0.6%float).

Definition scenario_graph (types : list string) : DiGraph :=
  let sources := imap scenario_source types in
  {| nodes := (scenario_article, Sample.article_attrs) :: sources;
     edges :=
       map (fun n => ((scenario_article, fst n),
                      {| weight := Some 0.7%float; citation_text := Some "" |}))
           sources |}.

(** Ten sources of ten different types. *)
Definition ten_types : list string :=
  ["academic"; "government"; "ngo"; "news"; "other";
   "blog"; "social"; "wiki"; "forum"; "video"].

(** Ten sources of the five categories of the specification. *)
Definition five_types : list string :=
  ["academic"; "government"; "ngo"; "news"; "other";
   "academic"; "government"; "ngo"; "news"; "other"].

(** The node list of a graph built for the article [article_id]: the article
    node first, then source nodes under distinct names other than the
    article's, and one edge from the article to each of them, in the same
    order. *)
Definition built_for (article_id : string) (g : DiGraph) : Prop :=
  exists article_attrs sources,
    nodes g = (article_id, article_attrs) :: sources /\
    node_type article_attrs = Some "article" /\
    NoDup (article_id :: map fst sources) /\
    Forall (fun kv => node_type kv.2 = Some "source") sources /\
    map fst (edges g) = map (fun kv => (article_id, kv.1)) sources.

(** A sample article citing three URLs, one of them twice. *)
Definition sample_citation (url d t : string) (r : float) : Citation :=
  {| cit_url := url; cit_text := Some "link"; cit_type := Some "markdown";
     cit_source_type := Some t; cit_domain := Some d; cit_reliability := Some r |}.

Definition sample_article : ArticleData :=
  {| art_url := "https://grokipedia.com/page/Sample";
     art_title := Some "Sample";
     art_word_count := Some 100;
     art_citations :=
       Some [sample_citation "https://nature.com/x" "nature.com" "academic" 0.9%float;
             sample_citation "https://senate.gov/y" "senate.gov" "government" 0.95%float;
             sample_citation "https://nature.com/x" "nature.com" "academic" 0.3%float;
             sample_citation "https://blog.example.com/z" "example.com" "other" 0.4%float] |}.

(** An article whose only citation is its own URL. *)
Definition self_citation : Citation :=
  sample_citation "https://grokipedia.com/page/Sample" "grokipedia.com" "other" 0.4%float.

Definition self_citing_article : ArticleData :=
  {| art_url := "https://grokipedia.com/page/Sample";
     art_title := Some "Sample";
     art_word_count := Some 100;
     art_citations := Some [self_citation] |}.

(** The edges once the citations [processed] have been added: no two edges
    join the same nodes, each edge leaves the article and carries the weight
    [w] gives the last processed citation of its target, and each processed
    citation has its edge. *)
Definition edges_for (article_id : string) (w : Citation -> float)
    (processed : list Citation) (g : DiGraph) : Prop :=
  NoDup (map fst (edges g)) /\
  Forall (fun e =>
            e.1.1 = article_id /\
            exists c, last_citation_for processed e.1.2 = Some c /\
                      weight e.2 = Some (w c))
         (edges g) /\
  (forall c, c ∈ processed -> (article_id, cit_url c) ∈ map fst (edges g)).

(** The weight the specification gives the edge of a citation, for the
    diversity score [diversity] of the article's domains. *)
Definition formula_weight (article_data : ArticleData) (diversity : float)
    (c : Citation) : float :=
  let diversity_boost := (diversity * 0.2)%float in
  let type_boost :=
    py_min 0.1 (float_of_int (count_unique (all_source_types article_data)) * 0.02)%float in
  clamp01 (default 0.5 (cit_reliability c) + diversity_boost + type_boost)%float.

(** The shape both deduplication loops share: append [x] unless its key was
    seen. *)
Definition keep_first {A} (key : A -> string) (st : list A * gset string) (x : A)
    : list A * gset string :=
  if bool_decide (key x ∉ st.2)
  then ((st.1 ++ [x])%list, {[key x]} ∪ st.2)
  else st.

(** The set of seen keys is the set of keys of the kept elements, which are
    pairwise distinct. *)
Definition first_kept {A} (key : A -> string) (st : list A * gset string) : Prop :=
  NoDup (map key st.1) /\ forall k, k ∈ st.2 <-> k ∈ map key st.1.

(** The number of matches of the three patterns in a text. *)
Definition raw_matches `{ReLib} (text : string) : nat :=
  (length (re_finditer utils.markdown_pattern false text)
   + length (re_finditer utils.html_pattern true text)
   + length (re_finditer utils.url_pattern false text))%nat.

(** Two anchors whose targets differ by a trailing full stop. *)
Definition punctuation_links : list ArticleIngester.Anchor :=
  [ {| ArticleIngester.href := "https://example.org/report";
       ArticleIngester.anchor_text := "Report" |};
    {| ArticleIngester.href := "https://example.org/report.";
       ArticleIngester.anchor_text := "the report." |} ].

(** A URL the text pass keeps has no trailing punctuation left. *)
Definition stripped (c : utils.TextCitation) : Prop :=
  rstrip utils.punctuation (utils.tc_url c) = utils.tc_url c.

(** ** graph_builder.py: statistics and clusters

    [get_graph_stats] and [get_source_clusters] read the graph the builder
    holds; they are functions of that graph here. *)

Module GraphQueries.

(** [[n for n in nodes if g.nodes[n].get("node_type") == "article"]]. *)
Definition is_article (g : DiGraph) (n : string) : bool :=
  match node_data g n with
  | Ok attrs => bool_decide (node_type attrs = Some "article")
  | Raise _ => false
  end.

Definition article_nodes (g : DiGraph) : list string :=
  filter (fun n => is_article g n = true) (node_names g).

(** [networkx.density] of a directed graph: [0] when it has no edge or at
    most one node, the number of edges over [n * (n - 1)] otherwise. *)
Definition nx_density (g : DiGraph) : PyResult Value :=
  let n := len (nodes g) in
  let m := len (edges g) in
  if (m =? 0) || (n <=? 1) then Ok (VInt 0)
  else (do d <- int_truediv m (n * (n - 1)); Ok (VFloat d))%res.

Section with_builtins.
Context {builtins : Builtins}.

Definition get_graph_stats (g : DiGraph) : PyResult (gmap string Value) :=
  match nodes g with
  | [] => Ok ∅
  | _ =>
      let nodes := node_names g in
      let edges := map fst (edges g) in
      let article_nodes := article_nodes g in
      let source_nodes := source_nodes g in
      (do source_types <- GraphAnalyzer.node_attr g source_type "other" source_nodes;
       let source_type_counts := count_all source_types in
       do reliabilities <- GraphAnalyzer.node_attr g reliability 0.5%float source_nodes;
       do avg_reliability <-
         match reliabilities with
         | [] => Ok 0%float
         | _ => float_div_int (float_sum reliabilities) (len reliabilities)
         end;
       do graph_density <- (if 1 <? len nodes then nx_density g else Ok (VFloat 0));
       Ok (<["total_nodes" := VInt (len nodes)]>
           (<["article_nodes" := VInt (len article_nodes)]>
           (<["source_nodes" := VInt (len source_nodes)]>
           (<["total_edges" := VInt (len edges)]>
           (<["source_type_distribution" := VCounts source_type_counts]>
           (<["average_reliability" := VFloat avg_reliability]>
           (<["graph_density" := graph_density]> ∅))))))))%res
  end.

End with_builtins.

(** The [clusters] dictionary: its keys in insertion order, each with the
    list of its nodes. *)
Definition Clusters : Type := list (string * list string).

(** [if key not in clusters: clusters[key] = []] then
    [clusters[key].append(node)]. *)
Fixpoint cluster_append (clusters : Clusters) (key node : string) : Clusters :=
  match clusters with
  | [] => [(key, [node])]
  | (k, members) :: rest =>
      if str_eqb key k then (k, (members ++ [node])%list) :: rest
      else (k, members) :: cluster_append rest key node
  end.

(** One iteration of the loop over the nodes. *)
Definition cluster_step (g : DiGraph) (clusters : Clusters) (node : string)
    : PyResult Clusters :=
  (do node_data <- node_data g node;
   if bool_decide (node_type node_data = Some "source") then
     let domain := default "unknown" (domain node_data) in
     let source_type := default "other" (source_type node_data) in
     let cluster_key := source_type +:+ ":" +:+ domain in
     Ok (cluster_append clusters cluster_key node)
   else Ok clusters)%res.

Fixpoint cluster_loop (g : DiGraph) (clusters : Clusters) (names : list string)
    : PyResult Clusters :=
  match names with
  | [] => Ok clusters
  | node :: rest =>
      (do clusters' <- cluster_step g clusters node; cluster_loop g clusters' rest)%res
  end.

Definition get_source_clusters (g : DiGraph) : PyResult Clusters :=
  cluster_loop g [] (node_names g).

End GraphQueries.

(** ** Vocabulary of the further statements *)

(** The attributes [build_graph] gives the article node and the source node
    of a citation. *)
Definition article_node_attrs (article_data : ArticleData) : NodeAttrs :=
  {| node_type := Some "article";
     title := Some (default "" (art_title article_data));
     word_count := Some (default 0 (art_word_count article_data));
     citation_count := Some (len (citations_of article_data));
     domain := None; source_type := None; reliability := None |}.

Definition source_node_attrs (c : Citation) : NodeAttrs :=
  {| node_type := Some "source";
     title := None; word_count := None; citation_count := None;
     domain := Some (default "" (cit_domain c));
     source_type := Some (default "other" (cit_source_type c));
     reliability := Some (default 0.5%float (cit_reliability c)) |}.

(** The first citation of [l] whose URL is [url]. *)
Definition first_citation_for (l : list Citation) (url : string) : option Citation :=
  find (fun c => str_eqb (cit_url c) url) l.

(** The nodes once the citations [processed] have been added. *)
Definition nodes_for (article_data : ArticleData) (processed : list Citation)
    (g : DiGraph) : Prop :=
  NoDup (node_names g) /\
  node_data g (art_url article_data) = Ok (article_node_attrs article_data) /\
  (forall u, u ∈ node_names g <->
             u = art_url article_data \/ exists c, c ∈ processed /\ cit_url c = u) /\
  (forall u c, u <> art_url article_data ->
               first_citation_for processed u = Some c ->
               node_data g u = Ok (source_node_attrs c)).

(** The cluster key of a source node. *)
Definition cluster_key_of (g : DiGraph) (n : string) : string :=
  attr_of g source_type "other" n +:+ ":" +:+ attr_of g domain "unknown" n.

(** [sum(values)] over ints. *)
Definition sum_Z (l : list Z) : Z := fold_right Z.add 0 l.

(** The keys of the statistics of a graph with nodes. *)
Definition stats_keys : gset string :=
  {[ "total_nodes"; "article_nodes"; "source_nodes"; "total_edges";
     "source_type_distribution"; "average_reliability"; "graph_density" ]}.

(** The clusters of the source nodes [sources]: each key with the nodes of
    that key, in the order of [sources]. *)
Definition clusters_of (g : DiGraph) (sources : list string)
    (clusters : GraphQueries.Clusters) : Prop :=
  NoDup (map fst clusters) /\
  (forall k, k ∈ map fst clusters <-> exists n, n ∈ sources /\ cluster_key_of g n = k) /\
  (forall k members, (k, members) ∈ clusters ->
     members = filter (fun n => cluster_key_of g n = k) sources).

(** The source node and the edge [build_graph] adds for a citation seen for
    the first time. *)
Definition source_node_of (c : Citation) : string * NodeAttrs :=
  (cit_url c, source_node_attrs c).

Definition edge_of (article_data : ArticleData) (diversity : float) (c : Citation)
    : (string * string) * EdgeAttrs :=
  ((art_url article_data, cit_url c),
   {| weight := Some (formula_weight article_data diversity c);
      citation_text := Some (default "" (cit_text c)) |}).

(** The graph once the citations [processed], of pairwise distinct URLs,
    have been added: the article node, then the source nodes and the edges
    in the order of the citations; a citation of the article's own URL has
    an edge and no node of its own. *)
Definition citation_graph (article_data : ArticleData) (diversity : float)
    (processed : list Citation) : DiGraph :=
  {| nodes :=
       (art_url article_data, article_node_attrs article_data)
       :: map source_node_of
            (filter (fun c => cit_url c <> art_url article_data) processed);
     edges := map (edge_of article_data diversity) processed |}.

(** An article whose citations have pairwise distinct URLs. *)
Definition distinct_article : ArticleData :=
  {| art_url := "https://grokipedia.com/page/Sample";
     art_title := Some "Sample";
     art_word_count := Some 100;
     art_citations :=
       Some [sample_citation "https://nature.com/x" "nature.com" "academic" 0.9%float;
             sample_citation "https://senate.gov/y" "senate.gov" "government" 0.95%float;
             sample_citation "https://blog.example.com/z" "example.com" "other" 0.4%float] |}.

(** A method leaves the analyzer of [g] whose source-node cache is filled as
    it is. *)
Definition settled {A} (g : DiGraph) (m : GraphAnalyzer.M A) : Prop :=
  (m (warm g)).2 = warm g.

(** The reliabilities of the source nodes, and the squares
    [(r - avg_reliability) ** 2] of [_calculate_diversity_metrics]. *)
Definition source_reliabilities (g : DiGraph) : list float :=
  map (attr_of g reliability 0.5%float) (source_nodes g).

Definition squared_deviations `{Builtins} (g : DiGraph) : PyResult (list float) :=
  let reliabilities := source_reliabilities g in
  let avg_reliability :=
    (float_sum reliabilities / float_of_int (len reliabilities))%float in
  res_map (fun r => float_pow (r - avg_reliability)%float 2) reliabilities.

(** The types of the red flags, in the order [_detect_red_flags] tests
    them. *)
Definition flag_types : list string :=
  ["insufficient_citations"; "low_reliability_dominance"; "high_source_concentration";
   "single_cluster_risk"; "missing_viewpoint_diversity"].

(** No keyword of the category occurs in the domain, or the category is the
    one [classify_source_type] skips. *)
Definition no_keyword (domain : string) (entry : string * list string) : Prop :=
  entry.1 = "other" \/ forall keyword, keyword ∈ entry.2 -> contains keyword domain = false.

(** The categories [classify_source_type] gives without reading the table. *)
Definition builtin_categories : list string := ["academic"; "government"; "ngo"; "other"].

(** The URL of a text citation begins with [http://] or [https://]. *)
Definition http_url (c : utils.TextCitation) : Prop :=
  startswith (utils.tc_url c) "http://" || startswith (utils.tc_url c) "https://" = true.

(** The three fixed recommendations of [_generate_recommendations]. *)
Definition quality_recommendation : string :=
  "Overall citation quality is below recommended standards. Consider adding more diverse, high-reliability sources.".

Definition type_diversity_recommendation : string :=
  "Limited source type diversity. Add citations from academic, government, and NGO sources for balance.".

Definition reliability_recommendation : string :=
  "Average source reliability is low. Replace low-reliability sources with more authoritative ones.".

(** A recommendation that begins with [start] is among [recs]. *)
Definition recommends (start : string) (recs : list string) : Prop :=
  exists m, m ∈ recs /\ startswith m start = true.

(** * Properties *)

(** ** The model on concrete inputs *)

Example rstrip_trailing_punctuation :
  rstrip utils.punctuation "https://example.org/a)." = "https://example.org/a" /\
  rstrip "/" "https://example.org/a//" = "https://example.org/a" /\
  rstrip utils.punctuation "https://example.org/a/" = "https://example.org/a/".
Proof. repeat split. Qed.

Example strip_and_lower :
  strip "  https://Example.org/a " = "https://Example.org/a" /\
  lower "Example.ORG" = "example.org" /\
  contains "](" "see [a](" = true /\
  slice_before "0123456789abcdef" 12 10 = "23456789ab" /\
  slice_before "0123456789abcdef" 4 10 = "0123".
Proof. repeat split. Qed.

Example count_all_order :
  count_all ["b.com"; "a.com"; "b.com"; "c.com"; "a.com"; "b.com"]
  = [("b.com", 3); ("a.com", 2); ("c.com", 1)] /\
  argmax_count [("a.com", 2); ("b.com", 3); ("c.com", 3)] = Ok "b.com" /\
  max_int [2; 3; 3; 1] = Ok 3 /\
  max_int [] = Raise ValueError.
Proof. repeat split. Qed.

Example python_min_max_on_nan :
  py_max 0 (py_min 1 nan) = 1%float /\
  py_min 1 (py_max 0 nan) = 0%float /\
  py_max 0 (py_min 1 infinity) = 1%float /\
  py_max 0 (py_min 1 neg_infinity) = 0%float.
Proof. repeat split. Qed.

Example sample_reliability_scores :
  utils.calculate_reliability_score (url_lib := Sample.url_lib) Sample.config
    "https://www.mit.edu/research" "academic" = 1%float /\
  utils.calculate_reliability_score (url_lib := Sample.url_lib) Sample.config
    "https://someone.blogspot.com/post" "other" = 0.2%float /\
  utils.classify_source_type (url_lib := Sample.url_lib) Sample.config
    "https://www.senate.gov/y" = "government".
Proof. repeat split; vm_compute; reflexivity. Qed.

Example sample_graph :
  exists g,
    CitationGraphBuilder.build_graph (url_lib := Sample.url_lib) sample_article = Ok g /\
    source_nodes g
    = ["https://nature.com/x"; "https://senate.gov/y"; "https://blog.example.com/z"] /\
    map (fun e => (e.1.2, weight e.2)) (edges g)
    = [("https://nature.com/x", Some 0.4725%float);
       ("https://senate.gov/y", Some 1%float);
       ("https://blog.example.com/z", Some 0.5725%float)].
Proof. eexists. split; [vm_compute; reflexivity|]. split; vm_compute; reflexivity. Qed.

(** ** Floats *)

Lemma ltb_leb (x y : float) : (x <? y)%float = true -> (x <=? y)%float = true.
Proof.
  rewrite FloatAxioms.ltb_spec, FloatAxioms.leb_spec. unfold SFltb, SFleb.
  destruct (SFcompare (Prim2SF x) (Prim2SF y)) as [[ | | ]|]; congruence.
Qed.

(** [max(0.0, min(1.0, x))] lies in the unit interval whatever [x] is, a NaN
    or an infinity included. *)
Lemma max_min_in_unit_interval (x : float) : in_unit_interval (py_max 0 (py_min 1 x)).
Proof.
  unfold in_unit_interval, py_max, py_min.
  destruct (x <? 1)%float eqn:Hx.
  - destruct (0 <? x)%float eqn:H0.
    + split; apply ltb_leb; assumption.
    + split; reflexivity.
  - split; reflexivity.
Qed.

(** ** utils.py *)

Section utils_properties.
Context {url_lib : UrlLib}.

Lemma count_all_singleton (k : string) : count_all [k] = [(k, 1)].
Proof. reflexivity. Qed.

(** C4, as the code has it: the diversity score of the empty list is [0.0],
    and the score of the one-element list [["a.com"]] is [0.5], the ratio
    unique/total = 1 scaled by [1 - 1 * 0.5]. *)
Theorem diversity_score_empty_and_single :
  utils.calculate_diversity_score [] = Ok 0%float /\
  utils.calculate_diversity_score ["a.com"] = Ok 0.5%float.
Proof.
  split; [reflexivity|].
  unfold utils.calculate_diversity_score. cbn [map].
  rewrite count_all_singleton. vm_compute. reflexivity.
Qed.

(** C5: the reliability score is the category's base score (0.5 for a
    category the table does not list), plus 0.1 when the public suffix is
    trusted, minus 0.2 when the domain contains a low-trust hosting name,
    clamped; for every URL, category and configuration it lies in [0,1]. *)
Theorem reliability_score_formula_and_range (config : Config) (url category : string) :
  let base := default 0.5%float (RELIABILITY_SCORES config !! category) in
  let suffix := ext_suffix (tldextract_extract (utils.extract_domain url)) in
  let trusted := str_in suffix (TRUSTED_DOMAINS config) in
  let low_trust :=
    existsb (fun s => contains s (lower (utils.extract_domain url))) utils.suspicious in
  let with_bonus := if trusted then (base + 0.1)%float else base in
  let with_penalty := if low_trust then (with_bonus - 0.2)%float else with_bonus in
  utils.calculate_reliability_score config url category = py_max 0 (py_min 1 with_penalty) /\
  in_unit_interval (utils.calculate_reliability_score config url category).
Proof.
  intros. split.
  - reflexivity.
  - apply max_min_in_unit_interval.
Qed.

End utils_properties.

(** C4, as the specification words it, fails: no behaviour of the URL
    libraries makes the score of [["a.com"]] equal to [1.0]. *)
Lemma diversity_score_single_is_not_one :
  ~ (exists url_lib : UrlLib,
       utils.calculate_diversity_score [] = Ok 0%float /\
       utils.calculate_diversity_score ["a.com"] = Ok 1%float).
Proof.
  intros (url_lib & _ & H).
  unfold utils.calculate_diversity_score in H. cbn [map] in H.
  rewrite count_all_singleton in H. vm_compute in H.
  apply (f_equal (fun r => match r with Ok x => (x =? 1)%float | Raise _ => true end)) in H.
  vm_compute in H. discriminate.
Qed.

(** ** networkx.DiGraph *)

Lemma source_node_data (g : DiGraph) (n : string) :
  n ∈ source_nodes g -> exists attrs, node_data g n = Ok attrs.
Proof.
  unfold source_nodes. rewrite list_elem_of_filter. intros [Hsrc _].
  unfold is_source in Hsrc. destruct (node_data g n) as [attrs|e]; [eauto | discriminate].
Qed.

Lemma node_attr_defined {A} (g : DiGraph) (field : NodeAttrs -> option A) (dflt : A)
    (names : list string) :
  (forall n, n ∈ names -> exists attrs, node_data g n = Ok attrs) ->
  GraphAnalyzer.node_attr g field dflt names = Ok (map (attr_of g field dflt) names).
Proof.
  unfold GraphAnalyzer.node_attr. induction names as [|n names IH]; intros Hdef.
  - reflexivity.
  - cbn [res_map map]. destruct (Hdef n) as [attrs Hn]; [left|].
    unfold attr_of at 1. rewrite Hn. cbn [res_bind].
    rewrite IH; [reflexivity|]. intros m Hm. apply Hdef. by right.
Qed.

(** Reading an attribute of the source nodes never raises. *)
Lemma source_attr_defined {A} (g : DiGraph) (field : NodeAttrs -> option A) (dflt : A) :
  GraphAnalyzer.node_attr g field dflt (source_nodes g)
  = Ok (map (attr_of g field dflt) (source_nodes g)).
Proof. apply node_attr_defined, source_node_data. Qed.

(** ** graph_analyzer.py: the caches are transparent *)

Section cache_transparency.
Context {builtins : Builtins}.
Variable config : Config.
Import GraphAnalyzer.

Lemma analyzer_of_init (g : DiGraph) : analyzer_of g (__init__ g).
Proof. by left. Qed.

Lemma analyzer_of_warm (g : DiGraph) : analyzer_of g (warm g).
Proof. by right. Qed.

Lemma transparent_ret {A} (a : A) : transparent (ret a).
Proof. intros g s Hs. split; [reflexivity | exact Hs]. Qed.

Lemma transparent_lift {A} (r : PyResult A) : transparent (lift r).
Proof. intros g s Hs. split; [reflexivity | exact Hs]. Qed.

Lemma transparent_get_graph : transparent get_graph.
Proof. intros g s [-> | ->]; (split; [reflexivity|]); [by left | by right]. Qed.

Lemma transparent_get_source_nodes : transparent _get_source_nodes.
Proof. intros g s [-> | ->]; (split; [reflexivity | by right]). Qed.

Lemma transparent_bind {A B} (m : M A) (k : A -> M B) :
  transparent m -> (forall a, transparent (k a)) -> transparent (bind m k).
Proof.
  intros Hm Hk g s Hs. unfold bind.
  destruct (Hm g s Hs) as [Hr Hs'].
  destruct (Hm g (warm g) (analyzer_of_warm g)) as [_ Hw'].
  destruct (m s) as [r s1], (m (warm g)) as [r' s2]. cbn in Hr, Hs', Hw'. subst r'.
  destruct r as [a|e].
  - destruct (Hk a g s1 Hs') as [-> Hs1].
    destruct (Hk a g s2 Hw') as [-> _]. auto.
  - auto.
Qed.

(** A method that starts by returning its cache when it holds one, where
    that cache is never filled. *)
Lemma transparent_cached {A} (cache : State -> option A) (body : M A) :
  (forall g, cache (__init__ g) = None) -> (forall g, cache (warm g) = None) ->
  transparent body ->
  transparent (fun s => match cache s with Some cached => (Ok cached, s) | None => body s end).
Proof.
  intros Hinit Hwarm Hbody g s Hs. rewrite (Hwarm g).
  destruct Hs as [-> | ->]; [rewrite Hinit | rewrite Hwarm];
    apply Hbody; [by left | by right].
Qed.

Lemma transparent_match_list {A B} (l : list A) (m1 m2 : M B) :
  transparent m1 -> transparent m2 ->
  transparent (match l with [] => m1 | _ => m2 end).
Proof. by destruct l. Qed.

Lemma transparent_or_compute {A} (o : option A) (m : M A) :
  transparent m -> transparent (match o with None => m | Some d => ret d end).
Proof. destruct o; [intros _; apply transparent_ret | done]. Qed.

Create HintDb transparent_methods.

Ltac transparency :=
  repeat first
    [ solve [auto 1 with transparent_methods nocore]
    | apply transparent_bind; [|intros ?]
    | apply transparent_ret
    | apply transparent_lift
    | apply transparent_get_graph
    | apply transparent_get_source_nodes
    | apply transparent_match_list
    | apply transparent_or_compute ].

Lemma transparent_bias_metrics : transparent _calculate_bias_metrics.
Proof.
  unfold _calculate_bias_metrics.
  apply (transparent_cached _bias_metrics_cache); [done | done |]. transparency.
Qed.

#[local] Hint Resolve transparent_bias_metrics : transparent_methods.

Lemma transparent_diversity_metrics : transparent _calculate_diversity_metrics.
Proof.
  unfold _calculate_diversity_metrics.
  apply (transparent_cached _diversity_metrics_cache); [done | done |]. transparency.
Qed.

#[local] Hint Resolve transparent_diversity_metrics : transparent_methods.

Lemma transparent_quality_scores : transparent _calculate_quality_scores.
Proof. unfold _calculate_quality_scores. transparency. Qed.

#[local] Hint Resolve transparent_quality_scores : transparent_methods.

Lemma transparent_detect_red_flags (bias quality : option (gmap string Value)) :
  transparent (_detect_red_flags config bias quality).
Proof. unfold _detect_red_flags. transparency. Qed.

#[local] Hint Resolve transparent_detect_red_flags : transparent_methods.

Lemma transparent_generate_recommendations
    (bias diversity quality : option (gmap string Value)) (flags : option (list Flag)) :
  transparent (_generate_recommendations config bias diversity quality flags).
Proof. unfold _generate_recommendations. transparency. Qed.

#[local] Hint Resolve transparent_generate_recommendations : transparent_methods.

Lemma transparent_analyze : transparent (analyze config).
Proof. unfold analyze. transparency. Qed.

(** C8: a second call of [analyze] on the same analyzer, whose graph was not
    modified, returns the result of the first call: the same five components,
    or the same exception.  The only cache ever filled is the list of source
    nodes, and it holds what the graph gives. *)
Theorem analyze_twice_same_result (g : DiGraph) :
  let first := analyze config (__init__ g) in
  let second := analyze config first.2 in
  second.1 = first.1.
Proof.
  intros first second. subst second first.
  destruct (transparent_analyze g (__init__ g) (analyzer_of_init g)) as [H1 Hs].
  destruct (transparent_analyze g _ Hs) as [H2 _].
  congruence.
Qed.

End cache_transparency.

(** ** graph_analyzer.py: a graph without source nodes *)

Lemma has_flag_append_if_keep (type sev : string) (c : bool) (l : list Flag) (x : Flag) :
  has_flag type sev l -> has_flag type sev (GraphAnalyzer.append_if c l x).
Proof.
  intros (f & Hf & H). exists f. split; [|done].
  unfold GraphAnalyzer.append_if. destruct c; [apply elem_of_app; by left | done].
Qed.

Lemma has_flag_append_if_new (c : bool) (l : list Flag) (x : Flag) :
  c = true -> has_flag (flag_type x) (severity x) (GraphAnalyzer.append_if c l x).
Proof.
  intros ->. exists x. split; [|done]. cbn. apply elem_of_app. right. by left.
Qed.

Lemma length_append_if {A} (c : bool) (l : list A) (x : A) :
  length (GraphAnalyzer.append_if c l x) = (length l + if c then 1 else 0)%nat.
Proof. destruct c; cbn; [rewrite length_app; cbn|]; lia. Qed.

Section no_source_nodes.
Context {builtins : Builtins}.
Variable config : Config.
Import GraphAnalyzer.

Lemma get_source_nodes_run (g : DiGraph) (s : State) :
  analyzer_of g s -> _get_source_nodes s = (Ok (source_nodes g), warm g).
Proof. by intros [-> | ->]. Qed.

Lemma bias_metrics_no_sources (g : DiGraph) (s : State) :
  analyzer_of g s -> source_nodes g = [] ->
  _calculate_bias_metrics s = (Ok zero_bias_metrics, warm g).
Proof.
  intros Hs Hg. unfold _calculate_bias_metrics, bind.
  rewrite (get_source_nodes_run g s Hs), Hg. by destruct Hs as [-> | ->].
Qed.

Lemma diversity_metrics_no_sources (g : DiGraph) (s : State) :
  analyzer_of g s -> source_nodes g = [] ->
  _calculate_diversity_metrics s = (Ok zero_diversity_metrics, warm g).
Proof.
  intros Hs Hg. unfold _calculate_diversity_metrics, bind.
  rewrite (get_source_nodes_run g s Hs), Hg. by destruct Hs as [-> | ->].
Qed.

Lemma quality_scores_no_sources (g : DiGraph) :
  source_nodes g = [] ->
  _calculate_quality_scores (warm g) = (Ok zero_quality_scores, warm g).
Proof.
  intros Hg. unfold _calculate_quality_scores.
  cbn [bind get_graph warm graph]. by rewrite Hg.
Qed.

(** The red flags of a graph without source nodes: the viewpoint flag is
    always there, and the citation-count flag whenever [MIN_CITATIONS] is
    positive. *)
Lemma red_flags_no_sources (g : DiGraph) (quality : gmap string Value) :
  source_nodes g = [] ->
  exists flags,
    _detect_red_flags config (Some zero_bias_metrics) (Some quality) (warm g)
    = (Ok flags, warm g) /\
    has_flag "missing_viewpoint_diversity" "medium" flags /\
    (0 < MIN_CITATIONS config ->
     has_flag "insufficient_citations" "high" flags /\ (2 <= length flags)%nat).
Proof.
  intros Hg. unfold _detect_red_flags.
  cbn [bind ret lift get_graph _get_source_nodes warm _source_nodes_cache graph].
  rewrite Hg.
  cbn [node_attr res_map bind ret lift get_graph List.filter].
  change (get_number zero_bias_metrics "source_concentration") with (Ok 0%float).
  change (get_number zero_bias_metrics "single_cluster_risk") with (Ok 0%float).
  cbn [ret]. eexists. split; [reflexivity|]. split.
  - apply (has_flag_append_if_new _ _
             {| flag_type := "missing_viewpoint_diversity"; severity := "medium" |}).
    reflexivity.
  - intros Hmin. assert (Hc : (len (@nil string) <? MIN_CITATIONS config) = true).
    { apply Z.ltb_lt. exact Hmin. }
    split.
    + do 4 apply has_flag_append_if_keep.
      apply (has_flag_append_if_new _ _
               {| flag_type := "insufficient_citations"; severity := "high" |}).
      exact Hc.
    + rewrite !length_append_if, Hc. cbn [length].
      repeat match goal with
             | |- context [if ?c then 1%nat else 0%nat] => destruct c eqn:?
             end;
        try lia;
        match goal with H : negb _ = false |- _ => vm_compute in H; discriminate H end.
Qed.

Lemma recommendations_no_sources (g : DiGraph) (flags : list Flag) :
  source_nodes g = [] ->
  exists recs,
    _generate_recommendations config (Some zero_bias_metrics)
      (Some zero_diversity_metrics) (Some zero_quality_scores) (Some flags) (warm g)
    = (Ok recs, warm g).
Proof.
  intros Hg. unfold _generate_recommendations.
  cbn [bind ret lift get_graph _get_source_nodes warm _source_nodes_cache graph].
  change (get_number zero_quality_scores "overall_quality") with (Ok 0%float).
  change (get_number zero_bias_metrics "source_concentration") with (Ok 0%float).
  change (get_number zero_diversity_metrics "source_type_diversity") with (Ok 0%float).
  change (get_number zero_quality_scores "source_reliability") with (Ok 0%float).
  rewrite Hg. cbn [node_attr res_map bind ret lift]. eexists. reflexivity.
Qed.

(** [analyze] on a graph without source nodes returns, with the three
    zero-valued metric dictionaries. *)
Lemma analyze_no_sources_run (g : DiGraph) :
  source_nodes g = [] ->
  exists flags recs,
    (analyze config (__init__ g)).1
    = Ok {| bias_metrics := zero_bias_metrics;
            diversity_metrics := zero_diversity_metrics;
            red_flags := flags;
            quality_scores := zero_quality_scores;
            recommendations := recs |} /\
    has_flag "missing_viewpoint_diversity" "medium" flags /\
    (0 < MIN_CITATIONS config ->
     has_flag "insufficient_citations" "high" flags /\ (2 <= length flags)%nat).
Proof.
  intros Hg.
  destruct (red_flags_no_sources g zero_quality_scores Hg) as (flags & Hflags & Hprops).
  destruct (recommendations_no_sources g flags Hg) as (recs & Hrecs).
  exists flags, recs. split; [|exact Hprops].
  unfold analyze, bind.
  rewrite (bias_metrics_no_sources g _ (or_introl eq_refl) Hg).
  rewrite (diversity_metrics_no_sources g _ (or_intror eq_refl) Hg).
  rewrite (quality_scores_no_sources g Hg), Hflags, Hrecs. reflexivity.
Qed.

(** C6: on a graph with no source node, and with a positive
    [MIN_CITATIONS], [analyze] returns (it does not raise); the overall
    quality is [0.0]; the bias, diversity and quality metrics are the
    dictionaries whose every value is [0.0]; and the red flags contain
    [insufficient_citations] with severity [high]. *)
Theorem analyze_no_sources (g : DiGraph) :
  source_nodes g = [] ->
  0 < MIN_CITATIONS config ->
  exists res,
    (analyze config (__init__ g)).1 = Ok res /\
    quality_scores res !! "overall_quality" = Some (VFloat 0) /\
    bias_metrics res = zero_bias_metrics /\
    diversity_metrics res = zero_diversity_metrics /\
    quality_scores res = zero_quality_scores /\
    map_Forall (fun _ v => v = VFloat 0) (bias_metrics res) /\
    map_Forall (fun _ v => v = VFloat 0) (diversity_metrics res) /\
    map_Forall (fun _ v => v = VFloat 0) (quality_scores res) /\
    has_flag "insufficient_citations" "high" (red_flags res).
Proof.
  intros Hg Hmin.
  destruct (analyze_no_sources_run g Hg) as (flags & recs & Hrun & _ & Hflags).
  destruct (Hflags Hmin) as [Hflag _].
  eexists. split; [exact Hrun|]. cbn.
  repeat split; try done;
    unfold zero_bias_metrics, zero_diversity_metrics, zero_quality_scores;
    repeat (apply map_Forall_insert_2; [reflexivity|]); apply map_Forall_empty.
Qed.

(** C9: on a graph with no source node the red flags contain
    [missing_viewpoint_diversity] with severity [medium]; with a positive
    [MIN_CITATIONS] they also contain [insufficient_citations], so there are
    at least two red flags. *)
Theorem no_sources_missing_viewpoint_flag (g : DiGraph) :
  source_nodes g = [] ->
  exists res,
    (analyze config (__init__ g)).1 = Ok res /\
    has_flag "missing_viewpoint_diversity" "medium" (red_flags res) /\
    (0 < MIN_CITATIONS config ->
     has_flag "insufficient_citations" "high" (red_flags res) /\
     (2 <= length (red_flags res))%nat).
Proof.
  intros Hg.
  destruct (analyze_no_sources_run g Hg) as (flags & recs & Hrun & Hview & Hflags).
  eexists. split; [exact Hrun|]. cbn. split; assumption.
Qed.

End no_source_nodes.

Lemma analyze_no_sources_witness :
  source_nodes Sample.article_only = [] /\
  0 < MIN_CITATIONS Sample.config /\
  exists res,
    (GraphAnalyzer.analyze (builtins := Sample.builtins) Sample.config
       (GraphAnalyzer.__init__ Sample.article_only)).1
    = Ok res /\
    quality_scores res !! "overall_quality" = Some (VFloat 0) /\
    has_flag "insufficient_citations" "high" (red_flags res).
Proof.
  assert (Hg : source_nodes Sample.article_only = []) by reflexivity.
  assert (Hmin : 0 < MIN_CITATIONS Sample.config) by (cbn; lia).
  split; [exact Hg|]. split; [exact Hmin|].
  destruct (analyze_no_sources (builtins := Sample.builtins) Sample.config Sample.article_only Hg Hmin)
    as (res & Hrun & Hq & _ & _ & _ & _ & _ & _ & Hflag).
  exists res. auto.
Defined.

Lemma no_sources_missing_viewpoint_flag_witness :
  source_nodes empty_graph = [] /\
  exists res,
    (GraphAnalyzer.analyze (builtins := Sample.builtins) Sample.config
       (GraphAnalyzer.__init__ empty_graph)).1
    = Ok res /\
    has_flag "missing_viewpoint_diversity" "medium" (red_flags res) /\
    (2 <= length (red_flags res))%nat.
Proof.
  assert (Hg : source_nodes empty_graph = []) by reflexivity.
  split; [exact Hg|].
  destruct (no_sources_missing_viewpoint_flag (builtins := Sample.builtins) Sample.config empty_graph Hg)
    as (res & Hrun & Hview & Hmin).
  exists res. split; [exact Hrun|]. split; [exact Hview|].
  apply Hmin. cbn. lia.
Defined.

(** ** Counting dictionaries *)

Lemma count_get_set (c : Counts) (k k' : string) (v : Z) :
  count_get (count_set c k v) k' = if decide (k' = k) then v else count_get c k'.
Proof.
  induction c as [|[k0 v0] c IH]; cbn; unfold str_eqb.
  - repeat case_bool_decide; repeat case_decide; congruence.
  - destruct (decide (k = k0)) as [->|Hk].
    + rewrite bool_decide_eq_true_2 by done. cbn. unfold str_eqb.
      repeat case_bool_decide; repeat case_decide; congruence.
    + rewrite bool_decide_eq_false_2 by done. cbn. unfold str_eqb. rewrite IH.
      repeat case_bool_decide; repeat case_decide; congruence.
Qed.

Lemma count_set_keys (c : Counts) (k : string) (v : Z) :
  map fst (count_set c k v)
  = if decide (k ∈ map fst c) then map fst c else (map fst c ++ [k])%list.
Proof.
  induction c as [|[k0 v0] c IH]; cbn; unfold str_eqb.
  - rewrite decide_False; [done | set_solver].
  - destruct (decide (k = k0)) as [->|Hk].
    + rewrite bool_decide_eq_true_2 by done. cbn. rewrite decide_True; [done | set_solver].
    + rewrite bool_decide_eq_false_2 by done. cbn. rewrite IH.
      destruct (decide (k ∈ map fst c)).
      * rewrite decide_True; [done | set_solver].
      * rewrite decide_False; [done | set_solver].
Qed.

Lemma count_set_nodup (c : Counts) (k : string) (v : Z) :
  NoDup (map fst c) -> NoDup (map fst (count_set c k v)).
Proof.
  intros Hc. rewrite count_set_keys. case_decide; [done|].
  apply NoDup_app. split; [done|]. split; [set_solver | apply NoDup_singleton].
Qed.

Lemma occurrences_cons (x y : string) (l : list string) :
  occurrences x (y :: l) = ((if decide (y = x) then 1 else 0) + occurrences x l)%nat.
Proof. unfold occurrences. rewrite filter_cons. by case_decide. Qed.

Lemma occurrences_le_length (x : string) (l : list string) :
  (occurrences x l <= length l)%nat.
Proof. apply length_filter. Qed.

Lemma occurrences_disjoint (x y : string) (l : list string) :
  x <> y -> (occurrences x l + occurrences y l <= length l)%nat.
Proof.
  intros Hxy. induction l as [|z l IH]; [done|].
  rewrite !occurrences_cons. cbn [length]. repeat case_decide; subst; try lia. done.
Qed.

Lemma occurrences_pos (x : string) (l : list string) :
  x ∈ l <-> (0 < occurrences x l)%nat.
Proof.
  induction l as [|y l IH].
  - split; [by intros ?%elem_of_nil | cbn; lia].
  - rewrite occurrences_cons, elem_of_cons, IH. case_decide; subst.
    + split; [lia | by left].
    + split; [intros [?|?]; [congruence | lia] | right; lia].
Qed.

Lemma count_get_fold (l : list string) (c : Counts) (k : string) :
  count_get (fold_left count_incr l c) k = count_get c k + Z.of_nat (occurrences k l).
Proof.
  revert c. induction l as [|x l IH]; intros c; cbn [fold_left].
  - unfold occurrences. cbn. lia.
  - rewrite IH. unfold count_incr. rewrite count_get_set, occurrences_cons.
    repeat case_decide; subst; try congruence; lia.
Qed.

(** After the counting loop, the entry of a key is its number of occurrences. *)
Lemma count_get_all (l : list string) (k : string) :
  count_get (count_all l) k = Z.of_nat (occurrences k l).
Proof. unfold count_all. rewrite count_get_fold. reflexivity. Qed.

Lemma count_fold_nodup (l : list string) (c : Counts) :
  NoDup (map fst c) -> NoDup (map fst (fold_left count_incr l c)).
Proof.
  revert c. induction l as [|x l IH]; intros c Hc; [done|].
  cbn [fold_left]. apply IH, count_set_nodup, Hc.
Qed.

Lemma count_fold_keys (l : list string) (c : Counts) (k : string) :
  k ∈ map fst (fold_left count_incr l c) <-> k ∈ map fst c \/ k ∈ l.
Proof.
  revert c. induction l as [|x l IH]; intros c; cbn [fold_left].
  - set_solver.
  - rewrite IH. unfold count_incr. rewrite count_set_keys. case_decide; set_solver.
Qed.

Lemma count_entry (c : Counts) (k : string) (v : Z) :
  NoDup (map fst c) -> (k, v) ∈ c -> count_get c k = v.
Proof.
  induction c as [|[k0 v0] c IH]; intros Hnd Hin; [by apply elem_of_nil in Hin|].
  cbn in Hnd. apply NoDup_cons in Hnd as [Hk0 Hnd]. cbn. unfold str_eqb.
  apply elem_of_cons in Hin as [Heq | Hin].
  - injection Heq as -> ->. by rewrite bool_decide_eq_true_2.
  - rewrite bool_decide_eq_false_2; [by apply IH|].
    intros ->. apply Hk0. apply list_elem_of_fmap. by exists (k0, v).
Qed.

(** The entries of the counting dictionary: one per distinct key, holding
    its number of occurrences. *)
Lemma count_all_entries (l : list string) (k : string) (v : Z) :
  (k, v) ∈ count_all l <-> k ∈ l /\ v = Z.of_nat (occurrences k l).
Proof.
  assert (Hnd : NoDup (map fst (count_all l))) by (apply count_fold_nodup; constructor).
  split.
  - intros Hin. split.
    + assert (Hk : k ∈ map fst (count_all l)).
      { apply list_elem_of_fmap. by exists (k, v). }
      apply count_fold_keys in Hk. set_solver.
    + rewrite <- count_get_all. symmetry. by apply count_entry.
  - intros [Hk ->].
    assert (Hin : k ∈ map fst (count_all l)) by (apply count_fold_keys; by right).
    apply list_elem_of_fmap in Hin as ([k' v'] & -> & Hin). cbn.
    rewrite <- count_get_all. by rewrite (count_entry _ _ _ Hnd Hin).
Qed.

Lemma count_all_nonempty (l : list string) : l <> [] -> count_all l <> [].
Proof.
  destruct l as [|x l]; [done|]. intros _ Hempty.
  assert (Hin : (x, Z.of_nat (occurrences x (x :: l))) ∈ count_all (x :: l)).
  { apply count_all_entries. split; [by left | done]. }
  rewrite Hempty in Hin. by apply elem_of_nil in Hin.
Qed.

(** ** The builtin [max] *)

Lemma fold_max_spec (l : list Z) (x : Z) :
  let m := fold_left (fun m y => if m <? y then y else m) l x in
  (m = x \/ m ∈ l) /\ x <= m /\ (forall y, y ∈ l -> y <= m).
Proof.
  revert x. induction l as [|z l IH]; intros x; cbn.
  - split; [by left|]. split; [lia|]. by intros y ?%elem_of_nil.
  - destruct (IH (if x <? z then z else x)) as (Hin & Hle & Hall).
    destruct (Z.ltb_spec x z).
    + split; [right; destruct Hin as [-> | ?]; [by left | by right]|].
      split; [lia|]. intros y [-> | Hy]%elem_of_cons; [lia | by apply Hall].
    + split; [destruct Hin as [-> | ?]; [by left | right; by right]|].
      split; [lia|]. intros y [-> | Hy]%elem_of_cons; [lia | by apply Hall].
Qed.

Lemma max_int_spec (l : list Z) :
  l <> [] -> exists m, max_int l = Ok m /\ m ∈ l /\ (forall y, y ∈ l -> y <= m).
Proof.
  destruct l as [|x l]; [done|]. intros _. eexists. split; [reflexivity|].
  destruct (fold_max_spec l x) as (Hin & Hle & Hall).
  split.
  - destruct Hin as [-> | ?]; [by left | by right].
  - intros y [-> | Hy]%elem_of_cons; [done | by apply Hall].
Qed.

Lemma argmax_count_defined (c : Counts) : c <> [] -> exists k, argmax_count c = Ok k.
Proof. destruct c; [done | intros _; eexists; reflexivity]. Qed.

(** The largest count of the counting dictionary: it is the number of
    occurrences of some element, and no element occurs more often. *)
Lemma max_count_spec (l : list string) :
  l <> [] ->
  exists m k,
    max_int (count_values (count_all l)) = Ok m /\
    k ∈ l /\ m = Z.of_nat (occurrences k l) /\
    (forall k', Z.of_nat (occurrences k' l) <= m).
Proof.
  intros Hl.
  assert (Hne : count_values (count_all l) <> []).
  { unfold count_values. intros H%fmap_nil_inv. by apply (count_all_nonempty l). }
  destruct (max_int_spec _ Hne) as (m & Hmax & Hin & Hall).
  unfold count_values in Hin. apply list_elem_of_fmap in Hin as ([k v] & -> & Hin).
  apply count_all_entries in Hin as [Hk ->]. cbn in *.
  exists (Z.of_nat (occurrences k l)), k. repeat split; [done | done |].
  intros k'. destruct (decide (k' ∈ l)) as [Hk' | Hk'].
  - apply Hall. unfold count_values. apply list_elem_of_fmap.
    exists (k', Z.of_nat (occurrences k' l)). split; [done|].
    by apply count_all_entries.
  - assert (occurrences k' l = 0%nat) as ->; [|lia].
    destruct (occurrences k' l) eqn:E; [done|].
    exfalso. apply Hk', occurrences_pos. lia.
Qed.

(** ** graph_analyzer.py: the bias metrics and the concentration flag *)

Lemma has_flag_append_if_inv (type sev : string) (c : bool) (l : list Flag) (x : Flag) :
  has_flag type sev (GraphAnalyzer.append_if c l x) ->
  has_flag type sev l \/ (c = true /\ flag_type x = type /\ severity x = sev).
Proof.
  intros (f & Hf & Ht & Hsev). unfold GraphAnalyzer.append_if in Hf. destruct c.
  - apply elem_of_app in Hf as [Hf | Hf].
    + left. by exists f.
    + apply list_elem_of_singleton in Hf as ->. by right.
  - left. by exists f.
Qed.

Section bias_metrics.
Context {builtins : Builtins}.
Variable config : Config.
Import GraphAnalyzer.

Lemma top_share_defined (l : list string) :
  l <> [] ->
  exists m,
    max_int (count_values (count_all l)) = Ok m /\
    top_share (count_all l) (len l) = Ok (float_of_int m / float_of_int (len l))%float.
Proof.
  intros Hl. destruct (max_count_spec l Hl) as (m & k & Hmax & _).
  exists m. split; [done|]. unfold top_share, int_truediv.
  assert (0 < len l). { unfold len. destruct l; [done | cbn; lia]. }
  rewrite (proj2 (Z.ltb_lt _ _)) by done. rewrite Hmax. cbn [res_bind].
  rewrite (proj2 (Z.eqb_neq _ _)) by lia. reflexivity.
Qed.

(** On a graph with source nodes [_calculate_bias_metrics] returns the
    seven-key dictionary; it never raises. *)
Lemma bias_metrics_run (g : DiGraph) (s : State) :
  analyzer_of g s -> source_nodes g <> [] ->
  exists max_d max_t top,
    max_int (count_values (count_all (source_domains g))) = Ok max_d /\
    max_int (count_values (count_all (source_types g))) = Ok max_t /\
    argmax_count (count_all (source_domains g)) = Ok top /\
    _calculate_bias_metrics s = (Ok (full_bias_metrics g max_d max_t top), warm g).
Proof.
  intros Hs Hne.
  assert (Hd : source_domains g <> []).
  { unfold source_domains. by intros ?%fmap_nil_inv. }
  assert (Ht : source_types g <> []).
  { unfold source_types. by intros ?%fmap_nil_inv. }
  destruct (top_share_defined _ Hd) as (max_d & Hmax_d & Hshare_d).
  destruct (top_share_defined _ Ht) as (max_t & Hmax_t & Hshare_t).
  destruct (argmax_count_defined _ (count_all_nonempty _ Hd)) as (top & Htop).
  exists max_d, max_t, top. repeat split; try done.
  assert (Hlen_d : len (source_domains g) = len (source_nodes g)).
  { unfold len, source_domains. by rewrite length_map. }
  assert (Hlen_t : len (source_types g) = len (source_nodes g)).
  { unfold len, source_types. by rewrite length_map. }
  rewrite Hlen_d in Hshare_d. rewrite Hlen_t in Hshare_t.
  unfold _calculate_bias_metrics.
  assert (_bias_metrics_cache s = None) as -> by (by destruct Hs as [-> | ->]).
  unfold bind at 1. rewrite (get_source_nodes_run g s Hs).
  destruct (source_nodes g) as [|n l] eqn:E; [done|]. rewrite <- E in *.
  cbn [bind get_graph warm graph lift].
  rewrite !source_attr_defined. fold (source_domains g) (source_types g).
  rewrite Hlen_d, Hshare_d, Hshare_t. cbn [float_div_int Z.eqb].
  destruct (count_all (source_domains g)) eqn:Ec; [by apply count_all_nonempty in Ec|].
  rewrite <- Ec in *. rewrite Htop. cbn [res_bind ret]. reflexivity.
Qed.

Lemma dom_zero_bias_metrics : dom zero_bias_metrics = bias_keys_empty.
Proof.
  unfold zero_bias_metrics, bias_keys_empty.
  rewrite !dom_insert_L, dom_empty_L. set_solver.
Qed.

Lemma dom_full_bias_metrics (g : DiGraph) (max_d max_t : Z) (top : string) :
  dom (full_bias_metrics g max_d max_t top) = bias_keys_full.
Proof.
  unfold full_bias_metrics, bias_keys_full, bias_keys_empty.
  rewrite !dom_insert_L, dom_empty_L. set_solver.
Qed.

Lemma bias_key_sets_differ : bias_keys_empty <> bias_keys_full.
Proof.
  intros H. assert (Hin : "top_domain" ∈ bias_keys_full).
  { unfold bias_keys_full. set_solver. }
  rewrite <- H in Hin. unfold bias_keys_empty in Hin.
  rewrite !elem_of_union, !elem_of_singleton in Hin.
  destruct Hin as [[[?|?]|?]|?]; discriminate.
Qed.

(** What [analyze] returns, when it returns: the bias metrics are those of
    [_calculate_bias_metrics] and the red flags those of
    [_detect_red_flags] on them. *)
Lemma analyze_inv (g : DiGraph) (res : AnalysisResult) :
  (analyze config (__init__ g)).1 = Ok res ->
  exists quality s,
    (_calculate_bias_metrics (__init__ g)).1 = Ok (bias_metrics res) /\
    analyzer_of g s /\
    (_detect_red_flags config (Some (bias_metrics res)) (Some quality) s).1
    = Ok (red_flags res).
Proof.
  unfold analyze, bind at 1.
  pose proof (transparent_bias_metrics g _ (analyzer_of_init g)) as [_ Hs1].
  destruct (_calculate_bias_metrics (__init__ g)) as [[b|e] s1]; [|discriminate].
  cbn [snd] in Hs1. unfold bind at 1.
  pose proof (transparent_diversity_metrics g _ Hs1) as [_ Hs2].
  destruct (_calculate_diversity_metrics s1) as [[d|e] s2]; [|discriminate].
  cbn [snd] in Hs2. unfold bind at 1.
  pose proof (transparent_quality_scores g _ Hs2) as [_ Hs3].
  destruct (_calculate_quality_scores s2) as [[q|e] s3]; [|discriminate].
  cbn [snd] in Hs3. unfold bind at 1.
  destruct (_detect_red_flags config (Some b) (Some q) s3) as [[f|e] s4] eqn:Ef;
    [|discriminate].
  unfold bind at 1.
  destruct (_generate_recommendations config (Some b) (Some d) (Some q) (Some f) s4)
    as [[r|e] s5]; [|discriminate].
  cbn. intros [= <-]. cbn. exists q, s3. by rewrite Ef.
Qed.

(** C10: [_calculate_bias_metrics] never raises, and the dictionary it
    returns, which is the one [analyze] returns, has the four keys
    [source_concentration], [single_cluster_risk], [top_domain_percentage]
    and [ideological_cluster_score] when the graph has no source node, and
    these four and [top_domain], [domain_distribution] and
    [source_type_distribution] when it has one. *)
Theorem bias_metrics_key_sets (g : DiGraph) :
  exists d,
    (_calculate_bias_metrics (__init__ g)).1 = Ok d /\
    dom d = (if decide (source_nodes g = []) then bias_keys_empty else bias_keys_full) /\
    bias_keys_empty <> bias_keys_full /\
    match (analyze config (__init__ g)).1 with
    | Ok res => bias_metrics res = d
    | Raise _ => True
    end.
Proof.
  assert (Hrun : exists d,
    (_calculate_bias_metrics (__init__ g)).1 = Ok d /\
    dom d = (if decide (source_nodes g = []) then bias_keys_empty else bias_keys_full)).
  { case_decide as Hg.
    - exists zero_bias_metrics.
      rewrite (bias_metrics_no_sources g _ (analyzer_of_init g) Hg).
      split; [reflexivity | apply dom_zero_bias_metrics].
    - destruct (bias_metrics_run g _ (analyzer_of_init g) Hg)
        as (max_d & max_t & top & _ & _ & _ & ->).
      eexists. split; [reflexivity | apply dom_full_bias_metrics]. }
  destruct Hrun as (d & Hd & Hdom). exists d.
  split; [exact Hd|]. split; [exact Hdom|]. split; [apply bias_key_sets_differ|].
  destruct (analyze config (__init__ g)).1 as [res|e] eqn:Hres; [|done].
  destruct (analyze_inv g res Hres) as (_ & _ & Hb & _). congruence.
Qed.

(** The concentration flag is raised exactly when the source concentration
    exceeds [BIAS_THRESHOLD]. *)
Lemma concentration_flag_iff (g : DiGraph) (s : State)
    (bias quality : gmap string Value) (sc : float) (flags : list Flag) :
  analyzer_of g s ->
  get_number bias "source_concentration" = Ok sc ->
  (_detect_red_flags config (Some bias) (Some quality) s).1 = Ok flags ->
  has_flag "high_source_concentration" "high" flags
  <-> (BIAS_THRESHOLD config <? sc)%float = true.
Proof.
  intros Hs Hsc. unfold _detect_red_flags.
  unfold bind at 1. rewrite (get_source_nodes_run g s Hs).
  cbn [bind ret lift get_graph warm graph].
  rewrite !source_attr_defined, Hsc.
  destruct (get_number bias "single_cluster_risk") as [scr|e]; [|discriminate].
  cbn [ret fst]. intros [= <-]. split.
  - intros H.
    apply has_flag_append_if_inv in H as [H | (_ & [=] & _)].
    apply has_flag_append_if_inv in H as [H | (_ & [=] & _)].
    apply has_flag_append_if_inv in H as [H | (Hc & _)]; [|exact Hc].
    apply has_flag_append_if_inv in H as [H | (_ & [=] & _)].
    apply has_flag_append_if_inv in H as [H | (_ & [=] & _)].
    destruct H as (f & Hf & _). by apply elem_of_nil in Hf.
  - intros Hc. do 2 apply has_flag_append_if_keep.
    apply (has_flag_append_if_new _ _
             {| flag_type := "high_source_concentration"; severity := "high" |}).
    exact Hc.
Qed.

End bias_metrics.

Section concentration_flag.
Context {builtins : Builtins}.
Variable config : Config.
Import GraphAnalyzer.

Lemma full_bias_source_concentration (g : DiGraph) (max_d max_t : Z) (top : string) :
  get_number (full_bias_metrics g max_d max_t top) "source_concentration"
  = Ok ((float_of_int max_d / float_of_int (len (source_nodes g))
         + float_of_int max_t / float_of_int (len (source_nodes g)))
        / float_of_int 2)%float.
Proof.
  unfold get_number, full_bias_metrics. cbn zeta. by rewrite lookup_insert_eq.
Qed.

(** With nine of ten sources on one domain, the concentration exceeds one
    half as soon as some source type occurs twice. *)
Lemma concentration_above_half (max_t : Z) :
  2 <= max_t <= 10 ->
  (0.5 <? (float_of_int 9 / float_of_int 10 + float_of_int max_t / float_of_int 10)
          / float_of_int 2)%float = true.
Proof.
  intros H.
  assert (Hcases : max_t = 2 \/ max_t = 3 \/ max_t = 4 \/ max_t = 5 \/ max_t = 6 \/
                   max_t = 7 \/ max_t = 8 \/ max_t = 9 \/ max_t = 10) by lia.
  repeat (destruct Hcases as [-> | Hcases]; [vm_compute; reflexivity|]).
  subst. vm_compute. reflexivity.
Qed.

Lemma full_bias_single_cluster_risk (g : DiGraph) (max_d max_t : Z) (top : string) :
  get_number (full_bias_metrics g max_d max_t top) "single_cluster_risk"
  = Ok (float_of_int max_t / float_of_int (len (source_nodes g)))%float.
Proof.
  unfold get_number, full_bias_metrics. cbn zeta.
  rewrite lookup_insert_ne by done. by rewrite lookup_insert_eq.
Qed.

(** [_detect_red_flags] returns when the two bias metrics it reads are
    numbers. *)
Lemma red_flags_defined (g : DiGraph) (s : State) (bias quality : gmap string Value)
    (sc scr : float) :
  analyzer_of g s ->
  get_number bias "source_concentration" = Ok sc ->
  get_number bias "single_cluster_risk" = Ok scr ->
  exists flags, (_detect_red_flags config (Some bias) (Some quality) s).1 = Ok flags.
Proof.
  intros Hs Hsc Hscr. unfold _detect_red_flags.
  unfold bind at 1. rewrite (get_source_nodes_run g s Hs).
  cbn [bind ret lift get_graph warm graph].
  rewrite !source_attr_defined, Hsc, Hscr. cbn [ret fst]. by eexists.
Qed.

(** C7, as the code has it: on a graph with exactly ten source nodes, nine
    of which share one domain and two of which share one source type, and
    with [BIAS_THRESHOLD = 0.5], the red flags contain
    [high_source_concentration] with severity [high]: the bias metrics and
    the red-flag detection on them return and give the flag, and so does
    every result [analyze] returns. *)
Theorem concentrated_sources_flag (g : DiGraph) (d t : string) :
  BIAS_THRESHOLD config = 0.5%float ->
  length (source_nodes g) = 10%nat ->
  occurrences d (source_domains g) = 9%nat ->
  (2 <= occurrences t (source_types g))%nat ->
  (exists bias,
     (_calculate_bias_metrics (__init__ g)).1 = Ok bias /\
     forall quality, exists flags,
       (_detect_red_flags config (Some bias) (Some quality) (warm g)).1 = Ok flags /\
       has_flag "high_source_concentration" "high" flags) /\
  (forall res,
     (analyze config (__init__ g)).1 = Ok res ->
     has_flag "high_source_concentration" "high" (red_flags res)).
Proof.
  intros Hthr Hlen Hd Ht.
  assert (Hne : source_nodes g <> []) by (intros E; by rewrite E in Hlen).
  destruct (bias_metrics_run g _ (analyzer_of_init g) Hne)
    as (max_d & max_t & top & Hmax_d & Hmax_t & _ & Hbias).
  (* the largest domain count is 9 *)
  assert (Hd_ne : source_domains g <> []).
  { unfold source_domains. by intros ?%fmap_nil_inv. }
  destruct (max_count_spec _ Hd_ne) as (m & k & Hm & _ & Hk & Hall).
  rewrite Hm in Hmax_d. injection Hmax_d as <-.
  assert (Hlen_d : length (source_domains g) = 10%nat).
  { unfold source_domains. by rewrite length_map. }
  assert (m = 9) as ->.
  { pose proof (Hall d) as Hle. pose proof (occurrences_le_length k (source_domains g)).
    destruct (decide (k = d)) as [-> | Hkd]; [lia|].
    pose proof (occurrences_disjoint k d (source_domains g) Hkd). lia. }
  (* the largest source-type count lies between 2 and 10 *)
  assert (Ht_ne : source_types g <> []).
  { unfold source_types. by intros ?%fmap_nil_inv. }
  destruct (max_count_spec _ Ht_ne) as (m & k' & Hm' & _ & Hk' & Hall').
  rewrite Hm' in Hmax_t. injection Hmax_t as <-.
  assert (Hrange : 2 <= m <= 10).
  { pose proof (Hall' t). pose proof (occurrences_le_length k' (source_types g)).
    assert (length (source_types g) = 10%nat).
    { unfold source_types. by rewrite length_map. }
    lia. }
  (* the source concentration exceeds the threshold *)
  pose proof (full_bias_source_concentration g 9 m top) as Hsc.
  pose proof (full_bias_single_cluster_risk g 9 m top) as Hscr.
  assert (Habove : (BIAS_THRESHOLD config
                    <? (float_of_int 9 / float_of_int (len (source_nodes g))
                        + float_of_int m / float_of_int (len (source_nodes g)))
                       / float_of_int 2)%float = true).
  { rewrite Hthr. unfold len. rewrite Hlen. apply concentration_above_half, Hrange. }
  split.
  - exists (full_bias_metrics g 9 m top). rewrite Hbias. split; [reflexivity|].
    intros quality.
    destruct (red_flags_defined g (warm g) _ quality _ _ (analyzer_of_warm g) Hsc Hscr)
      as [flags Hflags].
    exists flags. split; [exact Hflags|].
    by apply (concentration_flag_iff config g (warm g) _ quality _ flags
                (analyzer_of_warm g) Hsc Hflags).
  - intros res Hres.
    destruct (analyze_inv config g res Hres) as (quality & s & Hb & Hs & Hflags).
    rewrite Hbias in Hb. cbn [fst] in Hb. injection Hb as Hb.
    rewrite Hb in Hsc.
    by apply (concentration_flag_iff config g s _ quality _ _ Hs Hsc Hflags).
Qed.

End concentration_flag.

Lemma concentrated_sources_flag_witness :
  BIAS_THRESHOLD Sample.config = 0.5%float /\
  length (source_nodes (scenario_graph five_types)) = 10%nat /\
  occurrences "a.com" (source_domains (scenario_graph five_types)) = 9%nat /\
  (2 <= occurrences "news" (source_types (scenario_graph five_types)))%nat /\
  exists res,
    (GraphAnalyzer.analyze (builtins := Sample.builtins) Sample.config
       (GraphAnalyzer.__init__ (scenario_graph five_types))).1 = Ok res /\
    has_flag "high_source_concentration" "high" (red_flags res).
Proof.
  assert (H1 : BIAS_THRESHOLD Sample.config = 0.5%float) by reflexivity.
  assert (H2 : length (source_nodes (scenario_graph five_types)) = 10%nat)
    by (vm_compute; reflexivity).
  assert (H3 : occurrences "a.com" (source_domains (scenario_graph five_types)) = 9%nat)
    by (vm_compute; reflexivity).
  assert (H4 : (2 <= occurrences "news" (source_types (scenario_graph five_types)))%nat).
  { assert (occurrences "news" (source_types (scenario_graph five_types)) = 2%nat) as ->
      by (vm_compute; reflexivity). lia. }
  repeat (split; [assumption|]).
  destruct (GraphAnalyzer.analyze (builtins := Sample.builtins) Sample.config
              (GraphAnalyzer.__init__ (scenario_graph five_types))).1 as [res|e] eqn:Hres.
  - exists res. split; [reflexivity|].
    exact (proj2 (concentrated_sources_flag (builtins := Sample.builtins) Sample.config
                    (scenario_graph five_types) "a.com" "news" H1 H2 H3 H4) res Hres).
  - vm_compute in Hres. discriminate Hres.
Defined.

(** C7, as the specification words it, fails: ten sources of ten different
    types, nine of them on [a.com], have a source concentration of exactly
    one half, which does not exceed the threshold; [analyze] returns and
    raises no concentration flag, whatever the builtins compute. *)
Lemma ten_distinct_types_no_concentration_flag :
  BIAS_THRESHOLD Sample.config = 0.5%float /\
  length (source_nodes (scenario_graph ten_types)) = 10%nat /\
  occurrences "a.com" (source_domains (scenario_graph ten_types)) = 9%nat /\
  (exists res,
     (GraphAnalyzer.analyze (builtins := Sample.builtins) Sample.config
        (GraphAnalyzer.__init__ (scenario_graph ten_types))).1 = Ok res) /\
  ~ (exists (builtins : Builtins) (res : AnalysisResult),
       (GraphAnalyzer.analyze Sample.config
          (GraphAnalyzer.__init__ (scenario_graph ten_types))).1 = Ok res /\
       has_flag "high_source_concentration" "high" (red_flags res)).
Proof.
  split; [reflexivity|]. split; [vm_compute; reflexivity|].
  split; [vm_compute; reflexivity|]. split.
  - destruct (GraphAnalyzer.analyze (builtins := Sample.builtins) Sample.config
                (GraphAnalyzer.__init__ (scenario_graph ten_types))).1 as [res|e] eqn:Hres.
    + by exists res.
    + vm_compute in Hres. discriminate Hres.
  - intros (builtins & res & Hres & Hflag).
    assert (Hne : source_nodes (scenario_graph ten_types) <> []).
    { intros E. apply (f_equal length) in E. vm_compute in E. discriminate E. }
    destruct (bias_metrics_run (scenario_graph ten_types) _
                (analyzer_of_init _) Hne)
      as (max_d & max_t & top & Hmax_d & Hmax_t & _ & Hbias).
    vm_compute in Hmax_d. injection Hmax_d as <-.
    vm_compute in Hmax_t. injection Hmax_t as <-.
    destruct (analyze_inv Sample.config _ res Hres) as (quality & s & Hb & Hs & Hflags).
    rewrite Hbias in Hb. cbn [fst] in Hb. injection Hb as Hb.
    pose proof (full_bias_source_concentration (scenario_graph ten_types) 9 1 top) as Hsc.
    rewrite Hb in Hsc.
    apply (concentration_flag_iff Sample.config _ s _ quality _ _ Hs Hsc Hflags) in Hflag.
    vm_compute in Hflag. discriminate Hflag.
Qed.

(** ** graph_builder.py *)

Lemma update_node_fresh (l : list (string * NodeAttrs)) (n : string) (attrs : NodeAttrs) :
  n ∉ map fst l -> update_node l n attrs = (l ++ [(n, attrs)])%list.
Proof.
  induction l as [|[k old] l IH]; intros Hn; [done|]. cbn in *. unfold str_eqb.
  rewrite bool_decide_eq_false_2 by set_solver. rewrite IH; [done | set_solver].
Qed.

Lemma update_edge_fresh (l : list ((string * string) * EdgeAttrs)) (e : string * string)
    (attrs : EdgeAttrs) :
  e ∉ map fst l -> update_edge l e attrs = (l ++ [(e, attrs)])%list.
Proof.
  induction l as [|[k old] l IH]; intros He; [done|]. cbn in *.
  assert (edge_eqb e k = false) as ->.
  { unfold edge_eqb, str_eqb. destruct e as [u v], k as [u' v']. cbn.
    destruct (decide (u = u')) as [->|]; [|by rewrite bool_decide_eq_false_2].
    destruct (decide (v = v')) as [->|]; [set_solver|].
    by rewrite (bool_decide_eq_false_2 (v = v')), andb_false_r. }
  rewrite IH; [done | set_solver].
Qed.

Lemma update_edge_keys_present (l : list ((string * string) * EdgeAttrs))
    (e : string * string) (attrs : EdgeAttrs) :
  e ∈ map fst l -> map fst (update_edge l e attrs) = map fst l.
Proof.
  induction l as [|[k old] l IH]; intros He; [by apply elem_of_nil in He|]. cbn in *.
  destruct (edge_eqb e k) eqn:E; [done|]. cbn. f_equal. apply IH.
  apply elem_of_cons in He as [-> | He]; [|done].
  unfold edge_eqb, str_eqb in E. by rewrite !bool_decide_eq_true_2 in E.
Qed.

Lemma has_node_spec (g : DiGraph) (n : string) :
  has_node g n = true <-> n ∈ map fst (nodes g).
Proof. unfold has_node, str_in, node_names. apply bool_decide_eq_true. Qed.

Lemma find_node (l : list (string * NodeAttrs)) (k : string) (attrs : NodeAttrs) :
  NoDup (map fst l) -> (k, attrs) ∈ l ->
  find (fun kv => str_eqb k kv.1) l = Some (k, attrs).
Proof.
  induction l as [|[k0 a0] l IH]; intros Hnd Hin; [by apply elem_of_nil in Hin|].
  cbn in Hnd. apply NoDup_cons in Hnd as [Hk0 Hnd]. cbn. unfold str_eqb.
  apply elem_of_cons in Hin as [[= -> ->] | Hin].
  - by rewrite bool_decide_eq_true_2.
  - rewrite bool_decide_eq_false_2; [by apply IH|].
    intros ->. apply Hk0, list_elem_of_fmap. by exists (k0, attrs).
Qed.

Lemma filter_all {A} (P : A -> Prop) `{!forall x, Decision (P x)} (l : list A) :
  Forall P l -> filter P l = l.
Proof.
  induction 1 as [|x l Hx Hl IH]; [done|]. by rewrite filter_cons_True, IH.
Qed.

(** In a graph built for an article, the source nodes are the nodes after
    the article's, and there is one edge for each. *)
Lemma built_for_counts (article_id : string) (g : DiGraph) :
  built_for article_id g -> length (source_nodes g) = length (edges g).
Proof.
  intros (a & sources & Hnodes & Ha & Hnd & Hsrc & Hedges).
  assert (Hkeys : NoDup (map fst (nodes g))) by (by rewrite Hnodes).
  assert (source_nodes g = map fst sources) as ->.
  { unfold source_nodes, node_names. rewrite Hnodes. cbn [map fst].
    rewrite filter_cons_False.
    - apply filter_all. apply Forall_fmap, Forall_forall. intros [k attrs] Hin. cbn.
      unfold is_source, node_data.
      rewrite (find_node (nodes g) k attrs Hkeys); [|rewrite Hnodes; by right].
      cbn. apply bool_decide_eq_true.
      rewrite Forall_forall in Hsrc. apply (Hsrc (k, attrs) Hin).
    - unfold is_source, node_data.
      rewrite (find_node (nodes g) article_id a Hkeys); [|rewrite Hnodes; by left].
      cbn. rewrite Ha. by rewrite bool_decide_eq_false_2. }
  rewrite <- (length_map fst (edges g)), Hedges. by rewrite !length_map.
Qed.

Section graph_builder.
Context {url_lib : UrlLib}.
Import CitationGraphBuilder.

(** The diversity score never raises: the divisions are guarded. *)
Lemma diversity_score_defined (domains : list string) :
  exists d, utils.calculate_diversity_score domains = Ok d.
Proof.
  destruct domains as [|x domains]; [by eexists|].
  unfold utils.calculate_diversity_score.
  set (l := x :: domains).
  assert (Hlen : 0 < len l) by (unfold len; cbn; lia).
  rewrite (proj2 (Z.ltb_lt _ _) Hlen). unfold int_truediv at 1.
  rewrite (proj2 (Z.eqb_neq _ _)) by lia. cbn [res_bind].
  assert (Hne : map utils.normalize_domain l <> []) by done.
  destruct (max_count_spec _ Hne) as (m & k & Hmax & _).
  destruct (count_all (map utils.normalize_domain l)) eqn:Ec;
    [by apply count_all_nonempty in Ec|].
  rewrite <- Ec in *. rewrite Hmax. cbn [res_bind]. unfold int_truediv.
  rewrite (proj2 (Z.eqb_neq _ _)) by lia. by eexists.
Qed.

(** The weight of an edge, given the diversity score of the article. *)
Lemma edge_weight_run (citation : Citation) (article_data : ArticleData) (diversity : float) :
  utils.calculate_diversity_score (all_domains article_data) = Ok diversity ->
  _calculate_edge_weight citation article_data
  = Ok (clamp01 (default 0.5 (cit_reliability citation) + diversity * 0.2
                 + py_min 0.1 (float_of_int (count_unique (all_source_types article_data))
                               * 0.02))%float).
Proof.
  intros Hd. unfold _calculate_edge_weight.
  fold (citations_of article_data). fold (all_domains article_data).
  rewrite Hd. reflexivity.
Qed.

Lemma add_citation_defined (article_data : ArticleData) (g : DiGraph) (c : Citation) :
  exists g', add_citation article_data g c = Ok g'.
Proof.
  destruct (diversity_score_defined (all_domains article_data)) as [d Hd].
  unfold add_citation. rewrite (edge_weight_run _ _ d Hd). by eexists.
Qed.

(** One iteration keeps the shape of the graph, when the citation is not to
    the article itself. *)
Lemma add_citation_built_for (article_data : ArticleData) (g g' : DiGraph) (c : Citation) :
  cit_url c <> art_url article_data ->
  built_for (art_url article_data) g ->
  add_citation article_data g c = Ok g' ->
  built_for (art_url article_data) g'.
Proof.
  intros Hurl (a & sources & Hnodes & Ha & Hnd & Hsrc & Hedges).
  destruct (diversity_score_defined (all_domains article_data)) as [d Hd].
  unfold add_citation. rewrite (edge_weight_run _ _ d Hd). cbn [res_bind].
  intros [= <-].
  set (aid := art_url article_data) in *. set (u := cit_url c) in *.
  destruct (has_node g u) eqn:Hhas; cbn [negb].
  - (* the node exists: only the edge is updated *)
    apply has_node_spec in Hhas.
    assert (Hu : u ∈ map fst sources).
    { rewrite Hnodes in Hhas. cbn in Hhas. set_solver. }
    unfold add_edge.
    rewrite (proj2 (has_node_spec g aid)) by (rewrite Hnodes; cbn; set_solver).
    rewrite (proj2 (has_node_spec g u)) by done. cbn [nodes edges].
    exists a, sources. cbn [nodes edges]. repeat split; try done.
    rewrite update_edge_keys_present; [done|].
    rewrite Hedges. apply list_elem_of_fmap in Hu as (kv & -> & Hkv).
    apply list_elem_of_fmap. by exists kv.
  - (* a new node and a new edge *)
    assert (Hu : u ∉ map fst (nodes g)).
    { intros H. apply has_node_spec in H. congruence. }
    assert (Hu' : u ∉ map fst sources).
    { rewrite Hnodes in Hu. cbn in Hu. set_solver. }
    set (attrs := {| node_type := Some "source" |}).
    unfold add_edge, add_node. rewrite (update_node_fresh _ _ _ Hu).
    set (g1 := {| nodes := (nodes g ++ [(u, attrs)])%list; edges := edges g |}).
    assert (H1 : has_node g1 aid = true).
    { apply has_node_spec. cbn. rewrite Hnodes. cbn. set_solver. }
    assert (H2 : has_node g1 u = true).
    { apply has_node_spec. cbn. rewrite map_app. cbn. set_solver. }
    rewrite H1, H2. subst g1. cbn [nodes edges].
    exists a, (sources ++ [(u, attrs)])%list. cbn [nodes edges].
    split; [by rewrite Hnodes|].
    split; [done|]. split.
    { rewrite map_app. cbn. apply NoDup_cons in Hnd as [Haid Hnd].
      apply NoDup_cons. split; [set_solver|].
      apply NoDup_app. split; [done|]. split; [set_solver | apply NoDup_singleton]. }
    split.
    { apply Forall_app. split; [done|]. by apply Forall_singleton. }
    rewrite update_edge_fresh.
    + rewrite !map_app, Hedges. reflexivity.
    + rewrite Hedges. intros H. apply list_elem_of_fmap in H as (kv & [= Hkv] & Hin).
      apply Hu', list_elem_of_fmap. by exists kv.
Qed.

Lemma add_citations_built_for (article_data : ArticleData) (citations : list Citation)
    (g : DiGraph) :
  art_url article_data ∉ map cit_url citations ->
  built_for (art_url article_data) g ->
  exists g', add_citations article_data g citations = Ok g' /\
             built_for (art_url article_data) g'.
Proof.
  revert g. induction citations as [|c citations IH]; intros g Hurls Hg.
  - by exists g.
  - cbn [add_citations].
    destruct (add_citation_defined article_data g c) as [g1 Hg1]. rewrite Hg1.
    cbn [res_bind]. apply IH; [set_solver|].
    apply (add_citation_built_for _ g g1 c); [set_solver | done | done].
Qed.

(** C2, as the code has it: when no citation's URL is the article's own
    URL, [build_graph] returns a graph with exactly as many edges as nodes
    of type [source]. *)
Theorem build_graph_sources_eq_edges (article_data : ArticleData) :
  art_url article_data ∉ map cit_url (citations_of article_data) ->
  exists g, build_graph article_data = Ok g /\
            length (source_nodes g) = length (edges g).
Proof.
  intros Hurls. unfold build_graph. fold (citations_of article_data).
  destruct (add_citations_built_for article_data (citations_of article_data)
              (add_node empty_graph (art_url article_data)
                 {| node_type := Some "article";
                    title := Some (default "" (art_title article_data));
                    word_count := Some (default 0 (art_word_count article_data));
                    citation_count := Some (len (citations_of article_data));
                    domain := None; source_type := None; reliability := None |}))
    as (g & Hg & Hbuilt); [exact Hurls | | ].
  - eexists _, []. cbn. repeat split; try done.
    apply NoDup_singleton.
  - exists g. split; [exact Hg|]. by apply (built_for_counts (art_url article_data)).
Qed.

End graph_builder.

Lemma build_graph_sources_eq_edges_witness :
  (art_url sample_article ∉ map cit_url (citations_of sample_article)) /\
  exists g,
    CitationGraphBuilder.build_graph (url_lib := Sample.url_lib) sample_article = Ok g /\
    length (source_nodes g) = length (edges g).
Proof.
  assert (H : art_url sample_article ∉ map cit_url (citations_of sample_article)).
  { cbn. rewrite !not_elem_of_cons. repeat split; try discriminate.
    apply not_elem_of_nil. }
  split; [exact H|].
  exact (build_graph_sources_eq_edges (url_lib := Sample.url_lib) sample_article H).
Defined.

(** C2, as the specification words it, fails: for an article that cites its
    own URL, [build_graph] adds a self-loop edge and no source node, whatever
    the URL libraries compute. *)
Lemma build_graph_self_citation :
  (exists g,
     CitationGraphBuilder.build_graph (url_lib := Sample.url_lib) self_citing_article
     = Ok g /\
     length (source_nodes g) = 0%nat /\ length (edges g) = 1%nat) /\
  ~ (exists (url_lib : UrlLib) (g : DiGraph),
       CitationGraphBuilder.build_graph self_citing_article = Ok g /\
       length (source_nodes g) = length (edges g)).
Proof.
  split.
  - eexists. split; [vm_compute; reflexivity|]. split; reflexivity.
  - intros (url_lib & g & Hg & Hcount).
    destruct (diversity_score_defined (all_domains self_citing_article)) as [d Hd].
    unfold CitationGraphBuilder.build_graph in Hg.
    change (default [] (art_citations self_citing_article)) with [self_citation] in Hg.
    cbn [CitationGraphBuilder.add_citations] in Hg.
    unfold CitationGraphBuilder.add_citation in Hg.
    rewrite (edge_weight_run _ self_citing_article d Hd) in Hg.
    cbn [res_bind] in Hg. injection Hg as <-. vm_compute in Hcount. discriminate Hcount.
Qed.

Lemma edge_eqb_eq (e k : string * string) : edge_eqb e k = true <-> e = k.
Proof.
  destruct e as [u v], k as [u' v']. unfold edge_eqb, str_eqb. cbn.
  rewrite andb_true_iff, !bool_decide_eq_true.
  split; [by intros [-> ->] | by intros [= -> ->]].
Qed.

Lemma update_edge_keys (l : list ((string * string) * EdgeAttrs)) (e : string * string)
    (attrs : EdgeAttrs) :
  map fst (update_edge l e attrs)
  = if decide (e ∈ map fst l) then map fst l else (map fst l ++ [e])%list.
Proof.
  case_decide as He.
  - by apply update_edge_keys_present.
  - rewrite update_edge_fresh by done. by rewrite map_app.
Qed.

Lemma update_edge_nodup (l : list ((string * string) * EdgeAttrs)) (e : string * string)
    (attrs : EdgeAttrs) :
  NoDup (map fst l) -> NoDup (map fst (update_edge l e attrs)).
Proof.
  intros Hl. rewrite update_edge_keys. case_decide; [done|].
  apply NoDup_app. split; [done|]. split; [set_solver | apply NoDup_singleton].
Qed.

(** Updating an edge changes the entry of that edge and no other. *)
Lemma update_edge_Forall (P Q : (string * string) * EdgeAttrs -> Prop)
    (l : list ((string * string) * EdgeAttrs)) (e : string * string) (attrs : EdgeAttrs) :
  NoDup (map fst l) ->
  Forall P l ->
  (forall k a, P (k, a) -> k <> e -> Q (k, a)) ->
  (forall old, Q (e, update_edge_attrs old attrs)) ->
  Q (e, attrs) ->
  Forall Q (update_edge l e attrs).
Proof.
  intros Hnd Hl Hother Hupd Hnew.
  induction Hl as [|[k a] l Hk Hl IH]; cbn.
  - by apply Forall_singleton.
  - cbn in Hnd. apply NoDup_cons in Hnd as [Hfresh Hnd].
    destruct (edge_eqb e k) eqn:E.
    + apply edge_eqb_eq in E as <-. apply Forall_cons. split; [apply Hupd|].
      apply Forall_forall. intros [k' a'] Hin. rewrite Forall_forall in Hl.
      apply Hother; [by apply Hl|]. intros ->.
      apply Hfresh, list_elem_of_fmap. by exists (e, a').
    + apply Forall_cons. split; [|by apply IH]. apply Hother; [done|].
      intros ->. assert (edge_eqb e e = true) by (by apply edge_eqb_eq). congruence.
Qed.

Lemma last_citation_for_snoc (l : list Citation) (c : Citation) (url : string) :
  last_citation_for (l ++ [c]) url
  = if decide (cit_url c = url) then Some c else last_citation_for l url.
Proof.
  unfold last_citation_for. rewrite rev_app_distr. cbn. unfold str_eqb.
  case_decide; [by rewrite bool_decide_eq_true_2 | by rewrite bool_decide_eq_false_2].
Qed.

Lemma add_edge_edges (g : DiGraph) (u v : string) (attrs : EdgeAttrs) :
  edges (add_edge g u v attrs) = update_edge (edges g) (u, v) attrs.
Proof.
  unfold add_edge. cbn zeta. destruct (has_node g u); cbn [edges];
    match goal with |- context [has_node ?g' v] => destruct (has_node g' v) end;
    reflexivity.
Qed.

Section edge_weights.
Context {url_lib : UrlLib}.
Import CitationGraphBuilder.

Variable article_data : ArticleData.
Variable diversity : float.
Hypothesis diversity_run :
  utils.calculate_diversity_score (all_domains article_data) = Ok diversity.

#[local] Abbreviation spec_weight := (formula_weight article_data diversity).

Lemma add_citation_edges_for (processed : list Citation) (g g' : DiGraph) (c : Citation) :
  edges_for (art_url article_data) spec_weight processed g ->
  add_citation article_data g c = Ok g' ->
  edges_for (art_url article_data) spec_weight (processed ++ [c]) g'.
Proof.
  intros (Hnd & Hall & Hcover).
  unfold add_citation. rewrite (edge_weight_run _ _ diversity diversity_run).
  cbn [res_bind]. intros [= <-].
  set (aid := art_url article_data) in *. set (u := cit_url c) in *.
  set (g0 := if negb (has_node g u) then add_node g u _ else g).
  assert (Hedges0 : edges g0 = edges g) by (subst g0; by destruct (has_node g u)).
  unfold edges_for. rewrite add_edge_edges, Hedges0. split; [by apply update_edge_nodup|]. split.
  - eapply update_edge_Forall; [exact Hnd | exact Hall | | |].
    + intros [u' v] a (Hsrc & c' & Hlast & Hw) Hne. cbn in *. split; [done|].
      exists c'. rewrite last_citation_for_snoc. split; [|done].
      rewrite decide_False; [done|]. fold u. intros <-. apply Hne. by rewrite Hsrc.
    + intros old. cbn. split; [done|]. exists c.
      rewrite last_citation_for_snoc, decide_True by done. done.
    + cbn. split; [done|]. exists c.
      rewrite last_citation_for_snoc, decide_True by done. done.
  - intros c' Hc'. rewrite update_edge_keys.
    apply elem_of_app in Hc' as [Hc' | Hc'%list_elem_of_singleton].
    + specialize (Hcover c' Hc'). case_decide; [done | set_solver].
    + subst c'. fold u. case_decide; [done | set_solver].
Qed.

Lemma add_citations_edges_for (processed rest : list Citation) (g : DiGraph) :
  edges_for (art_url article_data) spec_weight processed g ->
  exists g', add_citations article_data g rest = Ok g' /\
             edges_for (art_url article_data) spec_weight (processed ++ rest) g'.
Proof.
  revert processed g. induction rest as [|c rest IH]; intros processed g Hg.
  - exists g. by rewrite app_nil_r.
  - cbn [add_citations].
    destruct (add_citation_defined article_data g c) as [g1 Hg1]. rewrite Hg1.
    cbn [res_bind].
    destruct (IH (processed ++ [c])%list g1) as (g' & Hg' & Hinv).
    + by apply (add_citation_edges_for processed g g1 c).
    + exists g'. split; [done|]. by rewrite <- app_assoc in Hinv.
Qed.

Lemma build_graph_edges_for :
  exists g, build_graph article_data = Ok g /\
            edges_for (art_url article_data) spec_weight (citations_of article_data) g.
Proof.
  unfold build_graph. fold (citations_of article_data).
  apply (add_citations_edges_for [] (citations_of article_data)).
  split; [constructor|]. split; [constructor|]. by intros c ?%elem_of_nil.
Qed.

End edge_weights.

(** C1: [build_graph] returns a graph each of whose edges leaves the
    article for the URL of a citation and has the weight
    [clamp01(reliability + diversityBoost + typeBoost)], where [reliability]
    is that of the citation (the last one for that URL, 0.5 when it has
    none), [diversityBoost] is the diversity score of the domains of all the
    citations times 0.2, and [typeBoost] is [min(0.1, 0.02 * n)] for the
    number [n] of distinct source types of all the citations.  The two boosts
    are the same for every edge; every citation has its edge. *)
Theorem edge_weights_follow_formula {url_lib : UrlLib} (article_data : ArticleData) :
  exists g diversity,
    CitationGraphBuilder.build_graph article_data = Ok g /\
    utils.calculate_diversity_score (all_domains article_data) = Ok diversity /\
    let diversity_boost := (diversity * 0.2)%float in
    let type_boost :=
      py_min 0.1 (float_of_int (count_unique (all_source_types article_data)) * 0.02)%float in
    Forall (fun e =>
              e.1.1 = art_url article_data /\
              exists c,
                last_citation_for (citations_of article_data) e.1.2 = Some c /\
                weight e.2
                = Some (clamp01 (default 0.5 (cit_reliability c)
                                 + diversity_boost + type_boost)%float))
           (edges g) /\
    (forall c, c ∈ citations_of article_data ->
               (art_url article_data, cit_url c) ∈ map fst (edges g)).
Proof.
  destruct (diversity_score_defined (all_domains article_data)) as [diversity Hd].
  destruct (build_graph_edges_for article_data diversity Hd) as (g & Hg & _ & Hall & Hcover).
  exists g, diversity. split; [exact Hg|]. split; [exact Hd|]. cbn zeta.
  split; [exact Hall | exact Hcover].
Qed.

(** ** Citation extraction *)

Lemma rstrip_idempotent (chars s : string) : rstrip chars (rstrip chars s) = rstrip chars s.
Proof.
  induction s as [|c s IH]; [done|]. cbn [rstrip].
  destruct (rstrip chars s) as [|c' r] eqn:E.
  - destruct (char_in c chars) eqn:Ec; [done|]. cbn [rstrip]. by rewrite Ec.
  - cbn [rstrip] in *. by rewrite IH.
Qed.

Section keep_first.
Context {A : Type} (key : A -> string).

Lemma keep_first_kept (st : list A * gset string) (x : A) :
  first_kept key st -> first_kept key (keep_first key st x).
Proof.
  intros [Hnd Hseen]. unfold keep_first. case_bool_decide as Hx; [|done].
  split; cbn.
  - rewrite map_app. apply NoDup_app. split; [done|]. split; [|apply NoDup_singleton].
    intros k Hk ->%list_elem_of_singleton. by apply Hx, Hseen.
  - intros k. rewrite map_app, elem_of_union, elem_of_app, elem_of_singleton, Hseen.
    cbn. rewrite list_elem_of_singleton. tauto.
Qed.

Lemma keep_first_length (st : list A * gset string) (x : A) :
  (length (keep_first key st x).1 <= S (length st.1))%nat.
Proof. unfold keep_first. case_bool_decide; cbn; [rewrite length_app; cbn|]; lia. Qed.

Lemma keep_first_prefix (st : list A * gset string) (x : A) :
  exists more, (keep_first key st x).1 = (st.1 ++ more)%list.
Proof.
  unfold keep_first. case_bool_decide; cbn; [by eexists|].
  exists []. by rewrite app_nil_r.
Qed.

(** A loop each of whose iterations either skips its element or keeps it
    unless its key was seen. *)
Lemma fold_keep_first {B} (step : list A * gset string -> B -> list A * gset string)
    (P : A -> Prop) (l : list B) (st : list A * gset string) :
  (forall st b, step st b = st \/ exists x, P x /\ step st b = keep_first key st x) ->
  first_kept key st -> Forall P st.1 ->
  first_kept key (fold_left step l st) /\
  Forall P (fold_left step l st).1 /\
  (length (fold_left step l st).1 <= length st.1 + length l)%nat /\
  exists more, (fold_left step l st).1 = (st.1 ++ more)%list.
Proof.
  intros Hstep. revert st. induction l as [|b l IH]; intros st Hst HP; cbn [fold_left].
  - split; [done|]. split; [done|]. split; [cbn; lia|].
    exists []. by rewrite app_nil_r.
  - assert (Hnext : first_kept key (step st b) /\ Forall P (step st b).1 /\
                    (length (step st b).1 <= S (length st.1))%nat /\
                    exists more, (step st b).1 = (st.1 ++ more)%list).
    { destruct (Hstep st b) as [-> | (x & Hx & ->)].
      - split; [done|]. split; [done|]. split; [lia|].
        exists []. by rewrite app_nil_r.
      - split; [by apply keep_first_kept|]. split.
        + unfold keep_first. case_bool_decide; [|done]. cbn.
          apply Forall_app. split; [done | by apply Forall_singleton].
        + split; [apply keep_first_length | apply keep_first_prefix]. }
    destruct Hnext as (Hkept & HP' & Hlen & more & Hmore).
    destruct (IH (step st b) Hkept HP') as (Hk & HP'' & Hlen' & more' & Hmore').
    split; [done|]. split; [done|]. split; [cbn [length]; lia|].
    exists (more ++ more')%list. by rewrite Hmore', Hmore, app_assoc.
Qed.

End keep_first.

Section citation_extraction.
Context {url_lib : UrlLib} {re_lib : ReLib}.
Variable config : Config.
Import ArticleIngester.

Lemma markdown_step_keep (st : utils.Seen) (m : Match) :
  utils.markdown_step st m = st \/
  exists c, stripped c /\ utils.markdown_step st m = keep_first utils.tc_url st c.
Proof.
  unfold utils.markdown_step.
  destruct (startswith _ "http://" || startswith _ "https://"); [|by left].
  right. eexists. split; [|reflexivity]. apply rstrip_idempotent.
Qed.

Lemma html_step_keep (st : utils.Seen) (m : Match) :
  utils.html_step st m = st \/
  exists c, stripped c /\ utils.html_step st m = keep_first utils.tc_url st c.
Proof.
  unfold utils.html_step.
  destruct (startswith _ "http://" || startswith _ "https://"); [|by left].
  right. eexists. split; [|reflexivity]. apply rstrip_idempotent.
Qed.

Lemma bare_step_keep (text : string) (st : utils.Seen) (m : Match) :
  utils.bare_step text st m = st \/
  exists c, stripped c /\ utils.bare_step text st m = keep_first utils.tc_url st c.
Proof.
  unfold utils.bare_step.
  destruct (negb _ && negb _); [|by left].
  right. eexists. split; [|reflexivity]. apply rstrip_idempotent.
Qed.

(** The text pass: the URLs it keeps are pairwise distinct and stripped of
    trailing punctuation, and there are at most as many as matches. *)
Lemma extract_citations_from_text_spec (text : string) :
  NoDup (map utils.tc_url (utils.extract_citations_from_text text)) /\
  Forall stripped (utils.extract_citations_from_text text) /\
  (length (utils.extract_citations_from_text text) <= raw_matches text)%nat.
Proof.
  unfold utils.extract_citations_from_text, raw_matches.
  set (ms1 := re_finditer utils.markdown_pattern false text).
  set (ms2 := re_finditer utils.html_pattern true text).
  set (ms3 := re_finditer utils.url_pattern false text).
  assert (H0 : first_kept utils.tc_url (([], ∅) : utils.Seen)).
  { split; [constructor|]. intros k. cbn. set_solver. }
  destruct (fold_keep_first utils.tc_url utils.markdown_step stripped ms1 _
              markdown_step_keep H0 (Forall_nil_2 _)) as (H1 & P1 & L1 & _).
  destruct (fold_keep_first utils.tc_url utils.html_step stripped ms2 _
              html_step_keep H1 P1) as (H2 & P2 & L2 & _).
  destruct (fold_keep_first utils.tc_url (utils.bare_step text) stripped ms3 _
              (bare_step_keep text) H2 P2) as (H3 & P3 & L3 & _).
  split; [apply H3|]. split; [exact P3|]. unfold utils.Seen in *.
  cbn [fst length] in *. lia.
Qed.

Lemma fold_link_step_length (links : list Anchor) (citations : list Citation) :
  (length (fold_left (link_step config) links citations)
   <= length citations + length links)%nat.
Proof.
  revert citations. induction links as [|link links IH]; intros citations; cbn [fold_left].
  - cbn. lia.
  - etrans; [apply IH|]. unfold link_step.
    destruct (_is_valid_citation_url config (href link)); cbn [length];
      [rewrite length_app; cbn|]; lia.
Qed.

Lemma fold_text_step_length (tcs : list utils.TextCitation) (citations : list Citation) :
  (length (fold_left (text_step config) tcs citations)
   <= length citations + length tcs)%nat.
Proof.
  revert citations. induction tcs as [|tc tcs IH]; intros citations; cbn [fold_left].
  - cbn. lia.
  - etrans; [apply IH|]. unfold text_step.
    destruct (_is_valid_citation_url config (utils.tc_url tc)); [|cbn; lia].
    destruct (negb _); cbn [length]; [rewrite length_app; cbn|]; lia.
Qed.

Lemma fold_text_step_prefix (tcs : list utils.TextCitation) (citations : list Citation) :
  exists more, fold_left (text_step config) tcs citations = (citations ++ more)%list.
Proof.
  revert citations. induction tcs as [|tc tcs IH]; intros citations; cbn [fold_left].
  - exists []. by rewrite app_nil_r.
  - destruct (IH (text_step config citations tc)) as [more ->]. unfold text_step.
    destruct (_is_valid_citation_url config (utils.tc_url tc)); [|by eexists].
    destruct (negb _); [|by eexists]. rewrite <- app_assoc. by eexists.
Qed.

Lemma unique_step_keep (st : list Citation * gset string) (c : Citation) :
  unique_step st c = st \/
  exists x, True /\ unique_step st c = keep_first (fun c => rstrip "/" (cit_url c)) st x.
Proof. right. by exists c. Qed.

(** C3, as the code has it.  The citations [_extract_citations] returns are
    pairwise distinct once the trailing slashes of their URLs are stripped
    (nothing else is stripped in that comparison), and there are at most as
    many as anchors and raw regex matches together.  The text pass compares
    URLs stripped of their trailing punctuation [.,;:!?)] (and not of a
    trailing slash): the URLs it keeps are pairwise distinct, carry no
    trailing punctuation and are at most as many as the raw regex matches. *)
Theorem extract_citations_unique_up_to_slash (links : list Anchor) (content : string) :
  let text_citations := utils.extract_citations_from_text content in
  let citations := _extract_citations config links content in
  NoDup (map (fun c => rstrip "/" (cit_url c)) citations) /\
  (length citations <= length links + raw_matches content)%nat /\
  NoDup (map utils.tc_url text_citations) /\
  Forall (fun c => rstrip utils.punctuation (utils.tc_url c) = utils.tc_url c)
         text_citations /\
  (length text_citations <= raw_matches content)%nat.
Proof.
  intros text_citations citations.
  destruct (extract_citations_from_text_spec content) as (Hnd & Hstripped & Hlen).
  split; [|split; [|by repeat split]].
  - subst citations. unfold _extract_citations.
    eapply (fold_keep_first (fun c => rstrip "/" (cit_url c)) unique_step (fun _ => True)).
    + apply unique_step_keep.
    + split; [constructor|]. intros k. cbn. set_solver.
    + constructor.
  - subst citations. unfold _extract_citations.
    set (all := fold_left (text_step config) _ _).
    destruct (fold_keep_first (fun c => rstrip "/" (cit_url c)) unique_step (fun _ => True)
                all ([], ∅) unique_step_keep) as (_ & _ & Hl & _).
    { split; [constructor|]. intros k. cbn. set_solver. }
    { constructor. }
    cbn [fst length] in Hl.
    pose proof (fold_text_step_length (utils.extract_citations_from_text content)
                  (fold_left (link_step config) links [])) as Ht.
    pose proof (fold_link_step_length links []) as Hk. cbn [length] in Hk.
    fold all in Ht. fold text_citations in Ht. subst text_citations. lia.
Qed.

End citation_extraction.

(** C3, as the specification words it, fails: two anchors whose targets
    differ by a trailing full stop are both kept, whatever the text pass
    finds and whatever the URL and regex libraries compute; their URLs are
    equal after stripping trailing punctuation and the trailing slash, under
    either reading of that normalization. *)
Lemma extract_citations_keeps_punctuation_variants :
  ~ (exists (url_lib : UrlLib) (re_lib : ReLib) (content : string),
       NoDup (map (fun c => strip_punctuation_then_slash (cit_url c))
                  (ArticleIngester._extract_citations Sample.config
                     punctuation_links content)) \/
       NoDup (map (fun c => strip_punctuation_and_slash (cit_url c))
                  (ArticleIngester._extract_citations Sample.config
                     punctuation_links content))).
Proof.
  intros (url_lib & re_lib & content & H).
  unfold ArticleIngester._extract_citations in H.
  destruct (fold_text_step_prefix Sample.config
              (utils.extract_citations_from_text content)
              (fold_left (ArticleIngester.link_step Sample.config) punctuation_links []))
    as [more Hmore].
  rewrite Hmore in H. clear Hmore.
  change (fold_left (ArticleIngester.link_step Sample.config) punctuation_links [])
    with [ArticleIngester.make_citation Sample.config "https://example.org/report"
            "Report" "html";
          ArticleIngester.make_citation Sample.config "https://example.org/report."
            "the report." "html"] in H.
  cbn [app fold_left] in H.
  set (st := ArticleIngester.unique_step (ArticleIngester.unique_step ([], ∅) _) _) in H.
  destruct (fold_keep_first (fun c => rstrip "/" (cit_url c)) ArticleIngester.unique_step
              (fun _ => True) more st unique_step_keep) as (_ & _ & _ & rest & Hrest).
  { unfold st. do 2 apply (keep_first_kept (fun c => rstrip "/" (cit_url c))).
    split; [constructor|]. intros k. cbn. set_solver. }
  { apply Forall_forall. done. }
  rewrite Hrest in H. clear Hrest. subst st.
  assert (Hst : (ArticleIngester.unique_step
                   (ArticleIngester.unique_step ([], ∅)
                      (ArticleIngester.make_citation Sample.config
                         "https://example.org/report" "Report" "html"))
                   (ArticleIngester.make_citation Sample.config
                      "https://example.org/report." "the report." "html")).1
                = [ArticleIngester.make_citation Sample.config
                     "https://example.org/report" "Report" "html";
                   ArticleIngester.make_citation Sample.config
                     "https://example.org/report." "the report." "html"]).
  { unfold ArticleIngester.unique_step. cbn [cit_url ArticleIngester.make_citation fst snd].
    rewrite bool_decide_eq_true_2 by set_solver. cbn [fst snd app].
    assert (Hkeys : rstrip "/" "https://example.org/report."
                    ∉ ({[rstrip "/" "https://example.org/report"]} ∪ ∅ : gset string)).
    { vm_compute rstrip. set_solver. }
    rewrite bool_decide_eq_true_2 by exact Hkeys. reflexivity. }
  rewrite Hst in H. cbn [app map cit_url ArticleIngester.make_citation] in H.
  destruct H as [H | H]; apply NoDup_cons in H as [Hin _]; apply Hin; left.
Qed.

(** * Further properties *)

(** ** graph_builder.py: weights, edges and nodes of the built graph *)

Lemma clamp01_in_unit_interval (x : float) : in_unit_interval (clamp01 x).
Proof.
  unfold in_unit_interval, clamp01, py_max, py_min.
  destruct (0 <? x)%float eqn:H0.
  - destruct (x <? 1)%float eqn:Hx.
    + split; apply ltb_leb; assumption.
    + split; reflexivity.
  - split; reflexivity.
Qed.

Lemma last_citation_for_Some (l : list Citation) (url : string) (c : Citation) :
  last_citation_for l url = Some c -> c ∈ l /\ cit_url c = url.
Proof.
  unfold last_citation_for. intros H. apply find_some in H as [Hin Heq].
  split.
  - apply list_elem_of_In. by apply in_rev.
  - unfold str_eqb in Heq. by apply bool_decide_eq_true in Heq.
Qed.

Lemma first_citation_for_Some (l : list Citation) (url : string) (c : Citation) :
  first_citation_for l url = Some c -> c ∈ l /\ cit_url c = url.
Proof.
  unfold first_citation_for. intros H. apply find_some in H as [Hin Heq].
  split; [by apply list_elem_of_In|].
  unfold str_eqb in Heq. by apply bool_decide_eq_true in Heq.
Qed.

Lemma first_citation_for_defined (l : list Citation) (c : Citation) :
  c ∈ l -> exists c', first_citation_for l (cit_url c) = Some c'.
Proof.
  intros Hin. unfold first_citation_for.
  destruct (find _ l) as [c'|] eqn:E; [by eexists|].
  apply list_elem_of_In in Hin.
  pose proof (find_none _ _ E c Hin) as H. cbn in H. unfold str_eqb in H.
  by rewrite bool_decide_eq_true_2 in H.
Qed.

Lemma first_citation_for_snoc (l : list Citation) (c : Citation) (url : string) :
  first_citation_for (l ++ [c]) url
  = match first_citation_for l url with
    | Some c' => Some c'
    | None => if decide (cit_url c = url) then Some c else None
    end.
Proof.
  unfold first_citation_for. induction l as [|x l IH]; cbn.
  - unfold str_eqb. case_decide; [by rewrite bool_decide_eq_true_2
                                 | by rewrite bool_decide_eq_false_2].
  - destruct (str_eqb (cit_url x) url); [done | exact IH].
Qed.

Section built_graph.
Context {url_lib : UrlLib}.
Import CitationGraphBuilder.

(** X1: every edge of the graph [build_graph] returns carries a weight, and
    that weight lies in [0,1], whatever the reliabilities of the citations
    are (a NaN or an infinity included). *)
Theorem edge_weights_in_unit_interval (article_data : ArticleData) :
  exists g,
    build_graph article_data = Ok g /\
    Forall (fun e => exists w, weight e.2 = Some w /\ in_unit_interval w) (edges g).
Proof.
  destruct (diversity_score_defined (all_domains article_data)) as [diversity Hd].
  destruct (build_graph_edges_for article_data diversity Hd) as (g & Hg & _ & Hall & _).
  exists g. split; [exact Hg|].
  eapply Forall_impl; [exact Hall|]. intros e (_ & c & _ & Hw).
  eexists. split; [exact Hw|]. apply clamp01_in_unit_interval.
Qed.

(** X2: the graph [build_graph] returns has exactly one edge for each
    distinct citation URL, from the article to that URL, and no other edge;
    a citation of the article's own URL counts (it gives a self-loop). *)
Theorem one_edge_per_distinct_url (article_data : ArticleData) :
  exists g,
    build_graph article_data = Ok g /\
    NoDup (map fst (edges g)) /\
    (forall e, e ∈ map fst (edges g) <->
               exists c, c ∈ citations_of article_data /\
                         e = (art_url article_data, cit_url c)) /\
    len (edges g) = count_unique (map cit_url (citations_of article_data)).
Proof.
  destruct (diversity_score_defined (all_domains article_data)) as [diversity Hd].
  destruct (build_graph_edges_for article_data diversity Hd)
    as (g & Hg & Hnd & Hall & Hcover).
  exists g. split; [exact Hg|]. split; [exact Hnd|].
  assert (Hiff : forall e, e ∈ map fst (edges g) <->
                 exists c, c ∈ citations_of article_data /\
                           e = (art_url article_data, cit_url c)).
  { intros e. split.
    - intros Hin. apply list_elem_of_fmap in Hin as ([k a] & -> & Hin).
      rewrite Forall_forall in Hall.
      destruct (Hall _ Hin) as (Hsrc & c & Hlast & _). cbn in *.
      apply last_citation_for_Some in Hlast as [Hc Hurl].
      exists c. split; [done|]. destruct k as [u v]. cbn in *. by subst.
    - intros (c & Hc & ->). by apply Hcover. }
  split; [exact Hiff|].
  unfold len, count_unique. f_equal.
  rewrite <- (length_map fst (edges g)).
  rewrite <- (length_map snd (map fst (edges g))).
  rewrite <- (size_list_to_set (C := gset string)).
  - f_equal. apply set_eq. intros u. rewrite !elem_of_list_to_set. split.
    + intros Hin. apply list_elem_of_fmap in Hin as (e & -> & He).
      apply Hiff in He as (c & Hc & ->). cbn.
      apply list_elem_of_fmap. by exists c.
    + intros Hin. apply list_elem_of_fmap in Hin as (c & -> & Hc).
      apply list_elem_of_fmap. exists (art_url article_data, cit_url c).
      split; [done|]. apply Hiff. by exists c.
  - apply NoDup_fmap_2_strong; [|exact Hnd].
    intros e1 e2 H1 H2 Heq.
    apply Hiff in H1 as (c1 & _ & ->). apply Hiff in H2 as (c2 & _ & ->).
    cbn in Heq. by rewrite Heq.
Qed.

End built_graph.

Lemma find_node_snoc_old (l : list (string * NodeAttrs)) (u n : string) (a : NodeAttrs) :
  n ∈ map fst l ->
  find (fun kv => str_eqb n kv.1) (l ++ [(u, a)]) = find (fun kv => str_eqb n kv.1) l.
Proof.
  induction l as [|[k old] l IH]; intros Hn; [by apply elem_of_nil in Hn|].
  cbn in *. unfold str_eqb in *. case_bool_decide as Hk; [done|].
  apply IH. apply elem_of_cons in Hn as [-> | Hn]; [done | exact Hn].
Qed.

Lemma find_node_snoc_new (l : list (string * NodeAttrs)) (n : string) (a : NodeAttrs) :
  n ∉ map fst l ->
  find (fun kv => str_eqb n kv.1) (l ++ [(n, a)]) = Some (n, a).
Proof.
  induction l as [|[k old] l IH]; intros Hn; cbn in *; unfold str_eqb in *.
  - by rewrite bool_decide_eq_true_2.
  - rewrite bool_decide_eq_false_2 by (intros ->; apply Hn; by left).
    apply IH. intros H. apply Hn. by right.
Qed.

Lemma add_edge_nodes (g : DiGraph) (u v : string) (attrs : EdgeAttrs) :
  has_node g u = true -> has_node g v = true -> nodes (add_edge g u v attrs) = nodes g.
Proof. intros Hu Hv. unfold add_edge. by rewrite Hu, Hv. Qed.

Section built_nodes.
Context {url_lib : UrlLib}.
Import CitationGraphBuilder.

Lemma add_citation_nodes_for (article_data : ArticleData) (processed : list Citation)
    (g g' : DiGraph) (c : Citation) :
  nodes_for article_data processed g ->
  add_citation article_data g c = Ok g' ->
  nodes_for article_data (processed ++ [c]) g'.
Proof.
  intros (Hnd & Hart & Hnames & Hfirst).
  destruct (diversity_score_defined (all_domains article_data)) as [d Hd].
  unfold add_citation. rewrite (edge_weight_run _ _ d Hd). cbn [res_bind].
  intros [= <-].
  set (aid := art_url article_data) in *. set (u := cit_url c) in *.
  assert (Haid : has_node g aid = true).
  { apply has_node_spec. apply Hnames. by left. }
  destruct (has_node g u) eqn:Hhas; cbn [negb].
  - (* the node exists: the nodes are left as they are *)
    apply has_node_spec in Hhas as Hu.
    unfold nodes_for, node_names, node_data.
    rewrite (add_edge_nodes g aid u _ Haid Hhas).
    fold (node_names g). split; [exact Hnd|]. split; [exact Hart|]. split.
    + intros u'. rewrite Hnames. split.
      * intros [-> | (c' & Hc' & Hurl)]; [by left|].
        right. exists c'. split; [apply elem_of_app; by left | done].
      * intros [-> | (c' & Hc' & Hurl)]; [by left|].
        apply elem_of_app in Hc' as [Hc' | ->%list_elem_of_singleton].
        -- right. by exists c'.
        -- apply Hnames. fold u in Hurl. by subst u'.
    + intros u' c1 Hne. rewrite first_citation_for_snoc.
      destruct (first_citation_for processed u') as [c'|] eqn:E.
      * intros [= <-]. by apply Hfirst.
      * case_decide as Hurl; [|done]. intros [= <-]. exfalso.
        fold u in Hurl. subst u'.
        apply Hnames in Hu as [-> | (c' & Hc' & Hurl')]; [done|].
        destruct (first_citation_for_defined processed c' Hc') as [c'' Hc''].
        rewrite Hurl' in Hc''. congruence.
  - (* a new node, with the attributes of this citation *)
    assert (Hu : u ∉ map fst (nodes g)).
    { intros H. apply has_node_spec in H. congruence. }
    set (attrs := {| node_type := Some "source" |}).
    assert (Hg1 : nodes (add_node g u attrs) = (nodes g ++ [(u, attrs)])%list).
    { unfold add_node. cbn [nodes]. by apply update_node_fresh. }
    assert (H1 : has_node (add_node g u attrs) aid = true).
    { apply has_node_spec. rewrite Hg1, map_app. apply elem_of_app. left.
      by apply has_node_spec. }
    assert (H2 : has_node (add_node g u attrs) u = true).
    { apply has_node_spec. rewrite Hg1, map_app. apply elem_of_app. right. by left. }
    unfold nodes_for, node_names, node_data.
    rewrite (add_edge_nodes _ aid u _ H1 H2), Hg1.
    split; [|split; [|split]].
    + rewrite map_app. apply NoDup_app. split; [exact Hnd|].
      split; [|apply NoDup_singleton].
      intros k Hk ->%list_elem_of_singleton. by apply Hu.
    + rewrite find_node_snoc_old; [exact Hart | by apply has_node_spec].
    + intros u'. rewrite map_app, elem_of_app. fold (node_names g). rewrite Hnames.
      cbn. rewrite list_elem_of_singleton. split.
      * intros [[-> | (c' & Hc' & Hurl)] | ->]; [by left | |].
        -- right. exists c'. split; [apply elem_of_app; by left | done].
        -- right. exists c. split; [apply elem_of_app; right; by left | done].
      * intros [-> | (c' & Hc' & Hurl)]; [left; by left|].
        apply elem_of_app in Hc' as [Hc' | ->%list_elem_of_singleton].
        -- left. right. by exists c'.
        -- by right.
    + intros u' c1 Hne. rewrite first_citation_for_snoc.
      destruct (first_citation_for processed u') as [c'|] eqn:E.
      * intros [= <-]. rewrite find_node_snoc_old; [by apply Hfirst|].
        fold (node_names g). apply Hnames. right.
        apply first_citation_for_Some in E as [Hc' Hurl]. by exists c'.
      * case_decide as Hurl; [|done]. intros [= <-]. fold u in Hurl. subst u'.
        rewrite find_node_snoc_new by exact Hu. reflexivity.
Qed.

Lemma add_citations_nodes_for (article_data : ArticleData)
    (processed rest : list Citation) (g : DiGraph) :
  nodes_for article_data processed g ->
  exists g', add_citations article_data g rest = Ok g' /\
             nodes_for article_data (processed ++ rest) g'.
Proof.
  revert processed g. induction rest as [|c rest IH]; intros processed g Hg.
  - exists g. by rewrite app_nil_r.
  - cbn [add_citations].
    destruct (add_citation_defined article_data g c) as [g1 Hg1]. rewrite Hg1.
    cbn [res_bind].
    destruct (IH (processed ++ [c])%list g1) as (g' & Hg' & Hinv).
    + by apply (add_citation_nodes_for article_data processed g g1 c).
    + exists g'. split; [done|]. by rewrite <- app_assoc in Hinv.
Qed.

Lemma build_graph_nodes_for (article_data : ArticleData) :
  exists g, build_graph article_data = Ok g /\
            nodes_for article_data (citations_of article_data) g.
Proof.
  unfold build_graph. fold (citations_of article_data).
  apply (add_citations_nodes_for article_data [] (citations_of article_data)).
  unfold nodes_for, node_names, node_data. cbn. unfold str_eqb.
  rewrite bool_decide_eq_true_2 by done. split; [apply NoDup_singleton|].
  split; [reflexivity|]. split.
  - intros u. rewrite list_elem_of_singleton. split; [by left|].
    intros [-> | (c & Hc & _)]; [done | by apply elem_of_nil in Hc].
  - intros u c _. discriminate.
Qed.

(** X3: the nodes of the graph [build_graph] returns.  Node names are
    pairwise distinct; the article's node keeps the article's attributes
    (also when a citation has the article's URL); the other nodes are the
    citation URLs; and each of them has the domain, source type and
    reliability of the first citation of that URL in the list: a later
    citation of the same URL changes the edge and not the node. *)
Theorem built_nodes_first_seen (article_data : ArticleData) :
  exists g,
    build_graph article_data = Ok g /\
    NoDup (node_names g) /\
    node_data g (art_url article_data) = Ok (article_node_attrs article_data) /\
    (forall u, u ∈ node_names g <->
               u = art_url article_data \/
               exists c, c ∈ citations_of article_data /\ cit_url c = u) /\
    (forall u c, u <> art_url article_data ->
                 first_citation_for (citations_of article_data) u = Some c ->
                 node_data g u = Ok (source_node_attrs c)).
Proof.
  destruct (build_graph_nodes_for article_data) as (g & Hg & Hnodes).
  exists g. split; [exact Hg | exact Hnodes].
Qed.

End built_nodes.

(** ** graph_builder.py: statistics *)

Lemma count_set_sum (c : Counts) (k : string) (v : Z) :
  sum_Z (count_values (count_set c k v)) = sum_Z (count_values c) + v - count_get c k.
Proof.
  unfold sum_Z, count_values.
  induction c as [|[k' v'] c IH]; cbn; [lia|].
  unfold str_eqb in *. case_bool_decide; cbn; [lia|]. rewrite IH. lia.
Qed.

Lemma count_incr_sum (c : Counts) (k : string) :
  sum_Z (count_values (count_incr c k)) = sum_Z (count_values c) + 1.
Proof. unfold count_incr. rewrite count_set_sum. lia. Qed.

(** The counts of a counting dictionary add up to the number of counted
    elements. *)
Lemma count_all_sum (l : list string) : sum_Z (count_values (count_all l)) = len l.
Proof.
  unfold count_all, len.
  assert (H : forall c, sum_Z (count_values (fold_left count_incr l c))
                        = sum_Z (count_values c) + Z.of_nat (length l)).
  { induction l as [|x l IH]; intros c; cbn [fold_left length]; [lia|].
    rewrite IH, count_incr_sum. lia. }
  rewrite H. cbn. lia.
Qed.

Lemma filter_ext_elem {A} (P Q : A -> Prop) `{!forall x, Decision (P x)}
    `{!forall x, Decision (Q x)} (l : list A) :
  (forall x, x ∈ l -> P x <-> Q x) -> filter P l = filter Q l.
Proof.
  induction l as [|x l IH]; intros Hext; [done|].
  rewrite !filter_cons. rewrite IH by (intros y Hy; apply Hext; by right).
  destruct (Hext x (list_elem_of_here _ _)) as [H1 H2].
  repeat case_decide; try done; tauto.
Qed.

Lemma filter_none {A} (P : A -> Prop) `{!forall x, Decision (P x)} (l : list A) :
  (forall x, x ∈ l -> ~ P x) -> filter P l = [].
Proof.
  induction l as [|x l IH]; intros Hl; [done|].
  rewrite filter_cons_False by (apply Hl; by left).
  apply IH. intros y Hy. apply Hl. by right.
Qed.

Lemma filter_eq_singleton (l : list string) (x : string) :
  NoDup l -> x ∈ l -> filter (fun y => y = x) l = [x].
Proof.
  induction l as [|y l IH]; intros Hnd Hin; [by apply elem_of_nil in Hin|].
  apply NoDup_cons in Hnd as [Hy Hnd]. rewrite filter_cons.
  apply elem_of_cons in Hin as [-> | Hin].
  - rewrite decide_True by done. f_equal.
    apply filter_none. by intros z Hz ->.
  - rewrite decide_False by (by intros ->). by apply IH.
Qed.

Lemma length_filter_split {A} (P : A -> Prop) `{!forall x, Decision (P x)} (l : list A) :
  (length (filter P l) + length (filter (fun x => ~ P x) l) = length l)%nat.
Proof. rewrite <- length_app. apply Permutation_length, filter_app_complement. Qed.

Section graph_stats.
Context {builtins : Builtins}.
Import GraphQueries.

Lemma nx_density_defined (g : DiGraph) :
  1 < len (node_names g) -> exists d, nx_density g = Ok d.
Proof.
  unfold nx_density, len, node_names. rewrite length_map. intros Hn.
  destruct (_ || _); [by eexists|]. unfold int_truediv.
  rewrite (proj2 (Z.eqb_neq _ _)) by nia. by eexists.
Qed.

Lemma article_and_source_disjoint (g : DiGraph) (n : string) :
  is_article g n = true -> is_source g n = true -> False.
Proof.
  unfold is_article, is_source. destruct (node_data g n) as [a|]; [|done].
  intros H1%bool_decide_eq_true H2%bool_decide_eq_true. congruence.
Qed.

Lemma get_graph_stats_run (g : DiGraph) :
  exists stats,
    get_graph_stats g = Ok stats /\
    match nodes g with
    | [] => stats = ∅
    | _ =>
        dom stats = stats_keys /\
        stats !! "total_nodes" = Some (VInt (len (nodes g))) /\
        stats !! "article_nodes" = Some (VInt (len (article_nodes g))) /\
        stats !! "source_nodes" = Some (VInt (len (source_nodes g))) /\
        stats !! "total_edges" = Some (VInt (len (edges g))) /\
        (exists counts,
           stats !! "source_type_distribution" = Some (VCounts counts) /\
           sum_Z (count_values counts) = len (source_nodes g)) /\
        (exists avg,
           stats !! "average_reliability" = Some (VFloat avg) /\
           match source_nodes g with [] => avg = 0%float | _ => True end) /\
        len (article_nodes g) + len (source_nodes g) <= len (nodes g)
    end.
Proof.
  unfold get_graph_stats.
  destruct (nodes g) as [|n0 l] eqn:Hnodes; [by eexists|]. rewrite <- Hnodes.
  rewrite !source_attr_defined. cbn [res_bind].
  set (rels := map (attr_of g reliability 0.5%float) (source_nodes g)).
  assert (Havg : exists avg,
            match rels with
            | [] => Ok 0%float
            | _ => float_div_int (float_sum rels) (len rels)
            end = Ok avg /\
            match source_nodes g with [] => avg = 0%float | _ => True end).
  { subst rels. destruct (source_nodes g) as [|s ss]; cbn [map]; [by eexists|].
    unfold float_div_int. rewrite (proj2 (Z.eqb_neq _ _)) by (unfold len; cbn; lia).
    by eexists. }
  destruct Havg as (avg & -> & Havg). cbn [res_bind].
  assert (Hden : exists d, (if 1 <? len (node_names g) then nx_density g
                            else Ok (VFloat 0)) = Ok d).
  { destruct (Z.ltb_spec 1 (len (node_names g))); [by apply nx_density_defined|].
    by eexists. }
  destruct Hden as (d & ->). cbn [res_bind].
  eexists. split; [reflexivity|].
  split. { unfold stats_keys. rewrite !dom_insert_L, dom_empty_L. set_solver. }
  split. { rewrite lookup_insert_eq. unfold len, node_names. by rewrite length_map. }
  split. { by simplify_map_eq. }
  split. { by simplify_map_eq. }
  split. { simplify_map_eq. unfold len. by rewrite length_map. }
  split.
  { eexists. split; [by simplify_map_eq|]. rewrite count_all_sum.
    unfold len. by rewrite length_map. }
  split. { exists avg. split; [by simplify_map_eq | exact Havg]. }
  unfold len, article_nodes, source_nodes.
  assert (Hle : (length (filter (fun n => is_article g n = true) (node_names g))
                 <= length (filter (fun n => ~ is_source g n = true) (node_names g)))%nat).
  { apply submseteq_length, sublist_submseteq.
    induction (node_names g) as [|x xs IH]; [done|].
    destruct (decide (is_article g x = true)) as [Ha | Ha];
      destruct (decide (~ is_source g x = true)) as [Hn | Hn].
    - rewrite !filter_cons_True by done. by apply sublist_skip.
    - exfalso. destruct (is_source g x) eqn:E; [|by apply Hn].
      by apply (article_and_source_disjoint g x).
    - rewrite filter_cons_False, filter_cons_True by done. by apply sublist_cons.
    - rewrite !filter_cons_False by done. exact IH. }
  pose proof (length_filter_split (fun n => is_source g n = true) (node_names g)) as Hs.
  unfold node_names in *. rewrite length_map in Hs. lia.
Qed.

(** X4: [get_graph_stats] never raises: the average reliability of a graph
    without source nodes is [0.0] and its density is computed only with two
    nodes or more.  On the graph without nodes it returns the empty
    dictionary; on every other graph it returns its seven keys, the counts of
    the source-type distribution add up to the number of source nodes, and
    the article and source nodes together are at most all the nodes. *)
Theorem graph_stats_defined (g : DiGraph) :
  exists stats,
    get_graph_stats g = Ok stats /\
    match nodes g with
    | [] => stats = ∅
    | _ =>
        dom stats = stats_keys /\
        stats !! "total_nodes" = Some (VInt (len (nodes g))) /\
        stats !! "article_nodes" = Some (VInt (len (article_nodes g))) /\
        stats !! "source_nodes" = Some (VInt (len (source_nodes g))) /\
        stats !! "total_edges" = Some (VInt (len (edges g))) /\
        (exists counts,
           stats !! "source_type_distribution" = Some (VCounts counts) /\
           sum_Z (count_values counts) = len (source_nodes g)) /\
        (exists avg,
           stats !! "average_reliability" = Some (VFloat avg) /\
           match source_nodes g with [] => avg = 0%float | _ => True end) /\
        len (article_nodes g) + len (source_nodes g) <= len (nodes g)
    end.
Proof.
  destruct (get_graph_stats_run g) as (stats & Hrun & Hstats).
  exists stats. split; [exact Hrun | exact Hstats].
Qed.

End graph_stats.

Lemma node_data_defined (g : DiGraph) (n : string) :
  n ∈ node_names g -> exists attrs, node_data g n = Ok attrs.
Proof.
  unfold node_names, node_data. induction (nodes g) as [|[k a] l IH]; intros Hn.
  - by apply elem_of_nil in Hn.
  - cbn in *. unfold str_eqb in *. case_bool_decide as Hk; [by eexists|].
    apply IH. apply elem_of_cons in Hn as [-> | Hn]; [done | exact Hn].
Qed.

Section built_graph_stats.
Context {url_lib : UrlLib} {builtins : Builtins}.
Import CitationGraphBuilder GraphQueries.

(** In the built graph the article's node is the one article node and every
    other node is a source node. *)
Lemma built_node_kinds (article_data : ArticleData) (g : DiGraph) (n : string) :
  nodes_for article_data (citations_of article_data) g ->
  n ∈ node_names g ->
  (is_article g n = true <-> n = art_url article_data) /\
  (is_source g n = true <-> n <> art_url article_data).
Proof.
  intros (Hnd & Hart & Hnames & Hfirst) Hn. unfold is_article, is_source.
  destruct (decide (n = art_url article_data)) as [-> | Hne].
  - rewrite Hart. cbn. split; [done|]. split; [intros [=]%bool_decide_eq_true | done].
  - apply Hnames in Hn as [-> | (c & Hc & Hurl)]; [done|].
    destruct (first_citation_for_defined _ c Hc) as [c' Hc']. rewrite Hurl in Hc'.
    rewrite (Hfirst n c' Hne Hc'). cbn.
    split; [split; [intros [=]%bool_decide_eq_true | done] | done].
Qed.

Lemma built_source_nodes (article_data : ArticleData) (g : DiGraph) :
  nodes_for article_data (citations_of article_data) g ->
  source_nodes g = filter (fun n => n <> art_url article_data) (node_names g) /\
  article_nodes g = [art_url article_data].
Proof.
  intros Hg. split.
  - unfold source_nodes. apply filter_ext_elem. intros n Hn.
    by apply (built_node_kinds article_data g n Hg).
  - unfold article_nodes.
    rewrite (filter_ext_elem _ (fun n => n = art_url article_data)).
    + destruct Hg as (Hnd & _ & Hnames & _).
      apply filter_eq_singleton; [exact Hnd | apply Hnames; by left].
    + intros n Hn. by apply (built_node_kinds article_data g n Hg).
Qed.

(** The built graph has one source node for each distinct citation URL other
    than the article's. *)
Lemma built_source_count (article_data : ArticleData) (g : DiGraph) :
  nodes_for article_data (citations_of article_data) g ->
  len (source_nodes g)
  = count_unique (filter (fun u => u <> art_url article_data)
                         (map cit_url (citations_of article_data))) /\
  len (nodes g) = 1 + len (source_nodes g).
Proof.
  intros Hg. destruct (built_source_nodes article_data g Hg) as [Hsrc Hart].
  destruct Hg as (Hnd & _ & Hnames & _). split.
  - rewrite Hsrc. unfold len, count_unique. f_equal.
    rewrite <- (size_list_to_set (C := gset string)) by (by apply NoDup_filter).
    f_equal. apply set_eq. intros u.
    rewrite !elem_of_list_to_set, !list_elem_of_filter, Hnames. split.
    + intros [Hne [-> | (c & Hc & <-)]]; [done|]. split; [done|].
      apply list_elem_of_fmap. by exists c.
    + intros [Hne Hin]. split; [done|]. right.
      apply list_elem_of_fmap in Hin as (c & -> & Hc). by exists c.
  - pose proof (length_filter_split (fun n => n = art_url article_data) (node_names g)) as H.
    rewrite filter_eq_singleton in H by (done || (apply Hnames; by left)).
    rewrite Hsrc. unfold len, node_names in *. rewrite length_map in H. cbn in H. lia.
Qed.

(** X5: the statistics of the graph [build_graph] returns: one article
    node; as many source nodes as distinct citation URLs other than the
    article's own; one node more in total; and as many edges as distinct
    citation URLs. *)
Theorem built_graph_stats (article_data : ArticleData) :
  let urls := map cit_url (citations_of article_data) in
  let sources := count_unique (filter (fun u => u <> art_url article_data) urls) in
  exists g stats,
    build_graph article_data = Ok g /\
    get_graph_stats g = Ok stats /\
    stats !! "article_nodes" = Some (VInt 1) /\
    stats !! "source_nodes" = Some (VInt sources) /\
    stats !! "total_nodes" = Some (VInt (1 + sources)) /\
    stats !! "total_edges" = Some (VInt (count_unique urls)).
Proof.
  intros urls sources.
  destruct (build_graph_nodes_for article_data) as (g & Hg & Hnodes).
  destruct (diversity_score_defined (all_domains article_data)) as [diversity Hd].
  destruct (build_graph_edges_for article_data diversity Hd)
    as (g' & Hg' & Hnd & Hall & Hcover).
  rewrite Hg in Hg'. injection Hg' as <-.
  destruct (get_graph_stats_run g) as (stats & Hstats & Hshape).
  destruct (built_source_count article_data g Hnodes) as [Hsrc Htotal].
  destruct (built_source_nodes article_data g Hnodes) as [_ Hart].
  exists g, stats. split; [exact Hg|]. split; [exact Hstats|].
  destruct (nodes g) as [|n0 l] eqn:Hn.
  { exfalso. destruct Hnodes as (_ & _ & Hnames & _).
    assert (H : art_url article_data ∈ node_names g) by (apply Hnames; by left).
    unfold node_names in H. rewrite Hn in H. by apply elem_of_nil in H. }
  destruct Hshape as (_ & Ht & Ha & Hs & He & _).
  rewrite Ha, Hs, Ht, He, Hart, Htotal, Hsrc. repeat split.
  (* the edges: one for each distinct URL *)
  f_equal. f_equal. unfold len, count_unique. f_equal.
  rewrite <- (length_map fst (edges g)).
  rewrite <- (length_map snd (map fst (edges g))).
  assert (Hiff : forall e, e ∈ map fst (edges g) <->
                 exists c, c ∈ citations_of article_data /\
                           e = (art_url article_data, cit_url c)).
  { intros e. split.
    - intros Hin. apply list_elem_of_fmap in Hin as ([k a] & -> & Hin).
      rewrite Forall_forall in Hall.
      destruct (Hall _ Hin) as (Hsrc' & c & Hlast & _). cbn in *.
      apply last_citation_for_Some in Hlast as [Hc Hurl].
      exists c. split; [done|]. destruct k as [u v]. cbn in *. by subst.
    - intros (c & Hc & ->). by apply Hcover. }
  rewrite <- (size_list_to_set (C := gset string)).
  - f_equal. apply set_eq. intros u. rewrite !elem_of_list_to_set. split.
    + intros Hin. apply list_elem_of_fmap in Hin as (e & -> & He').
      apply Hiff in He' as (c & Hc & ->). cbn.
      apply list_elem_of_fmap. by exists c.
    + intros Hin. apply list_elem_of_fmap in Hin as (c & -> & Hc).
      apply list_elem_of_fmap. exists (art_url article_data, cit_url c).
      split; [done|]. apply Hiff. by exists c.
  - apply NoDup_fmap_2_strong; [|exact Hnd].
    intros e1 e2 H1 H2 Heq.
    apply Hiff in H1 as (c1 & _ & ->). apply Hiff in H2 as (c2 & _ & ->).
    cbn in Heq. by rewrite Heq.
Qed.

End built_graph_stats.

Section source_clusters.
Import GraphQueries.

Lemma cluster_append_keys (clusters : Clusters) (key node : string) :
  map fst (cluster_append clusters key node)
  = if decide (key ∈ map fst clusters) then map fst clusters
    else (map fst clusters ++ [key])%list.
Proof.
  induction clusters as [|[k ms] cl IH]; [done|].
  cbn. unfold str_eqb. case_bool_decide as Hk.
  - subst. rewrite decide_True by (by left). done.
  - cbn. rewrite IH. repeat case_decide; try done.
    + exfalso. set_solver.
    + exfalso. set_solver.
Qed.

Lemma cluster_append_entry (clusters : Clusters) (key node k : string)
    (members : list string) :
  NoDup (map fst clusters) ->
  (k, members) ∈ cluster_append clusters key node ->
  (k <> key /\ (k, members) ∈ clusters) \/
  (k = key /\ exists old, (key, old) ∈ clusters /\ members = (old ++ [node])%list) \/
  (k = key /\ (key ∉ map fst clusters) /\ members = [node]).
Proof.
  induction clusters as [|[k0 ms] cl IH]; intros Hnd Hin.
  - cbn in Hin. apply list_elem_of_singleton in Hin as [= -> ->].
    right. right. split; [done|]. split; [apply not_elem_of_nil | done].
  - cbn in Hnd. apply NoDup_cons in Hnd as [Hk0 Hnd].
    cbn in Hin. unfold str_eqb in Hin. case_bool_decide as Hk.
    + subst k0. apply elem_of_cons in Hin as [[= -> ->] | Hin].
      * right. left. split; [done|]. exists ms. split; [by left | done].
      * left. split; [|by right]. intros ->. apply Hk0.
        apply list_elem_of_fmap. by exists (key, members).
    + apply elem_of_cons in Hin as [[= -> ->] | Hin].
      * left. split; [done | by left].
      * destruct (IH Hnd Hin) as [[Hne H] | [[-> (old & H & ->)] | (-> & Hnew & ->)]].
        -- left. split; [done | by right].
        -- right. left. split; [done|]. exists old. split; [by right | done].
        -- right. right. split; [done|]. split; [|done].
           cbn. intros [?|?]%elem_of_cons; [by subst | done].
Qed.

Lemma cluster_step_sound (g : DiGraph) (sources : list string) (clusters : Clusters)
    (node : string) :
  node ∈ node_names g ->
  clusters_of g sources clusters ->
  exists clusters',
    cluster_step g clusters node = Ok clusters' /\
    clusters_of g (sources ++ filter (fun n => is_source g n = true) [node])%list clusters'.
Proof.
  intros Hnode (Hnd & Hkeys & Hmem).
  destruct (node_data_defined g node Hnode) as [attrs Hattrs].
  unfold cluster_step. rewrite Hattrs. cbn [res_bind].
  rewrite filter_cons, filter_nil. unfold is_source. rewrite Hattrs.
  case_bool_decide as Hsrc.
  2:{ rewrite decide_False by done. rewrite app_nil_r. by eexists. }
  rewrite decide_True by done.
  assert (Hkey : default "other" (source_type attrs) +:+ ":" +:+
                 default "unknown" (domain attrs) = cluster_key_of g node).
  { unfold cluster_key_of, attr_of. by rewrite Hattrs. }
  rewrite Hkey. eexists. split; [done|].
  set (key := cluster_key_of g node) in *. split; [|split].
  - rewrite cluster_append_keys. case_decide as Hold; [done|].
    apply NoDup_app. split; [done|]. split; [|apply NoDup_singleton].
    intros x Hx ->%list_elem_of_singleton. done.
  - intros k. rewrite cluster_append_keys. split.
    + intros Hk.
      assert (Hcases : k ∈ map fst clusters \/ k = key).
      { case_decide; [by left|]. apply elem_of_app in Hk as [?|?%list_elem_of_singleton];
          [by left | by right]. }
      destruct Hcases as [Hold | ->].
      * apply Hkeys in Hold as (n & Hn & Hk'). exists n. split; [|done].
        apply elem_of_app. by left.
      * exists node. split; [|done]. apply elem_of_app. right. by left.
    + intros (n & Hn & Hk).
      apply elem_of_app in Hn as [Hn | ->%list_elem_of_singleton].
      * assert (k ∈ map fst clusters) by (apply Hkeys; by exists n).
        case_decide; [done|]. apply elem_of_app. by left.
      * subst k. fold key. case_decide; [done|]. apply elem_of_app. right. by left.
  - intros k members Hin. rewrite filter_app, filter_cons, filter_nil.
    destruct (cluster_append_entry _ _ _ _ _ Hnd Hin)
      as [[Hne H] | [[-> (old & H & ->)] | (-> & Hnew & ->)]].
    + rewrite decide_False by (fold key; congruence).
      rewrite app_nil_r. by apply Hmem.
    + rewrite decide_True by done. f_equal. by apply Hmem.
    + rewrite decide_True by done. rewrite filter_none; [done|].
      intros n Hn Hk. apply Hnew, Hkeys. by exists n.
Qed.

Lemma cluster_loop_sound (g : DiGraph) (rest processed : list string)
    (clusters : Clusters) :
  (forall n, n ∈ rest -> n ∈ node_names g) ->
  clusters_of g (filter (fun n => is_source g n = true) processed) clusters ->
  exists clusters',
    cluster_loop g clusters rest = Ok clusters' /\
    clusters_of g (filter (fun n => is_source g n = true) (processed ++ rest)%list) clusters'.
Proof.
  revert processed clusters.
  induction rest as [|node rest IH]; intros processed clusters Hin Hinv.
  - exists clusters. rewrite app_nil_r. done.
  - destruct (cluster_step_sound g _ clusters node (Hin node (list_elem_of_here _ _)) Hinv)
      as (clusters1 & Hstep & Hinv1).
    rewrite <- filter_app in Hinv1.
    destruct (IH (processed ++ [node])%list clusters1) as (clusters' & Hloop & Hinv');
      [intros n Hn; apply Hin; by right | exact Hinv1 |].
    exists clusters'. cbn [cluster_loop]. rewrite Hstep. cbn [res_bind].
    split; [exact Hloop|]. by rewrite <- app_assoc in Hinv'.
Qed.

(** X6: [get_source_clusters] never raises and partitions the source
    nodes by their key [source_type:domain]: the keys are distinct and are
    those of the source nodes; no cluster is empty; and the cluster of a key
    lists the source nodes of that key, in the order of the graph's nodes. *)
Theorem source_clusters_partition (g : DiGraph) :
  exists clusters,
    get_source_clusters g = Ok clusters /\
    NoDup (map fst clusters) /\
    (forall n, n ∈ source_nodes g -> cluster_key_of g n ∈ map fst clusters) /\
    (forall k members, (k, members) ∈ clusters ->
       members <> [] /\
       members = filter (fun n => cluster_key_of g n = k) (source_nodes g)).
Proof.
  destruct (cluster_loop_sound g (node_names g) [] []) as (clusters & Hrun & Hinv).
  - done.
  - split; [apply NoDup_nil_2|]. split.
    + intros k. split; [by intros ?%elem_of_nil | by intros (n & ?%elem_of_nil & _)].
    + by intros k members ?%elem_of_nil.
  - exists clusters. split; [exact Hrun|]. cbn [app] in Hinv.
    fold (source_nodes g) in Hinv. destruct Hinv as (Hnd & Hkeys & Hmem).
    split; [exact Hnd|]. split.
    + intros n Hn. apply Hkeys. by exists n.
    + intros k members Hin. split; [|by apply Hmem].
      assert (Hk : k ∈ map fst clusters).
      { apply list_elem_of_fmap. by exists (k, members). }
      apply Hkeys in Hk as (n & Hn & Hk).
      rewrite (Hmem k members Hin). intros Hnil.
      assert (Hn' : n ∈ filter (fun n => cluster_key_of g n = k) (source_nodes g))
        by (by apply list_elem_of_filter).
      rewrite Hnil in Hn'. by apply elem_of_nil in Hn'.
Qed.

End source_clusters.

(** ** graph_builder.py: citations of pairwise distinct URLs *)

Section distinct_urls.
Context {url_lib : UrlLib}.
Import CitationGraphBuilder.

Variable article_data : ArticleData.
Variable diversity : float.
Hypothesis diversity_run :
  utils.calculate_diversity_score (all_domains article_data) = Ok diversity.

Lemma add_citation_exact (processed : list Citation) (c : Citation) :
  cit_url c ∉ map cit_url processed ->
  add_citation article_data (citation_graph article_data diversity processed) c
  = Ok (citation_graph article_data diversity (processed ++ [c])%list).
Proof.
  intros Hfresh. unfold add_citation.
  rewrite (edge_weight_run _ _ diversity diversity_run). cbn [res_bind].
  set (aid := art_url article_data).
  set (g0 := citation_graph article_data diversity processed).
  assert (Haid : has_node g0 aid = true).
  { apply has_node_spec. cbn. by left. }
  f_equal. destruct (decide (cit_url c = aid)) as [Hself | Hother].
  - (* the article cites itself: its node is there already *)
    rewrite Hself, Haid. cbn [negb]. unfold add_edge. cbn zeta. rewrite !Haid.
    unfold citation_graph. fold aid. f_equal.
    + cbn [nodes g0 citation_graph]. fold aid.
      rewrite filter_app, filter_cons, filter_nil.
      case_decide; [done|]. by rewrite app_nil_r.
    + cbn [edges g0 citation_graph]. rewrite update_edge_fresh.
      * rewrite map_app. cbn [map]. unfold edge_of at 3. fold aid. by rewrite Hself.
      * rewrite <- Hself. intros Hin. apply Hfresh.
        apply list_elem_of_fmap in Hin as (e & He & Hin).
        apply list_elem_of_fmap in Hin as (c' & -> & Hc'). cbn in He.
        apply list_elem_of_fmap. exists c'. split; [congruence | done].
  - assert (Hnew : cit_url c ∉ map fst (nodes g0)).
    { cbn. intros [? | Hin]%elem_of_cons; [done|]. apply Hfresh.
      apply list_elem_of_fmap in Hin as ([k a] & -> & Hin).
      apply list_elem_of_fmap in Hin as (c' & [= -> ->] & Hc').
      apply list_elem_of_filter in Hc' as [_ Hc'].
      apply list_elem_of_fmap. by exists c'. }
    assert (Hno : has_node g0 (cit_url c) = false).
    { apply not_true_is_false. by intros ?%has_node_spec. }
    rewrite Hno. cbn [negb]. unfold add_edge.
    set (g1 := add_node g0 _ _).
    assert (Hg1 : nodes g1 = (nodes g0 ++ [source_node_of c])%list).
    { subst g1. unfold add_node. cbn [nodes]. by rewrite update_node_fresh. }
    assert (H1 : has_node g1 aid = true).
    { apply has_node_spec. rewrite Hg1, map_app. apply elem_of_app. left.
      by apply has_node_spec. }
    assert (H2 : has_node g1 (cit_url c) = true).
    { apply has_node_spec. rewrite Hg1, map_app. apply elem_of_app. right. by left. }
    rewrite H1, H2. unfold citation_graph. fold aid. f_equal.
    + rewrite Hg1. cbn [nodes g0 citation_graph]. fold aid.
      rewrite filter_app, filter_cons, filter_nil, decide_True by done.
      by rewrite map_app.
    + cbn [edges g1 add_node g0 citation_graph]. rewrite update_edge_fresh.
      * by rewrite map_app.
      * intros Hin. apply Hfresh.
        apply list_elem_of_fmap in Hin as (e & He & Hin).
        apply list_elem_of_fmap in Hin as (c' & -> & Hc'). cbn in He.
        apply list_elem_of_fmap. exists c'. split; [congruence | done].
Qed.

Lemma add_citations_exact (rest processed : list Citation) :
  NoDup (map cit_url (processed ++ rest)%list) ->
  add_citations article_data (citation_graph article_data diversity processed) rest
  = Ok (citation_graph article_data diversity (processed ++ rest)%list).
Proof.
  revert processed. induction rest as [|c rest IH]; intros processed Hnd.
  - by rewrite app_nil_r.
  - cbn [add_citations]. rewrite add_citation_exact.
    + cbn [res_bind]. rewrite IH by (by rewrite <- app_assoc).
      by rewrite <- app_assoc.
    + rewrite map_app in Hnd. apply NoDup_app in Hnd as (_ & Hdisj & _).
      intros Hin. apply (Hdisj _ Hin). by left.
Qed.

Lemma build_graph_exact :
  NoDup (map cit_url (citations_of article_data)) ->
  build_graph article_data
  = Ok (citation_graph article_data diversity (citations_of article_data)).
Proof.
  intros Hnd. unfold build_graph. fold (citations_of article_data).
  exact (add_citations_exact (citations_of article_data) [] Hnd).
Qed.

End distinct_urls.

Lemma citation_graph_sources (article_data : ArticleData) (diversity : float)
    (processed : list Citation) :
  NoDup (map cit_url processed) ->
  source_nodes (citation_graph article_data diversity processed)
  = filter (fun u => u <> art_url article_data) (map cit_url processed).
Proof.
  intros Hnd. set (g := citation_graph article_data diversity processed).
  set (aid := art_url article_data).
  set (kept := filter (fun c => cit_url c <> aid) processed).
  assert (Hnames : node_names g = aid :: map cit_url kept).
  { unfold node_names. cbn. f_equal. rewrite <- list_fmap_compose. done. }
  assert (Hkept : NoDup (map cit_url kept)).
  { clear -Hnd. subst kept. induction processed as [|c l IH]; [constructor|].
    cbn in Hnd. apply NoDup_cons in Hnd as [Hc Hnd]. rewrite filter_cons.
    case_decide; [|by apply IH]. cbn. apply NoDup_cons. split; [|by apply IH].
    intros Hin. apply Hc. apply list_elem_of_fmap in Hin as (c' & -> & Hc').
    apply list_elem_of_filter in Hc' as [_ Hc']. apply list_elem_of_fmap. by exists c'. }
  assert (Hall : NoDup (node_names g)).
  { rewrite Hnames. apply NoDup_cons. split; [|done].
    intros Hin. apply list_elem_of_fmap in Hin as (c' & Heq & Hc').
    by apply list_elem_of_filter in Hc' as [Hne _]. }
  unfold source_nodes. rewrite Hnames, filter_cons.
  assert (Hart : is_source g aid = false).
  { unfold is_source, node_data. cbn. unfold str_eqb.
    by rewrite bool_decide_eq_true_2. }
  rewrite decide_False by (by rewrite Hart).
  rewrite (filter_all (fun n => is_source g n = true)).
  - subst kept. clear. induction processed as [|c l IH]; [done|].
    cbn [map]. rewrite !filter_cons. repeat case_decide; try done. cbn. by f_equal.
  - apply Forall_forall. intros u Hu.
    apply list_elem_of_fmap in Hu as (c & -> & Hc).
    unfold is_source, node_data.
    rewrite (find_node (nodes g) (cit_url c) (source_node_attrs c)); [done | exact Hall |].
    cbn. right. apply list_elem_of_fmap. by exists c.
Qed.

Section distinct_urls_theorem.
Context {url_lib : UrlLib}.
Import CitationGraphBuilder.

(** X7: when the citations of an article have pairwise distinct URLs,
    [build_graph] returns the article node followed by one source node for
    each citation other than one of the article's own URL, in the order of
    the citations and with their attributes, and one edge for each citation,
    in that order, with the weight of the formula. *)
Theorem build_graph_distinct_urls (article_data : ArticleData) :
  NoDup (map cit_url (citations_of article_data)) ->
  exists diversity,
    utils.calculate_diversity_score (all_domains article_data) = Ok diversity /\
    build_graph article_data
    = Ok (citation_graph article_data diversity (citations_of article_data)) /\
    source_nodes (citation_graph article_data diversity (citations_of article_data))
    = filter (fun u => u <> art_url article_data)
             (map cit_url (citations_of article_data)).
Proof.
  intros Hnd.
  destruct (diversity_score_defined (all_domains article_data)) as [diversity Hd].
  exists diversity. split; [exact Hd|]. split.
  - by apply build_graph_exact.
  - by apply citation_graph_sources.
Qed.

End distinct_urls_theorem.

Lemma build_graph_distinct_urls_witness :
  NoDup (map cit_url (citations_of distinct_article)) /\
  exists diversity,
    utils.calculate_diversity_score (url_lib := Sample.url_lib)
      (all_domains distinct_article) = Ok diversity /\
    CitationGraphBuilder.build_graph (url_lib := Sample.url_lib) distinct_article
    = Ok (citation_graph distinct_article diversity (citations_of distinct_article)) /\
    source_nodes (citation_graph distinct_article diversity (citations_of distinct_article))
    = filter (fun u => u <> art_url distinct_article)
             (map cit_url (citations_of distinct_article)).
Proof.
  assert (H : NoDup (map cit_url (citations_of distinct_article))).
  { cbn. repeat (apply NoDup_cons; split;
      [rewrite ?not_elem_of_cons; repeat split; try discriminate; apply not_elem_of_nil|]).
    apply NoDup_nil_2. }
  split; [exact H|].
  exact (build_graph_distinct_urls (url_lib := Sample.url_lib) distinct_article H).
Defined.

(** ** article_ingester.py: what the extraction keeps *)

Lemma prefix_head (a : ascii) (p s : string) :
  String.prefix (String a p) s = true -> exists s', s = String a s'.
Proof.
  destruct s as [|b s]; cbn [String.prefix]; [done|].
  destruct (ascii_dec a b) as [<-|]; [by eexists | done].
Qed.

Lemma prefix_head_neq (a b : ascii) (p s : string) :
  a <> b -> String.prefix (String a p) (String b s) = false.
Proof. intros Hne. cbn [String.prefix]. by destruct (ascii_dec a b). Qed.

Lemma http_not_excluded (url : string) :
  startswith url "http://" || startswith url "https://" = true ->
  existsb (fun ex => startswith url ex) ["mailto:"; "javascript:"; "#"; "tel:"] = false.
Proof.
  unfold startswith. intros Hhttp.
  assert (Hh : exists s', url = String "h" s').
  { apply orb_true_iff in Hhttp as [H | H]; exact (prefix_head _ _ _ H). }
  destruct Hh as [s' ->]. cbn [existsb].
  by rewrite !prefix_head_neq by discriminate.
Qed.

(** The loop body [keep_first], run over a list: the elements kept are
    elements of the list, in its order, and the key of every element of the
    list is the key of a kept one. *)
Lemma fold_keep_first_elems {A} (key : A -> string) (l : list A)
    (st : list A * gset string) :
  first_kept key st ->
  (exists more, (fold_left (keep_first key) l st).1 = (st.1 ++ more)%list /\
                sublist more l) /\
  (forall x, x ∈ l -> key x ∈ map key (fold_left (keep_first key) l st).1).
Proof.
  revert st. induction l as [|x l IH]; intros st Hst; cbn [fold_left].
  - split; [|by intros x ?%elem_of_nil]. exists []. by rewrite app_nil_r.
  - pose proof (keep_first_kept key st x Hst) as Hnext.
    destruct (IH _ Hnext) as [(more & Hmore & Hsub) Hkeys]. split.
    + rewrite Hmore. unfold keep_first. case_bool_decide; cbn [fst].
      * exists (x :: more). split; [by rewrite <- app_assoc | by apply sublist_skip].
      * exists more. split; [done | by apply sublist_cons].
    + intros y [-> | Hy]%elem_of_cons; [|by apply Hkeys].
      rewrite Hmore, map_app. apply elem_of_app. left.
      destruct Hnext as [_ Hseen]. apply Hseen.
      unfold keep_first. case_bool_decide as Hx; cbn [snd].
      * set_solver.
      * exact Hx.
Qed.

Section extraction.
Context {url_lib : UrlLib} {re_lib : ReLib}.
Variable config : Config.
Import ArticleIngester.

(** The citation [link_step] builds for an anchor. *)
#[local] Abbreviation link_citation := (fun link : Anchor =>
  make_citation config (href link)
    (if str_eqb (anchor_text link) "" then href link else anchor_text link) "html").

#[local] Abbreviation text_citation := (fun cit : utils.TextCitation =>
  make_citation config (utils.tc_url cit) (utils.tc_text cit) (utils.tc_type cit)).

Lemma fold_link_step (links : list Anchor) (citations : list Citation) :
  fold_left (link_step config) links citations
  = (citations
     ++ map link_citation
          (filter (fun link => _is_valid_citation_url config (href link) = true) links))%list.
Proof.
  revert citations. induction links as [|link links IH]; intros citations; cbn [fold_left].
  - by rewrite app_nil_r.
  - rewrite IH, filter_cons. unfold link_step.
    destruct (_is_valid_citation_url config (href link)) eqn:E.
    + rewrite decide_True by done. by rewrite <- app_assoc.
    + rewrite decide_False by done. done.
Qed.

Lemma fold_text_step (tcs : list utils.TextCitation) (citations : list Citation) :
  exists more,
    fold_left (text_step config) tcs citations = (citations ++ more)%list /\
    Forall (fun c => exists cit, cit ∈ tcs /\ c = text_citation cit /\
                     _is_valid_citation_url config (utils.tc_url cit) = true) more /\
    (forall cit, cit ∈ tcs -> _is_valid_citation_url config (utils.tc_url cit) = true ->
       utils.tc_url cit ∈ map cit_url (citations ++ more)%list).
Proof.
  revert citations. induction tcs as [|cit tcs IH]; intros citations; cbn [fold_left].
  - exists []. rewrite app_nil_r. split; [done|]. split; [constructor|].
    by intros cit ?%elem_of_nil.
  - destruct (IH (text_step config citations cit)) as (more & -> & Hmore & Hin).
    assert (Hmore' : Forall (fun c => exists cit', cit' ∈ cit :: tcs /\ c = text_citation cit' /\
                       _is_valid_citation_url config (utils.tc_url cit') = true) more).
    { eapply Forall_impl; [exact Hmore|]. intros c (cit' & ? & ? & ?).
      exists cit'. split; [by right | done]. }
    unfold text_step in *.
    destruct (_is_valid_citation_url config (utils.tc_url cit)) eqn:Hvalid.
    + destruct (existsb _ citations) eqn:Hseen; cbn [negb] in *.
      * exists more. split; [done|]. split; [done|].
        intros cit' [-> | Hcit']%elem_of_cons Hv; [|by apply Hin].
        rewrite map_app. apply elem_of_app. left.
        apply existsb_exists in Hseen as (c & Hc & Heq).
        unfold str_eqb in Heq. apply bool_decide_eq_true in Heq as <-.
        apply list_elem_of_fmap. exists c. split; [done|]. by apply list_elem_of_In.
      * exists (text_citation cit :: more). rewrite <- app_assoc. split; [done|]. split.
        -- apply Forall_cons. split; [|done]. exists cit. split; [by left | done].
        -- intros cit' [-> | Hcit']%elem_of_cons Hv.
           ++ rewrite map_app. apply elem_of_app. right. by left.
           ++ specialize (Hin cit' Hcit' Hv). by rewrite <- app_assoc in Hin.
    + exists more. split; [done|]. split; [done|].
      intros cit' [-> | Hcit']%elem_of_cons Hv; [congruence | by apply Hin].
Qed.

(** X8: [_is_valid_citation_url] accepts exactly the URLs that begin with
    [http://] or [https://] and do not contain the GrokiPedia base URL once
    lowercased: the test of the prefixes [mailto:], [javascript:], [#] and
    [tel:] never rejects a URL, and neither does the test of the empty
    string. *)
Theorem valid_citation_url_spec (url : string) :
  _is_valid_citation_url config url
  = (startswith url "http://" || startswith url "https://")
    && negb (contains (GROKIPEDIA_BASE_URL config) (lower url)).
Proof.
  unfold _is_valid_citation_url.
  destruct (startswith url "http://" || startswith url "https://") eqn:Hhttp.
  - rewrite (http_not_excluded url Hhttp).
    assert (str_eqb url "" = false) as ->.
    { unfold str_eqb. apply bool_decide_eq_false. intros ->. discriminate Hhttp. }
    cbn. by destruct (contains _ _).
  - by rewrite orb_true_r.
Qed.

Lemma extract_citations_spec (links : list Anchor) (content : string) :
  let valid := fun url => _is_valid_citation_url config url = true in
  let text_citations := utils.extract_citations_from_text content in
  let citations := _extract_citations config links content in
  NoDup (map cit_url citations) /\
  Forall (fun c =>
            valid (cit_url c) /\
            (exists text type, c = make_citation config (cit_url c) text type) /\
            (exists r, cit_reliability c = Some r /\ in_unit_interval r))
         citations /\
  (exists from_links from_text,
     citations = (from_links ++ from_text)%list /\
     sublist from_links (map link_citation (filter (fun l => valid (href l)) links)) /\
     Forall (fun c => exists cit, cit ∈ text_citations /\ c = text_citation cit) from_text) /\
  (forall link, link ∈ links -> valid (href link) ->
     exists c, c ∈ citations /\ rstrip "/" (cit_url c) = rstrip "/" (href link)) /\
  (forall cit, cit ∈ text_citations -> valid (utils.tc_url cit) ->
     exists c, c ∈ citations /\ rstrip "/" (cit_url c) = rstrip "/" (utils.tc_url cit)).
Proof.
  intros valid text_citations citations. subst citations. unfold _extract_citations.
  fold text_citations. rewrite fold_link_step. cbn [app].
  set (linked := map link_citation _).
  destruct (fold_text_step text_citations linked) as (more & -> & Hmore & Htext).
  set (key := fun c : Citation => rstrip "/" (cit_url c)).
  assert (H0 : first_kept key ([], ∅)).
  { split; [constructor|]. intros k. cbn. set_solver. }
  change (fold_left unique_step (linked ++ more)%list ([], ∅))
    with (fold_left (keep_first key) (linked ++ more)%list ([], ∅)).
  destruct (fold_keep_first key (keep_first key) (fun _ => True) (linked ++ more)%list
              ([], ∅)) as ([Hnd _] & _); [by right; eexists | done | constructor |].
  destruct (fold_keep_first_elems key (linked ++ more)%list ([], ∅) H0)
    as [(kept & Hkept & Hsub) Hkeys].
  cbn [fst app] in Hkept. rewrite Hkept in *. clear Hkept.
  assert (Hin : forall c, c ∈ kept -> c ∈ (linked ++ more)%list).
  { intros c Hc. exact (elem_of_sublist _ _ _ Hc Hsub). }
  assert (Hfind : forall u, u ∈ map cit_url (linked ++ more)%list ->
                    exists c, c ∈ kept /\ rstrip "/" (cit_url c) = rstrip "/" u).
  { intros u Hu. apply list_elem_of_fmap in Hu as (c0 & -> & Hc0).
    specialize (Hkeys c0 Hc0). apply list_elem_of_fmap in Hkeys as (c & Hk & Hc).
    exists c. split; [done|]. symmetry. exact Hk. }
  split; [|split; [|split; [|split]]].
  - change (map key kept) with (map (fun c => rstrip "/" (cit_url c)) kept) in Hnd.
    rewrite (list_fmap_compose cit_url (rstrip "/")) in Hnd.
    by apply NoDup_fmap_1 in Hnd.
  - apply Forall_forall. intros c Hc. apply Hin in Hc.
    assert (Hmade : exists url text type, valid url /\ c = make_citation config url text type).
    { apply elem_of_app in Hc as [Hc | Hc].
      - apply list_elem_of_fmap in Hc as (link & -> & Hlink).
        apply list_elem_of_filter in Hlink as [Hv _]. by eexists _, _, _.
      - rewrite Forall_forall in Hmore.
        destruct (Hmore c Hc) as (cit & _ & -> & Hv). by eexists _, _, _. }
    destruct Hmade as (url & text & type & Hv & ->). cbn [cit_url make_citation].
    split; [done|]. split; [by eexists _, _|].
    eexists. split; [reflexivity|]. apply max_min_in_unit_interval.
  - apply sublist_app_r in Hsub as (k1 & k2 & -> & Hk1 & Hk2).
    exists k1, k2. split; [done|]. split; [done|].
    apply Forall_forall. intros c Hc.
    rewrite Forall_forall in Hmore.
    destruct (Hmore c (elem_of_sublist _ _ _ Hc Hk2)) as (cit & ? & ? & _). by exists cit.
  - intros link Hlink Hv. apply Hfind. rewrite map_app. apply elem_of_app. left.
    apply list_elem_of_fmap. exists (link_citation link). split; [done|].
    apply list_elem_of_fmap. exists link. split; [done|].
    by apply list_elem_of_filter.
  - intros cit Hcit Hv. apply Hfind. by apply Htext.
Qed.

(** X9: the citations [_extract_citations] returns have pairwise distinct
    URLs; each is a valid citation URL with the source type, the domain and
    the reliability the utilities give that URL, the reliability lying in
    the unit interval; the citations of the anchors come first, in the order
    of the anchors, and the citations of the text after them; and no valid
    anchor or text citation is lost: its URL is the URL of a returned
    citation up to trailing slashes. *)
Theorem extracted_citations_sound_and_complete (links : list Anchor) (content : string) :
  let valid := fun url => _is_valid_citation_url config url = true in
  let text_citations := utils.extract_citations_from_text content in
  let citations := _extract_citations config links content in
  NoDup (map cit_url citations) /\
  Forall (fun c =>
            valid (cit_url c) /\
            (exists text type, c = make_citation config (cit_url c) text type) /\
            (exists r, cit_reliability c = Some r /\ in_unit_interval r))
         citations /\
  (exists from_links from_text,
     citations = (from_links ++ from_text)%list /\
     sublist from_links (map link_citation (filter (fun l => valid (href l)) links)) /\
     Forall (fun c => exists cit, cit ∈ text_citations /\ c = text_citation cit) from_text) /\
  (forall link, link ∈ links -> valid (href link) ->
     exists c, c ∈ citations /\ rstrip "/" (cit_url c) = rstrip "/" (href link)) /\
  (forall cit, cit ∈ text_citations -> valid (utils.tc_url cit) ->
     exists c, c ∈ citations /\ rstrip "/" (cit_url c) = rstrip "/" (utils.tc_url cit)).
Proof.
  intros valid text_citations citations.
  destruct (extract_citations_spec links content) as (Hnd & Hall & Horder & Hlinks & Htext).
  split; [exact Hnd|]. split; [exact Hall|]. split; [exact Horder|].
  split; [exact Hlinks | exact Htext].
Qed.

Lemma valid_not_internal (url : string) :
  _is_valid_citation_url config url = true ->
  contains (GROKIPEDIA_BASE_URL config) (lower url) = false.
Proof.
  unfold _is_valid_citation_url. destruct (str_eqb url "" || _); [done|].
  by destruct (contains _ _).
Qed.

(** X10: ingestion composed with graph building.  For an article whose
    citations are those [_extract_citations] returned, [build_graph] returns
    the graph with one edge for each citation, in their order, and one source
    node for each citation other than one of the article's own URL; when the
    article's URL contains the GrokiPedia base URL once lowercased, no
    citation has that URL, so that the source nodes are the URLs of the
    citations, in their order, and are as many as the edges. *)
Theorem extracted_citations_graph (links : list Anchor) (content url : string)
    (title : option string) (word_count : option Z) :
  let citations := _extract_citations config links content in
  let article_data :=
    {| art_url := url; art_title := title; art_word_count := word_count;
       art_citations := Some citations |} in
  exists diversity g,
    utils.calculate_diversity_score (all_domains article_data) = Ok diversity /\
    CitationGraphBuilder.build_graph article_data = Ok g /\
    g = citation_graph article_data diversity citations /\
    map fst (edges g) = map (fun c => (url, cit_url c)) citations /\
    source_nodes g = filter (fun u => u <> url) (map cit_url citations) /\
    (contains (GROKIPEDIA_BASE_URL config) (lower url) = true ->
     source_nodes g = map cit_url citations /\
     length (source_nodes g) = length (edges g)).
Proof.
  intros citations article_data.
  destruct (extract_citations_spec links content) as (Hnd & Hall & _).
  fold citations in Hnd, Hall.
  destruct (diversity_score_defined (all_domains article_data)) as [diversity Hd].
  exists diversity, (citation_graph article_data diversity citations).
  split; [exact Hd|]. split; [by apply build_graph_exact|]. split; [done|].
  assert (Hsrc : source_nodes (citation_graph article_data diversity citations)
                 = filter (fun u => u <> url) (map cit_url citations)).
  { by apply (citation_graph_sources article_data diversity citations). }
  split; [|split; [exact Hsrc|]].
  - cbn [edges citation_graph]. rewrite <- list_fmap_compose. done.
  - intros Hinternal.
    assert (Hall' : filter (fun u => u <> url) (map cit_url citations)
                    = map cit_url citations).
    { apply filter_all, Forall_forall. intros u Hu ->.
      apply list_elem_of_fmap in Hu as (c & Hurl & Hc).
      rewrite Forall_forall in Hall. destruct (Hall c Hc) as (Hv & _).
      apply valid_not_internal in Hv. rewrite <- Hurl in Hv. congruence. }
    rewrite Hsrc, Hall'. split; [done|].
    cbn [edges citation_graph]. by rewrite !length_map.
Qed.

End extraction.

(** ** graph_analyzer.py: the state an analysis leaves *)

Section analyzer_state.
Context {builtins : Builtins}.
Variable config : Config.
Variable g : DiGraph.
Import GraphAnalyzer.

Lemma settled_ret {A} (a : A) : settled g (ret a).
Proof. reflexivity. Qed.

Lemma settled_lift {A} (r : PyResult A) : settled g (lift r).
Proof. reflexivity. Qed.

Lemma settled_get_graph : settled g get_graph.
Proof. reflexivity. Qed.

Lemma settled_get_source_nodes : settled g _get_source_nodes.
Proof. reflexivity. Qed.

Lemma settled_bind {A B} (m : M A) (k : A -> M B) :
  settled g m -> (forall a, settled g (k a)) -> settled g (bind m k).
Proof.
  unfold settled, bind. intros Hm Hk.
  destruct (m (warm g)) as [[a|e] s]; cbn [snd] in Hm; subst s; [apply Hk | done].
Qed.

Lemma settled_match_list {A B} (l : list A) (m1 m2 : M B) :
  settled g m1 -> settled g m2 -> settled g (match l with [] => m1 | _ => m2 end).
Proof. by destruct l. Qed.

Lemma settled_or_compute {A} (o : option A) (m : M A) :
  settled g m -> settled g (match o with None => m | Some d => ret d end).
Proof. destruct o; [intros _; apply settled_ret | done]. Qed.

Create HintDb settled_methods.

Ltac settle :=
  repeat first
    [ solve [auto 1 with settled_methods nocore]
    | apply settled_bind; [|intros ?]
    | apply settled_ret
    | apply settled_lift
    | apply settled_get_graph
    | apply settled_get_source_nodes
    | apply settled_match_list
    | apply settled_or_compute ].

Ltac settle_body :=
  match goal with
  | |- (?body (warm g)).2 = warm g => change (settled g body)
  end.

Lemma settled_bias_metrics : settled g _calculate_bias_metrics.
Proof.
  unfold settled, _calculate_bias_metrics.
  change (_bias_metrics_cache (warm g)) with (@None (gmap string Value)). cbv iota.
  settle_body. settle.
Qed.

#[local] Hint Resolve settled_bias_metrics : settled_methods.

Lemma settled_diversity_metrics : settled g _calculate_diversity_metrics.
Proof.
  unfold settled, _calculate_diversity_metrics.
  change (_diversity_metrics_cache (warm g)) with (@None (gmap string Value)). cbv iota.
  settle_body. settle.
Qed.

#[local] Hint Resolve settled_diversity_metrics : settled_methods.

Lemma settled_quality_scores : settled g _calculate_quality_scores.
Proof. unfold _calculate_quality_scores. settle. Qed.

#[local] Hint Resolve settled_quality_scores : settled_methods.

Lemma settled_detect_red_flags (bias quality : option (gmap string Value)) :
  settled g (_detect_red_flags config bias quality).
Proof. unfold _detect_red_flags. settle. Qed.

#[local] Hint Resolve settled_detect_red_flags : settled_methods.

Lemma settled_generate_recommendations
    (bias diversity quality : option (gmap string Value)) (flags : option (list Flag)) :
  settled g (_generate_recommendations config bias diversity quality flags).
Proof. unfold _generate_recommendations. settle. Qed.

#[local] Hint Resolve settled_generate_recommendations : settled_methods.

Lemma settled_analyze : settled g (analyze config).
Proof. unfold analyze. settle. Qed.

(** The first call fills the source-node cache, whether it returns or
    raises. *)
Lemma analyze_warms : (analyze config (__init__ g)).2 = warm g.
Proof.
  unfold analyze. unfold bind at 1.
  assert (Hbias : (_calculate_bias_metrics (__init__ g)).2 = warm g).
  { unfold _calculate_bias_metrics.
    change (_bias_metrics_cache (__init__ g)) with (@None (gmap string Value)). cbv iota.
    unfold bind at 1. rewrite (get_source_nodes_run g _ (analyzer_of_init g)).
    settle_body. settle. }
  destruct (_calculate_bias_metrics (__init__ g)) as [[bias|e] s]; cbn [snd] in Hbias;
    subst s; [|done].
  settle_body. settle.
Qed.

(** X11: after any positive number of calls of [analyze] on a new
    analyzer, whether they returned or raised, the analyzer holds the graph
    it was given and the list of its source nodes, and its three metric
    caches are empty: no call ever fills them, and each call computes the
    metrics again. *)
Theorem analyze_fills_only_source_cache (n : nat) :
  let s := Nat.iter (S n) (fun s => (analyze config s).2) (__init__ g) in
  graph s = g /\
  _source_nodes_cache s = Some (source_nodes g) /\
  _bias_metrics_cache s = None /\
  _diversity_metrics_cache s = None /\
  _quality_scores_cache s = None.
Proof.
  intros s. assert (Hs : s = warm g).
  { subst s. induction n as [|n IH].
    - exact analyze_warms.
    - change (Nat.iter (S (S n)) ?f ?x) with (f (Nat.iter (S n) f x)).
      rewrite IH. exact settled_analyze. }
  by rewrite Hs.
Qed.

End analyzer_state.

(** ** graph_analyzer.py: when [analyze] raises *)

Lemma ratio_or_zero_defined {A} (x : Z) (l : list A) :
  l <> [] ->
  GraphAnalyzer.ratio_or_zero x l = Ok (float_of_int x / float_of_int (len l))%float.
Proof.
  destruct l as [|a l]; [done|]. intros _. unfold GraphAnalyzer.ratio_or_zero, int_truediv.
  rewrite (proj2 (Z.eqb_neq _ _)); [done|]. unfold len. cbn [length]. lia.
Qed.

Lemma float_div_int_defined (x : float) (n : Z) :
  n <> 0 -> float_div_int x n = Ok (x / float_of_int n)%float.
Proof. intros Hn. unfold float_div_int. by rewrite (proj2 (Z.eqb_neq _ _)). Qed.

Lemma len_nonzero {A} (l : list A) : l <> [] -> len l <> 0.
Proof. destruct l; [done|]. unfold len. cbn [length]. lia. Qed.

Section analyze_errors.
Context {builtins : Builtins}.
Variable config : Config.
Import GraphAnalyzer.

Lemma reliability_spread_run (reliabilities : list float) :
  reliabilities <> [] ->
  let avg_reliability :=
    (float_sum reliabilities / float_of_int (len reliabilities))%float in
  reliability_spread reliabilities
  = match res_map (fun r => float_pow (r - avg_reliability)%float 2) reliabilities with
    | Ok squares =>
        Ok (py_min 1 (float_sum squares / float_of_int (len reliabilities) * 4)%float)
    | Raise e => Raise e
    end.
Proof.
  intros Hne. cbn zeta. unfold reliability_spread.
  destruct reliabilities as [|r l] eqn:E; [done|]. rewrite <- E in *.
  rewrite !float_div_int_defined by (by apply len_nonzero). cbn [res_bind].
  destruct (res_map _ reliabilities); [|done]. cbn [res_bind].
  by rewrite float_div_int_defined by (by apply len_nonzero).
Qed.

(** [_calculate_diversity_metrics] on a graph with source nodes: it raises
    what the squares raise, and returns otherwise. *)
Lemma diversity_metrics_run (g : DiGraph) (s : State) :
  analyzer_of g s -> source_nodes g <> [] ->
  match squared_deviations g with
  | Ok _ =>
      exists d type_diversity overall,
        _calculate_diversity_metrics s = (Ok d, warm g) /\
        get_number d "source_type_diversity" = Ok type_diversity /\
        get_number d "overall_diversity" = Ok overall
  | Raise e => _calculate_diversity_metrics s = (Raise e, warm g)
  end.
Proof.
  intros Hs Hne.
  assert (Hrel : source_reliabilities g <> []).
  { unfold source_reliabilities. by intros ?%fmap_nil_inv. }
  pose proof (reliability_spread_run _ Hrel) as Hspread. cbn zeta in Hspread.
  unfold squared_deviations. cbn zeta.
  assert (Hrun : _calculate_diversity_metrics s
                 = (let* g := get_graph in
                    let* domains := lift (Ok (map (attr_of g domain "") (source_nodes g))) in
                    let* source_types :=
                      lift (Ok (map (attr_of g source_type "other") (source_nodes g))) in
                    let* domain_diversity :=
                      lift (ratio_or_zero (count_unique domains) domains) in
                    let* source_type_diversity :=
                      lift (ratio_or_zero (count_unique source_types) source_types) in
                    let* reliability_diversity :=
                      lift (reliability_spread (source_reliabilities g)) in
                    ret (<["domain_diversity" := VFloat domain_diversity]>
                         (<["source_type_diversity" := VFloat source_type_diversity]>
                         (<["reliability_diversity" := VFloat reliability_diversity]>
                         (<["overall_diversity" :=
                              VFloat (domain_diversity * 0.4 + source_type_diversity * 0.4
                                      + reliability_diversity * 0.2)%float]>
                         (<["unique_domains" := VInt (count_unique domains)]>
                         (<["unique_source_types" := VInt (count_unique source_types)]>
                            ∅)))))))%method (warm g)).
  { unfold _calculate_diversity_metrics.
    assert (_diversity_metrics_cache s = None) as -> by (by destruct Hs as [-> | ->]).
    unfold bind at 1. rewrite (get_source_nodes_run g s Hs).
    destruct (source_nodes g) as [|n l] eqn:E; [done|]. rewrite <- E in *.
    cbn [bind get_graph warm graph lift].
    rewrite !source_attr_defined. reflexivity. }
  rewrite Hrun. cbn [bind get_graph warm graph lift].
  rewrite !ratio_or_zero_defined by (by intros ?%fmap_nil_inv).
  rewrite Hspread.
  destruct (res_map _ (source_reliabilities g)) as [squares|e]; [|reflexivity].
  cbn [ret]. eexists _, _, _. split; [reflexivity|]. split.
  - unfold get_number. rewrite lookup_insert_ne by done. by rewrite lookup_insert_eq.
  - unfold get_number. do 3 (rewrite lookup_insert_ne by done). by rewrite lookup_insert_eq.
Qed.

Lemma quality_scores_run (g : DiGraph) :
  source_nodes g <> [] ->
  match squared_deviations g with
  | Ok _ =>
      exists q overall reliability,
        _calculate_quality_scores (warm g) = (Ok q, warm g) /\
        get_number q "overall_quality" = Ok overall /\
        get_number q "source_reliability" = Ok reliability
  | Raise e => _calculate_quality_scores (warm g) = (Raise e, warm g)
  end.
Proof.
  intros Hne. pose proof (diversity_metrics_run g (warm g) (analyzer_of_warm g) Hne) as Hdiv.
  assert (Hrel : source_reliabilities g <> []).
  { unfold source_reliabilities. by intros ?%fmap_nil_inv. }
  assert (Hrun : _calculate_quality_scores (warm g)
                 = (let* diversity_metrics := _calculate_diversity_metrics in
                    let* diversity_score :=
                      lift (get_number diversity_metrics "overall_diversity") in
                    let source_reliability :=
                      (float_sum (source_reliabilities g)
                       / float_of_int (len (source_reliabilities g)))%float in
                    let citation_count_score :=
                      py_min 1 (float_of_int (len (source_nodes g)) / 10)%float in
                    let overall_quality :=
                      (source_reliability * 0.4 + diversity_score * 0.3
                       + citation_count_score * 0.3)%float in
                    ret (<["citation_quality" := VFloat overall_quality]>
                         (<["source_reliability" := VFloat source_reliability]>
                         (<["diversity_score" := VFloat diversity_score]>
                         (<["citation_count_score" := VFloat citation_count_score]>
                         (<["overall_quality" := VFloat overall_quality]> ∅))))))%method
                     (warm g)).
  { unfold _calculate_quality_scores. cbn [bind get_graph warm graph].
    destruct (source_nodes g) as [|n l] eqn:E; [done|]. rewrite <- E in *.
    cbn [bind lift]. rewrite source_attr_defined. fold (source_reliabilities g).
    rewrite float_div_int_defined by (by apply len_nonzero).
    unfold float_truediv. change (10 =? 0)%float with false.
    fold (warm g). unfold bind.
    destruct (_calculate_diversity_metrics (warm g)) as [[d|e] s']; [|reflexivity].
    cbn [lift]. destruct (get_number d "overall_diversity"); reflexivity. }
  destruct (squared_deviations g) as [squares|e].
  - destruct Hdiv as (d & type_diversity & overall & Hdiv & _ & Hov).
    rewrite Hrun. unfold bind at 1. rewrite Hdiv.
    cbn [bind lift]. rewrite Hov. cbn [ret].
    eexists _, _, _. split; [reflexivity|]. split.
    + unfold get_number. do 4 (rewrite lookup_insert_ne by done).
      by rewrite lookup_insert_eq.
    + unfold get_number. rewrite lookup_insert_ne by done. by rewrite lookup_insert_eq.
  - rewrite Hrun. unfold bind at 1. by rewrite Hdiv.
Qed.

Lemma recommendations_defined (g : DiGraph) (s : State)
    (bias diversity quality : gmap string Value) (flags : list Flag) (a b c d : float) :
  analyzer_of g s ->
  get_number quality "overall_quality" = Ok a ->
  get_number bias "source_concentration" = Ok b ->
  get_number diversity "source_type_diversity" = Ok c ->
  get_number quality "source_reliability" = Ok d ->
  exists recs,
    (_generate_recommendations config (Some bias) (Some diversity) (Some quality)
       (Some flags) s).1 = Ok recs.
Proof.
  intros Hs Ha Hb Hc Hd. unfold _generate_recommendations.
  cbn [bind ret lift]. rewrite Ha, Hb, Hc, Hd.
  unfold bind at 1. rewrite (get_source_nodes_run g s Hs).
  cbn [bind lift get_graph warm graph].
  rewrite source_attr_defined. by eexists.
Qed.

(** X12: the exceptions of [analyze].  On a graph without source nodes it
    returns.  On a graph with source nodes it returns unless one of the
    squares [(r - avg_reliability) ** 2] of the reliability variance raises
    (an [OverflowError] of the float power), and it then raises that
    exception: no division by zero, missing key or empty [max] is possible. *)
Theorem analyze_raises_only_what_power_raises (g : DiGraph) :
  match squared_deviations g with
  | Ok _ => exists res, (analyze config (__init__ g)).1 = Ok res
  | Raise e => (analyze config (__init__ g)).1 = Raise e
  end.
Proof.
  destruct (decide (source_nodes g = [])) as [Hnone | Hne].
  - unfold squared_deviations, source_reliabilities. rewrite Hnone. cbn.
    destruct (analyze_no_sources_run config g Hnone) as (flags & recs & Hrun & _).
    by eexists.
  - destruct (bias_metrics_run g _ (analyzer_of_init g) Hne)
      as (max_d & max_t & top & _ & _ & _ & Hbias).
    pose proof (diversity_metrics_run g (warm g) (analyzer_of_warm g) Hne) as Hdiv.
    pose proof (quality_scores_run g Hne) as Hq.
    destruct (squared_deviations g) as [squares|e].
    2:{ unfold analyze. unfold bind at 1. rewrite Hbias. unfold bind at 1.
        by rewrite Hdiv. }
    destruct Hdiv as (d & type_diversity & overall & Hdiv & Htd & _).
    destruct Hq as (q & oq & sr & Hq & Hoq & Hsr).
    unfold analyze. unfold bind at 1. rewrite Hbias. cbv beta iota.
    unfold bind at 1. rewrite Hdiv. cbv beta iota.
    unfold bind at 1. rewrite Hq. cbv beta iota.
    unfold bind at 1.
    set (bias := full_bias_metrics g max_d max_t top) in *.
    pose proof (full_bias_source_concentration g max_d max_t top) as Hsc.
    pose proof (full_bias_single_cluster_risk g max_d max_t top) as Hscr.
    fold bias in Hsc, Hscr.
    destruct (red_flags_defined config g (warm g) bias q _ _ (analyzer_of_warm g) Hsc Hscr)
      as [flags Hflags].
    pose proof (transparent_detect_red_flags config (Some bias) (Some q) g (warm g)
                  (analyzer_of_warm g)) as [_ Hs4].
    destruct (_detect_red_flags config (Some bias) (Some q) (warm g)) as [r4 s4].
    cbn [fst snd] in Hflags, Hs4. subst r4. cbv beta iota. unfold bind at 1.
    destruct (recommendations_defined g s4 bias d q flags _ _ _ _ Hs4 Hoq Hsc Htd Hsr)
      as [recs Hrecs].
    destruct (_generate_recommendations config (Some bias) (Some d) (Some q) (Some flags) s4)
      as [r5 s5].
    cbn [fst] in Hrecs. subst r5. cbn. by eexists.
Qed.

End analyze_errors.

(** ** graph_analyzer.py: the top domain and the red flags *)

Lemma fold_argmax_spec (rest : Counts) (kv : string * Z) :
  let m := fold_left (fun m y => if snd m <? snd y then y else m) rest kv in
  m ∈ kv :: rest /\ forall y, y ∈ kv :: rest -> snd y <= snd m.
Proof.
  revert kv. induction rest as [|z rest IH]; intros kv; cbn.
  - split; [by left|]. by intros y ->%list_elem_of_singleton.
  - destruct (IH (if kv.2 <? z.2 then z else kv)) as [Hin Hmax]. split.
    + apply elem_of_cons in Hin as [-> | Hin].
      * destruct (kv.2 <? z.2); [right; by left | by left].
      * right. by right.
    + intros y Hy.
      assert (Hstep : (if kv.2 <? z.2 then z else kv).2
                      <= (fold_left (fun m y => if m.2 <? y.2 then y else m) rest
                            (if kv.2 <? z.2 then z else kv)).2)
        by (apply Hmax; by left).
      apply elem_of_cons in Hy as [-> | [-> | Hy]%elem_of_cons].
      * destruct (Z.ltb_spec kv.2 z.2); lia.
      * destruct (Z.ltb_spec kv.2 z.2); lia.
      * apply Hmax. by right.
Qed.

(** [max(counts.items(), key=lambda x: x[1])[0]]: a key whose count no
    count exceeds. *)
Lemma argmax_count_spec (c : Counts) :
  c <> [] ->
  exists k v, argmax_count c = Ok k /\ (k, v) ∈ c /\ forall y, y ∈ c -> snd y <= v.
Proof.
  destruct c as [|kv rest]; [done|]. intros _.
  destruct (fold_argmax_spec rest kv) as [Hin Hmax]. cbn zeta in *.
  set (m := fold_left _ rest kv) in *.
  exists m.1, m.2. split; [done|]. split; [by destruct m | done].
Qed.

(** The most frequent element, as [argmax_count] and [max_int] find it on
    the counting dictionary of a list. *)
Lemma most_frequent (l : list string) :
  l <> [] ->
  exists top,
    argmax_count (count_all l) = Ok top /\
    max_int (count_values (count_all l)) = Ok (Z.of_nat (occurrences top l)) /\
    top ∈ l /\
    forall k, (occurrences k l <= occurrences top l)%nat.
Proof.
  intros Hl.
  destruct (argmax_count_spec _ (count_all_nonempty l Hl)) as (top & v & Htop & Hin & Hmax).
  apply count_all_entries in Hin as [Hin ->].
  destruct (max_count_spec l Hl) as (m & k & Hm & Hk & -> & Hall).
  assert (Hle : forall k', (occurrences k' l <= occurrences top l)%nat).
  { intros k'. destruct (decide (k' ∈ l)) as [Hk' | Hk'].
    - assert (H : (k', Z.of_nat (occurrences k' l)) ∈ count_all l)
        by (by apply count_all_entries).
      apply Hmax in H. cbn in H. lia.
    - destruct (occurrences k' l) eqn:E; [lia|]. exfalso.
      apply Hk', occurrences_pos. lia. }
  exists top. split; [done|]. split; [|done].
  rewrite Hm. f_equal. specialize (Hall top). specialize (Hle k). lia.
Qed.

Lemma has_flag_nil (type sev : string) : ~ has_flag type sev [].
Proof. intros (f & Hf & _). by apply elem_of_nil in Hf. Qed.

Lemma has_flag_append_if_iff (type sev : string) (c : bool) (l : list Flag) (x : Flag) :
  has_flag type sev (GraphAnalyzer.append_if c l x)
  <-> has_flag type sev l \/ (c = true /\ flag_type x = type /\ severity x = sev).
Proof.
  split; [apply has_flag_append_if_inv|].
  intros [H | (-> & <- & <-)];
    [by apply has_flag_append_if_keep | by apply has_flag_append_if_new].
Qed.

Lemma map_append_if {A B} (f : A -> B) (c : bool) (l : list A) (x : A) :
  map f (GraphAnalyzer.append_if c l x) = GraphAnalyzer.append_if c (map f l) (f x).
Proof. destruct c; cbn; [by rewrite map_app | done]. Qed.

Lemma sublist_append_if {A} (c : bool) (l k : list A) (x : A) :
  sublist l k -> sublist (GraphAnalyzer.append_if c l x) (k ++ [x])%list.
Proof.
  intros H. destruct c; cbn.
  - by apply sublist_app.
  - by apply sublist_inserts_r.
Qed.

Lemma filter_nonempty {A} (f : A -> bool) (l : list A) :
  negb (bool_decide (List.filter f l = [])) = true <-> exists x, x ∈ l /\ f x = true.
Proof.
  rewrite negb_true_iff, bool_decide_eq_false. split.
  - intros Hne. destruct (List.filter f l) as [|x l'] eqn:E; [done|].
    assert (Hx : In x (List.filter f l)) by (rewrite E; by left).
    apply filter_In in Hx as [Hx Hf]. exists x. split; [by apply list_elem_of_In | done].
  - intros (x & Hx & Hf) E.
    assert (Hin : In x (List.filter f l)).
    { apply filter_In. split; [by apply list_elem_of_In | done]. }
    by rewrite E in Hin.
Qed.

Section bias_and_flags.
Context {builtins : Builtins}.
Variable config : Config.
Import GraphAnalyzer.

(** X13: on a graph with source nodes, the bias metrics name as
    [top_domain] a domain that no other domain exceeds in number of source
    nodes, and [top_domain_percentage] is the share of that very domain;
    [single_cluster_risk] is the share of a most frequent source type; and
    the counts of [domain_distribution] add up to the number of source
    nodes. *)
Theorem bias_metrics_top_domain (g : DiGraph) :
  source_nodes g <> [] ->
  exists top top_type,
    (_calculate_bias_metrics (__init__ g)).1
    = Ok (full_bias_metrics g (Z.of_nat (occurrences top (source_domains g)))
            (Z.of_nat (occurrences top_type (source_types g))) top) /\
    top ∈ source_domains g /\
    (forall d, (occurrences d (source_domains g)
                <= occurrences top (source_domains g))%nat) /\
    top_type ∈ source_types g /\
    (forall t, (occurrences t (source_types g)
                <= occurrences top_type (source_types g))%nat) /\
    sum_Z (count_values (count_all (source_domains g))) = len (source_nodes g).
Proof.
  intros Hne.
  assert (Hd : source_domains g <> []).
  { unfold source_domains. by intros ?%fmap_nil_inv. }
  assert (Ht : source_types g <> []).
  { unfold source_types. by intros ?%fmap_nil_inv. }
  destruct (most_frequent _ Hd) as (top & Htop & Hmax_d & Hin_d & Hle_d).
  destruct (most_frequent _ Ht) as (top_type & _ & Hmax_t & Hin_t & Hle_t).
  destruct (bias_metrics_run g _ (analyzer_of_init g) Hne)
    as (max_d & max_t & top' & Hd' & Ht' & Htop' & Hrun).
  rewrite Hmax_d in Hd'. rewrite Hmax_t in Ht'. rewrite Htop in Htop'.
  injection Hd' as <-. injection Ht' as <-. injection Htop' as <-.
  exists top, top_type. rewrite Hrun.
  repeat split; try done.
  rewrite count_all_sum. unfold source_domains, len. by rewrite length_map.
Qed.

Lemma red_flags_of_analysis (g : DiGraph) (res : AnalysisResult) :
  (analyze config (__init__ g)).1 = Ok res ->
  let flags := red_flags res in
  let low := List.filter (fun r => (r <? 0.4)%float) (source_reliabilities g) in
  sublist (map flag_type flags) flag_types /\
  (has_flag "insufficient_citations" "high" flags
   <-> len (source_nodes g) < MIN_CITATIONS config) /\
  (has_flag "low_reliability_dominance" "medium" flags
   <-> (float_of_int (len (source_nodes g)) * 0.5 <? float_of_int (len low))%float = true) /\
  (exists concentration,
     get_number (bias_metrics res) "source_concentration" = Ok concentration /\
     (has_flag "high_source_concentration" "high" flags
      <-> (BIAS_THRESHOLD config <? concentration)%float = true)) /\
  (exists risk,
     get_number (bias_metrics res) "single_cluster_risk" = Ok risk /\
     (has_flag "single_cluster_risk" "high" flags
      <-> (CLUSTER_RISK_THRESHOLD config <? risk)%float = true)) /\
  (has_flag "missing_viewpoint_diversity" "medium" flags
   <-> exists t, t ∈ ["academic"; "government"; "news"] /\ t ∉ source_types g).
Proof.
  intros Hres flags low.
  destruct (analyze_inv config g res Hres) as (quality & s & _ & Hs & Hflags).
  fold flags in Hflags. clearbody flags. revert Hflags.
  unfold _detect_red_flags.
  unfold bind at 1. rewrite (get_source_nodes_run g s Hs).
  cbn [bind ret lift get_graph warm graph].
  rewrite !source_attr_defined. fold (source_reliabilities g) (source_types g). fold low.
  destruct (get_number (bias_metrics res) "source_concentration") as [sc|e]; [|discriminate].
  destruct (get_number (bias_metrics res) "single_cluster_risk") as [scr|e]; [|discriminate].
  cbn [ret fst]. intros [= <-].
  split; [|split; [|split; [|split; [|split]]]].
  - rewrite !map_append_if. cbn [flag_type map].
    change flag_types
      with ((((([] ++ ["insufficient_citations"]) ++ ["low_reliability_dominance"])
                ++ ["high_source_concentration"]) ++ ["single_cluster_risk"])
              ++ ["missing_viewpoint_diversity"])%list.
    do 5 apply sublist_append_if. constructor.
  - rewrite !has_flag_append_if_iff. cbn [flag_type severity].
    rewrite <- Z.ltb_lt. pose proof (has_flag_nil "insufficient_citations" "high").
    naive_solver.
  - rewrite !has_flag_append_if_iff. cbn [flag_type severity].
    pose proof (has_flag_nil "low_reliability_dominance" "medium"). naive_solver.
  - exists sc. split; [done|].
    rewrite !has_flag_append_if_iff. cbn [flag_type severity].
    pose proof (has_flag_nil "high_source_concentration" "high"). naive_solver.
  - exists scr. split; [done|].
    rewrite !has_flag_append_if_iff. cbn [flag_type severity].
    pose proof (has_flag_nil "single_cluster_risk" "high"). naive_solver.
  - rewrite !has_flag_append_if_iff. cbn [flag_type severity].
    pose proof (has_flag_nil "missing_viewpoint_diversity" "medium") as Hnil.
    assert (Hin : forall t, str_in t (source_types g) = true <-> t ∈ source_types g).
    { intros t. unfold str_in. apply bool_decide_eq_true. }
    assert (Hout : forall t, str_in t (source_types g) = false -> t ∉ source_types g).
    { intros t Ht Hin'. apply Hin in Hin'. congruence. }
    split.
    + intros [[[[[H|H]|H]|H]|H]|(Hc & _)]; try (destruct H as (_ & [=] & _));
        [by destruct Hnil|].
      destruct (str_in "academic" (source_types g)) eqn:Ha;
        [|exists "academic"; split; [set_solver | by apply Hout]].
      destruct (str_in "government" (source_types g)) eqn:Hg;
        [|exists "government"; split; [set_solver | by apply Hout]].
      destruct (str_in "news" (source_types g)) eqn:Hn;
        [|exists "news"; split; [set_solver | by apply Hout]].
      vm_compute in Hc. discriminate Hc.
    + intros (t & Ht & Hmiss). right. split; [|done].
      assert (Hf : str_in t (source_types g) = false).
      { apply not_true_is_false. by intros ?%Hin. }
      rewrite !elem_of_cons in Ht.
      destruct Ht as [-> | [-> | [-> | ?%elem_of_nil]]]; [| | |done]; rewrite Hf;
        cbn [negb]; repeat match goal with |- context [if ?c then _ else _] => destruct c end;
        reflexivity.
Qed.

(** X14: the red flags [analyze] returns.  Their types follow the order
    of the five tests, each at most once; and each flag is there exactly when
    its test holds: fewer source nodes than [MIN_CITATIONS]; more than half
    of the source nodes with a reliability below 0.4; a source concentration
    above [BIAS_THRESHOLD]; a single-cluster risk above
    [CLUSTER_RISK_THRESHOLD]; one of the source types [academic],
    [government] and [news] missing. *)
Theorem red_flags_characterised (g : DiGraph) (res : AnalysisResult) :
  (analyze config (__init__ g)).1 = Ok res ->
  let flags := red_flags res in
  let low := List.filter (fun r => (r <? 0.4)%float) (source_reliabilities g) in
  sublist (map flag_type flags) flag_types /\
  (has_flag "insufficient_citations" "high" flags
   <-> len (source_nodes g) < MIN_CITATIONS config) /\
  (has_flag "low_reliability_dominance" "medium" flags
   <-> (float_of_int (len (source_nodes g)) * 0.5 <? float_of_int (len low))%float = true) /\
  (exists concentration,
     get_number (bias_metrics res) "source_concentration" = Ok concentration /\
     (has_flag "high_source_concentration" "high" flags
      <-> (BIAS_THRESHOLD config <? concentration)%float = true)) /\
  (exists risk,
     get_number (bias_metrics res) "single_cluster_risk" = Ok risk /\
     (has_flag "single_cluster_risk" "high" flags
      <-> (CLUSTER_RISK_THRESHOLD config <? risk)%float = true)) /\
  (has_flag "missing_viewpoint_diversity" "medium" flags
   <-> exists t, t ∈ ["academic"; "government"; "news"] /\ t ∉ source_types g).
Proof.
  intros Hres flags low.
  destruct (red_flags_of_analysis g res Hres)
    as (Horder & Hcount & Hlow & Hconcentration & Hrisk & Hviewpoint).
  split; [exact Horder|]. split; [exact Hcount|]. split; [exact Hlow|].
  split; [exact Hconcentration|]. split; [exact Hrisk | exact Hviewpoint].
Qed.

End bias_and_flags.

Lemma bias_metrics_top_domain_witness :
  source_nodes (scenario_graph five_types) <> [] /\
  exists top top_type,
    (GraphAnalyzer._calculate_bias_metrics
       (GraphAnalyzer.__init__ (scenario_graph five_types))).1
    = Ok (full_bias_metrics (scenario_graph five_types)
            (Z.of_nat (occurrences top (source_domains (scenario_graph five_types))))
            (Z.of_nat (occurrences top_type (source_types (scenario_graph five_types))))
            top) /\
    top ∈ source_domains (scenario_graph five_types) /\
    (forall d, (occurrences d (source_domains (scenario_graph five_types))
                <= occurrences top (source_domains (scenario_graph five_types)))%nat) /\
    top_type ∈ source_types (scenario_graph five_types) /\
    (forall t, (occurrences t (source_types (scenario_graph five_types))
                <= occurrences top_type (source_types (scenario_graph five_types)))%nat) /\
    sum_Z (count_values (count_all (source_domains (scenario_graph five_types))))
    = len (source_nodes (scenario_graph five_types)).
Proof.
  assert (H : source_nodes (scenario_graph five_types) <> []).
  { intros E. apply (f_equal length) in E. vm_compute in E. discriminate E. }
  split; [exact H|].
  exact (bias_metrics_top_domain (scenario_graph five_types) H).
Defined.

Lemma red_flags_characterised_witness :
  exists res,
    (GraphAnalyzer.analyze (builtins := Sample.builtins) Sample.config
       (GraphAnalyzer.__init__ (scenario_graph five_types))).1 = Ok res /\
    let g := scenario_graph five_types in
    let flags := red_flags res in
    let low := List.filter (fun r => (r <? 0.4)%float) (source_reliabilities g) in
    sublist (map flag_type flags) flag_types /\
    (has_flag "insufficient_citations" "high" flags
     <-> len (source_nodes g) < MIN_CITATIONS Sample.config) /\
    (has_flag "low_reliability_dominance" "medium" flags
     <-> (float_of_int (len (source_nodes g)) * 0.5 <? float_of_int (len low))%float = true) /\
    (exists concentration,
       get_number (bias_metrics res) "source_concentration" = Ok concentration /\
       (has_flag "high_source_concentration" "high" flags
        <-> (BIAS_THRESHOLD Sample.config <? concentration)%float = true)) /\
    (exists risk,
       get_number (bias_metrics res) "single_cluster_risk" = Ok risk /\
       (has_flag "single_cluster_risk" "high" flags
        <-> (CLUSTER_RISK_THRESHOLD Sample.config <? risk)%float = true)) /\
    (has_flag "missing_viewpoint_diversity" "medium" flags
     <-> exists t, t ∈ ["academic"; "government"; "news"] /\ t ∉ source_types g).
Proof.
  destruct (GraphAnalyzer.analyze (builtins := Sample.builtins) Sample.config
              (GraphAnalyzer.__init__ (scenario_graph five_types))).1 as [res|e] eqn:Hres.
  - exists res. split; [reflexivity|].
    exact (red_flags_characterised (builtins := Sample.builtins) Sample.config
             (scenario_graph five_types) res Hres).
  - vm_compute in Hres. discriminate Hres.
Defined.

(** ** utils.py: classification and diversity *)

Lemma lower_ascii_idempotent (c : ascii) : lower_ascii (lower_ascii c) = lower_ascii c.
Proof.
  unfold lower_ascii.
  destruct (Nat.leb 65 (nat_of_ascii c) && Nat.leb (nat_of_ascii c) 90)%bool eqn:E.
  - apply andb_true_iff in E as [H1 H2].
    apply Nat.leb_le in H1. apply Nat.leb_le in H2.
    rewrite nat_ascii_embedding by lia.
    assert (Nat.leb (nat_of_ascii c + 32) 90 = false) as ->.
    { apply Nat.leb_gt. lia. }
    by rewrite andb_false_r.
  - by rewrite E.
Qed.

Lemma lower_idempotent (s : string) : lower (lower s) = lower s.
Proof.
  induction s as [|c s IH]; [done|]. cbn. by rewrite lower_ascii_idempotent, IH.
Qed.

Lemma existsb_false {A} (f : A -> bool) (l : list A) :
  existsb f l = false <-> forall x, x ∈ l -> f x = false.
Proof.
  induction l as [|y l IH]; cbn.
  - split; [by intros _ x ?%elem_of_nil | done].
  - rewrite orb_false_iff, IH. split.
    + intros [Hy Hl] x [-> | Hx]%elem_of_cons; [done | by apply Hl].
    + intros H. split; [apply H; by left | intros x Hx; apply H; by right].
Qed.

(** The keyword loop returns the first category, other than [other], one of
    whose keywords occurs in the domain. *)
Lemma match_category_spec (categories : list (string * list string)) (domain : string) :
  match utils.match_category categories domain with
  | Some category =>
      category <> "other" /\
      exists before keywords after keyword,
        categories = (before ++ (category, keywords) :: after)%list /\
        Forall (no_keyword domain) before /\
        keyword ∈ keywords /\ contains keyword domain = true
  | None => Forall (no_keyword domain) categories
  end.
Proof.
  induction categories as [|[category keywords] rest IH]; [by constructor|].
  cbn [utils.match_category]. unfold str_eqb. case_bool_decide as Hother.
  - assert (Hskip : no_keyword domain (category, keywords)) by (by left).
    destruct (utils.match_category rest domain) as [c|].
    + destruct IH as (Hc & before & kws & after & kw & -> & Hbefore & Hkw & Hin).
      split; [done|]. exists ((category, keywords) :: before), kws, after, kw.
      split; [done|]. split; [by constructor | done].
    + by constructor.
  - destruct (existsb _ keywords) eqn:E.
    + split; [done|]. apply existsb_exists in E as (kw & Hkw & Hin).
      exists [], keywords, rest, kw. split; [done|]. split; [constructor|].
      split; [by apply list_elem_of_In | done].
    + assert (Hskip : no_keyword domain (category, keywords)).
      { right. by apply existsb_false. }
      destruct (utils.match_category rest domain) as [c|].
      * destruct IH as (Hc & before & kws & after & kw & -> & Hbefore & Hkw & Hin).
        split; [done|]. exists ((category, keywords) :: before), kws, after, kw.
        split; [done|]. split; [by constructor | done].
      * by constructor.
Qed.

(** The counting dictionary has one entry for each distinct element. *)
Lemma len_count_all (l : list string) : len (count_all l) = count_unique l.
Proof.
  unfold len, count_unique. f_equal. rewrite <- (length_map fst).
  rewrite <- (size_list_to_set (C := gset string)).
  - f_equal. apply set_eq. intros k. rewrite !elem_of_list_to_set.
    unfold count_all. rewrite count_fold_keys. cbn. set_solver.
  - apply count_fold_nodup. constructor.
Qed.

Lemma occurrences_perm (x : string) (l1 l2 : list string) :
  l1 ≡ₚ l2 -> occurrences x l1 = occurrences x l2.
Proof. intros H. unfold occurrences. by rewrite H. Qed.

Lemma count_unique_perm (l1 l2 : list string) :
  l1 ≡ₚ l2 -> count_unique l1 = count_unique l2.
Proof.
  intros H. unfold count_unique. do 2 f_equal. apply set_eq. intros x.
  by rewrite !elem_of_list_to_set, H.
Qed.

Section classification.
Context {url_lib : UrlLib}.
Variable config : Config.

(** X15: [classify_source_type] returns one of [academic], [government],
    [ngo], [other] or a category of the table [SOURCE_CATEGORIES].  The
    suffix rules come first.  When none applies, the result is the first
    category of the table, other than [other], one of whose keywords occurs
    in the extracted domain (which is lowercase already), and [other] when
    there is none. *)
Theorem classify_source_type_spec (url : string) :
  let domain := utils.extract_domain url in
  let suffix := ext_suffix (tldextract_extract domain) in
  let result := utils.classify_source_type config url in
  lower domain = domain /\
  result ∈ (builtin_categories ++ map fst (SOURCE_CATEGORIES config))%list /\
  if bool_decide (suffix ∈ ["edu"; "ac.uk"; "edu.au"]) then result = "academic"
  else if bool_decide (suffix = "gov" \/ startswith suffix "gov." = true)
  then result = "government"
  else if bool_decide (suffix = "org") then result = "ngo"
  else
    (result = "other" /\ Forall (no_keyword domain) (SOURCE_CATEGORIES config)) \/
    (result <> "other" /\
     exists before keywords after keyword,
       SOURCE_CATEGORIES config = (before ++ (result, keywords) :: after)%list /\
       Forall (no_keyword domain) before /\
       keyword ∈ keywords /\ contains keyword domain = true).
Proof.
  intros domain suffix result.
  assert (Hlower : lower domain = domain).
  { subst domain. unfold utils.extract_domain.
    destruct (urlparse url); apply lower_idempotent. }
  split; [exact Hlower|].
  subst result. unfold utils.classify_source_type. fold domain. fold suffix.
  unfold str_in, str_eqb. rewrite Hlower.
  pose proof (match_category_spec (SOURCE_CATEGORIES config) domain) as Hloop.
  case_bool_decide as Hedu.
  { split; [|done]. unfold builtin_categories. set_solver. }
  destruct (bool_decide (suffix = "gov") || startswith suffix "gov.") eqn:Hgov.
  { rewrite (bool_decide_eq_true_2 (suffix = "gov" \/ _)).
    - split; [|done]. unfold builtin_categories. set_solver.
    - apply orb_true_iff in Hgov as [?%bool_decide_eq_true | ?]; [by left | by right]. }
  rewrite (bool_decide_eq_false_2 (suffix = "gov" \/ _)).
  2:{ apply orb_false_iff in Hgov as [?%bool_decide_eq_false ?].
      intros Hor. destruct Hor as [? | ?]; [done | congruence]. }
  destruct (decide (suffix = "org")) as [Horg | Horg].
  { rewrite !(bool_decide_eq_true_2 (suffix = "org")) by done.
    split; [|done]. unfold builtin_categories. set_solver. }
  rewrite !(bool_decide_eq_false_2 (suffix = "org")) by done.
  destruct (utils.match_category (SOURCE_CATEGORIES config) domain) as [category|].
  - destruct Hloop as (Hc & before & kws & after & kw & Htable & Hrest). split.
    + apply elem_of_app. right. rewrite Htable, map_app. apply elem_of_app. right.
      by left.
    + right. split; [done|]. by exists before, kws, after, kw.
  - split; [|by left]. unfold builtin_categories. set_solver.
Qed.

(** The diversity score of a non-empty list: the share of distinct
    normalized domains, lowered by half the share of a most frequent one. *)
Lemma diversity_score_run (domains : list string) :
  domains <> [] ->
  let normalized := map utils.normalize_domain domains in
  exists top,
    top ∈ normalized /\
    (forall d, (occurrences d normalized <= occurrences top normalized)%nat) /\
    utils.calculate_diversity_score domains
    = Ok (float_of_int (count_unique normalized) / float_of_int (len domains)
          * (1 - float_of_int (Z.of_nat (occurrences top normalized))
                 / float_of_int (len domains) * 0.5))%float.
Proof.
  intros Hne normalized.
  assert (Hn : normalized <> []) by (subst normalized; by intros ?%fmap_nil_inv).
  destruct (most_frequent normalized Hn) as (top & _ & Hmax & Hin & Hle).
  exists top. split; [done|]. split; [done|].
  pose proof (len_nonzero domains Hne) as Hlen.
  assert (Hpos : 0 < len domains) by (unfold len in *; lia).
  assert (Hentries : count_all normalized <> []) by (by apply count_all_nonempty).
  transitivity
    (do diversity <- int_truediv (len (count_all normalized)) (len domains);
     do max_count <- max_int (count_values (count_all normalized));
     do concentration <- int_truediv max_count (len domains);
     Ok (diversity * (1 - concentration * 0.5))%float)%res.
  - unfold utils.calculate_diversity_score. fold normalized.
    rewrite (proj2 (Z.ltb_lt _ _) Hpos).
    destruct domains; [done|]. by destruct (count_all normalized).
  - unfold int_truediv. rewrite (proj2 (Z.eqb_neq _ _) Hlen). cbn [res_bind].
    rewrite Hmax. cbn [res_bind]. by rewrite len_count_all.
Qed.

(** X16: the diversity score of a non-empty list of domains is the share
    of distinct normalized domains, multiplied by one minus half the share of
    a most frequent normalized domain. *)
Theorem diversity_score_closed_form (domains : list string) :
  domains <> [] ->
  let normalized := map utils.normalize_domain domains in
  exists top,
    top ∈ normalized /\
    (forall d, (occurrences d normalized <= occurrences top normalized)%nat) /\
    utils.calculate_diversity_score domains
    = Ok (float_of_int (count_unique normalized) / float_of_int (len domains)
          * (1 - float_of_int (Z.of_nat (occurrences top normalized))
                 / float_of_int (len domains) * 0.5))%float.
Proof.
  intros Hne normalized.
  destruct (diversity_score_run domains Hne) as (top & Hin & Hle & Hrun).
  exists top. split; [exact Hin|]. split; [exact Hle | exact Hrun].
Qed.

(** X17: the diversity score does not depend on the order of the
    domains. *)
Theorem diversity_score_order_independent (domains1 domains2 : list string) :
  domains1 ≡ₚ domains2 ->
  utils.calculate_diversity_score domains1 = utils.calculate_diversity_score domains2.
Proof.
  intros Hperm.
  destruct domains1 as [|x l] eqn:E1.
  { apply Permutation_nil_l in Hperm. by subst. }
  rewrite <- E1 in *.
  assert (H1 : domains1 <> []) by (by rewrite E1).
  assert (H2 : domains2 <> []).
  { intros ->. apply Permutation_nil_r in Hperm. done. }
  destruct (diversity_score_run domains1 H1) as (top1 & _ & Hle1 & ->).
  destruct (diversity_score_run domains2 H2) as (top2 & _ & Hle2 & ->).
  cbn zeta in *.
  assert (Hmap : map utils.normalize_domain domains1 ≡ₚ map utils.normalize_domain domains2)
    by (by apply fmap_Permutation).
  assert (Hocc : forall d, occurrences d (map utils.normalize_domain domains1)
                           = occurrences d (map utils.normalize_domain domains2)).
  { intros d. by apply occurrences_perm. }
  assert (Htop : occurrences top1 (map utils.normalize_domain domains1)
                 = occurrences top2 (map utils.normalize_domain domains2)).
  { specialize (Hle1 top2). specialize (Hle2 top1).
    rewrite (Hocc top2) in Hle1. rewrite <- (Hocc top1) in Hle2. lia. }
  rewrite Htop, (count_unique_perm _ _ Hmap).
  unfold len. by rewrite (Permutation_length Hperm).
Qed.

End classification.

Lemma diversity_score_closed_form_witness :
  ["a.com"; "b.org"; "a.com"] <> [] /\
  let normalized :=
    map (utils.normalize_domain (url_lib := Sample.url_lib)) ["a.com"; "b.org"; "a.com"] in
  exists top,
    top ∈ normalized /\
    (forall d, (occurrences d normalized <= occurrences top normalized)%nat) /\
    utils.calculate_diversity_score (url_lib := Sample.url_lib) ["a.com"; "b.org"; "a.com"]
    = Ok (float_of_int (count_unique normalized) / float_of_int (len ["a.com"; "b.org"; "a.com"])
          * (1 - float_of_int (Z.of_nat (occurrences top normalized))
                 / float_of_int (len ["a.com"; "b.org"; "a.com"]) * 0.5))%float.
Proof.
  assert (H : ["a.com"; "b.org"; "a.com"] <> []) by discriminate.
  split; [exact H|].
  exact (diversity_score_closed_form (url_lib := Sample.url_lib) _ H).
Defined.

Lemma diversity_score_order_independent_witness :
  ["a.com"; "b.org"; "a.com"] ≡ₚ ["b.org"; "a.com"; "a.com"] /\
  utils.calculate_diversity_score (url_lib := Sample.url_lib) ["a.com"; "b.org"; "a.com"]
  = utils.calculate_diversity_score (url_lib := Sample.url_lib) ["b.org"; "a.com"; "a.com"].
Proof.
  assert (H : ["a.com"; "b.org"; "a.com"] ≡ₚ ["b.org"; "a.com"; "a.com"]).
  { apply Permutation_swap. }
  split; [exact H|].
  exact (diversity_score_order_independent (url_lib := Sample.url_lib) _ _ H).
Defined.

(** ** utils.py: the three passes over the text *)

(** Stripping trailing characters keeps a prefix that does not end in one of
    them. *)
Lemma rstrip_keeps_prefix (chars p s : string) :
  rstrip chars p = p -> String.prefix p s = true ->
  String.prefix p (rstrip chars s) = true.
Proof.
  revert s. induction p as [|a p IH]; intros s Hp Hs.
  - by destruct (rstrip chars s).
  - destruct (prefix_head a p s Hs) as [s' ->].
    cbn [String.prefix] in Hs. destruct (ascii_dec a a) as [_|]; [|done].
    cbn [rstrip] in Hp |- *.
    destruct p as [|b p].
    + cbn [rstrip] in Hp. destruct (char_in a chars) eqn:Ea; [done|].
      destruct (rstrip chars s'); cbn [String.prefix];
        destruct (ascii_dec a a); done.
    + assert (Hp' : rstrip chars (String b p) = String b p).
      { destruct (rstrip chars (String b p)) as [|c r]; [|by injection Hp as -> ->].
        destruct (char_in a chars); discriminate Hp. }
      specialize (IH s' Hp' Hs).
      destruct (rstrip chars s') as [|c r]; [done|].
      cbn [String.prefix]. destruct (ascii_dec a a); done.
Qed.

Lemma rstrip_keeps_http (url : string) :
  startswith url "http://" || startswith url "https://" = true ->
  startswith (rstrip utils.punctuation url) "http://"
  || startswith (rstrip utils.punctuation url) "https://" = true.
Proof.
  unfold startswith. intros [H | H]%orb_true_iff; apply orb_true_iff; [left | right];
    (apply rstrip_keeps_prefix; [reflexivity | exact H]).
Qed.

(** A loop each of whose iterations either skips its element or keeps an
    element with the property [P] unless its key was seen: what it appends
    has the property. *)
Lemma fold_keep_first_more {A B} (key : A -> string)
    (step : list A * gset string -> B -> list A * gset string)
    (P : A -> Prop) (l : list B) (st : list A * gset string) :
  (forall st b, step st b = st \/ exists x, P x /\ step st b = keep_first key st x) ->
  exists more, (fold_left step l st).1 = (st.1 ++ more)%list /\ Forall P more.
Proof.
  intros Hstep. revert st. induction l as [|b l IH]; intros st; cbn [fold_left].
  - exists []. by rewrite app_nil_r.
  - destruct (IH (step st b)) as (more & -> & Hmore).
    destruct (Hstep st b) as [-> | (x & Hx & ->)]; [by exists more|].
    unfold keep_first. case_bool_decide; cbn [fst]; [|by exists more].
    exists (x :: more). rewrite <- app_assoc. split; [done | by constructor].
Qed.

Section text_passes.
Context {re_lib : ReLib}.

Lemma markdown_step_http (st : utils.Seen) (m : Match) :
  utils.markdown_step st m = st \/
  exists c, (utils.tc_type c = "markdown" /\ http_url c /\ stripped c) /\
            utils.markdown_step st m = keep_first utils.tc_url st c.
Proof.
  unfold utils.markdown_step.
  destruct (startswith _ "http://" || startswith _ "https://") eqn:E; [|by left].
  right. eexists. split; [|reflexivity]. split; [done|]. split.
  - by apply rstrip_keeps_http.
  - apply rstrip_idempotent.
Qed.

Lemma html_step_http (st : utils.Seen) (m : Match) :
  utils.html_step st m = st \/
  exists c, (utils.tc_type c = "html" /\ http_url c /\ stripped c) /\
            utils.html_step st m = keep_first utils.tc_url st c.
Proof.
  unfold utils.html_step.
  destruct (startswith _ "http://" || startswith _ "https://") eqn:E; [|by left].
  right. eexists. split; [|reflexivity]. split; [done|]. split.
  - by apply rstrip_keeps_http.
  - apply rstrip_idempotent.
Qed.

Lemma bare_step_text (text : string) (st : utils.Seen) (m : Match) :
  utils.bare_step text st m = st \/
  exists c, (utils.tc_type c = "bare" /\ utils.tc_text c = utils.tc_url c /\ stripped c) /\
            utils.bare_step text st m = keep_first utils.tc_url st c.
Proof.
  unfold utils.bare_step.
  destruct (negb _ && negb _); [|by left].
  right. eexists. split; [|reflexivity]. split; [done|]. split; [done|].
  apply rstrip_idempotent.
Qed.

(** X18: [extract_citations_from_text] returns the citations of the
    markdown links, then those of the HTML anchors, then the bare URLs.  The
    URL of a markdown or HTML citation still begins with [http://] or
    [https://] once its trailing punctuation is stripped; the text of a bare
    citation is its URL; and no URL ends in one of the punctuation characters
    [.,;:!?)]. *)
Theorem text_citations_by_pass (text : string) :
  exists markdown html bare,
    utils.extract_citations_from_text text = (markdown ++ html ++ bare)%list /\
    Forall (fun c => utils.tc_type c = "markdown" /\ http_url c /\ stripped c) markdown /\
    Forall (fun c => utils.tc_type c = "html" /\ http_url c /\ stripped c) html /\
    Forall (fun c => utils.tc_type c = "bare" /\ utils.tc_text c = utils.tc_url c /\
                     stripped c) bare.
Proof.
  unfold utils.extract_citations_from_text.
  set (ms1 := re_finditer utils.markdown_pattern false text).
  set (ms2 := re_finditer utils.html_pattern true text).
  set (ms3 := re_finditer utils.url_pattern false text).
  destruct (fold_keep_first_more utils.tc_url utils.markdown_step _ ms1 ([], ∅)
              markdown_step_http) as (markdown & H1 & Hmarkdown).
  destruct (fold_keep_first_more utils.tc_url utils.html_step _ ms2
              (fold_left utils.markdown_step ms1 ([], ∅)) html_step_http)
    as (html & H2 & Hhtml).
  destruct (fold_keep_first_more utils.tc_url (utils.bare_step text) _ ms3
              (fold_left utils.html_step ms2 (fold_left utils.markdown_step ms1 ([], ∅)))
              (bare_step_text text)) as (bare & H3 & Hbare).
  exists markdown, html, bare. cbn [fst app] in H1. cbv zeta.
  split; [|done].
  etrans; [exact H3|]. rewrite (app_assoc markdown html bare). f_equal.
  etrans; [exact H2|]. f_equal. exact H1.
Qed.

End text_passes.

(** ** graph_analyzer.py: the recommendations *)

Lemma elem_of_append_if {A} (c : bool) (l : list A) (x y : A) :
  y ∈ GraphAnalyzer.append_if c l x <-> y ∈ l \/ (c = true /\ y = x).
Proof.
  unfold GraphAnalyzer.append_if. destruct c.
  - rewrite elem_of_app, list_elem_of_singleton. naive_solver.
  - naive_solver.
Qed.

Lemma recommends_append_if (start : string) (c : bool) (l : list string) (x : string) :
  recommends start (GraphAnalyzer.append_if c l x)
  <-> recommends start l \/ (c = true /\ startswith x start = true).
Proof.
  unfold recommends. split.
  - intros (m & Hm & Hs). apply elem_of_append_if in Hm as [Hm | [-> ->]].
    + left. by exists m.
    + by right.
  - intros [(m & Hm & Hs) | [-> Hs]].
    + exists m. split; [|done]. apply elem_of_append_if. by left.
    + exists x. split; [|done]. apply elem_of_append_if. by right.
Qed.

Lemma startswith_append (p s : string) : startswith (p +:+ s) p = true.
Proof.
  unfold startswith. induction p as [|a p IH]; [by destruct s|].
  change (String a p +:+ s) with (String a (p +:+ s)).
  cbn [String.prefix]. by destruct (ascii_dec a a).
Qed.

Lemma recommends_nil (start : string) : ~ recommends start [].
Proof. intros (m & Hm & _). by apply elem_of_nil in Hm. Qed.

Section recommendations.
Context {builtins : Builtins}.
Variable config : Config.
Import GraphAnalyzer.

(** What [analyze] returns, when it returns: the recommendations are those
    of [_generate_recommendations] on the other four components. *)
Lemma analyze_recommendations (g : DiGraph) (res : AnalysisResult) :
  (analyze config (__init__ g)).1 = Ok res ->
  exists s,
    analyzer_of g s /\
    (_generate_recommendations config (Some (bias_metrics res))
       (Some (diversity_metrics res)) (Some (quality_scores res))
       (Some (red_flags res)) s).1 = Ok (recommendations res).
Proof.
  unfold analyze, bind at 1.
  pose proof (transparent_bias_metrics g _ (analyzer_of_init g)) as [_ Hs1].
  destruct (_calculate_bias_metrics (__init__ g)) as [[b|e] s1]; [|discriminate].
  cbn [snd] in Hs1. unfold bind at 1.
  pose proof (transparent_diversity_metrics g _ Hs1) as [_ Hs2].
  destruct (_calculate_diversity_metrics s1) as [[d|e] s2]; [|discriminate].
  cbn [snd] in Hs2. unfold bind at 1.
  pose proof (transparent_quality_scores g _ Hs2) as [_ Hs3].
  destruct (_calculate_quality_scores s2) as [[q|e] s3]; [|discriminate].
  cbn [snd] in Hs3. unfold bind at 1.
  pose proof (transparent_detect_red_flags config (Some b) (Some q) g _ Hs3) as [_ Hs4].
  destruct (_detect_red_flags config (Some b) (Some q) s3) as [[f|e] s4]; [|discriminate].
  cbn [snd] in Hs4. unfold bind at 1.
  destruct (_generate_recommendations config (Some b) (Some d) (Some q) (Some f) s4)
    as [[r|e] s5] eqn:Er; [|discriminate].
  cbn [ret fst]. intros [= <-].
  cbn [bias_metrics diversity_metrics quality_scores red_flags recommendations].
  exists s4. by rewrite Er.
Qed.

(** X19: the recommendations [analyze] returns are at most five, and each
    is there exactly when its test holds: an overall quality below 0.6; a
    source concentration above 0.5; a source-type diversity below 0.5; an
    average source reliability below 0.6; and no source node of type
    [academic], or none of type [government]. *)
Theorem recommendations_characterised (g : DiGraph) (res : AnalysisResult) :
  (analyze config (__init__ g)).1 = Ok res ->
  let recs := recommendations res in
  (length recs <= 5)%nat /\
  (exists quality,
     get_number (quality_scores res) "overall_quality" = Ok quality /\
     (quality_recommendation ∈ recs <-> (quality <? 0.6)%float = true)) /\
  (exists concentration,
     get_number (bias_metrics res) "source_concentration" = Ok concentration /\
     (recommends "High concentration from " recs
      <-> (0.5 <? concentration)%float = true)) /\
  (exists diversity,
     get_number (diversity_metrics res) "source_type_diversity" = Ok diversity /\
     (type_diversity_recommendation ∈ recs <-> (diversity <? 0.5)%float = true)) /\
  (exists reliability,
     get_number (quality_scores res) "source_reliability" = Ok reliability /\
     (reliability_recommendation ∈ recs <-> (reliability <? 0.6)%float = true)) /\
  (recommends "Add citations from " recs
   <-> "academic" ∉ source_types g \/ "government" ∉ source_types g).
Proof.
  intros Hres recs.
  destruct (analyze_recommendations g res Hres) as (s & Hs & Hrecs).
  fold recs in Hrecs. clearbody recs. revert Hrecs.
  unfold _generate_recommendations. cbn [bind ret lift].
  destruct (get_number (quality_scores res) "overall_quality") as [oq|e]; [|discriminate].
  destruct (get_number (bias_metrics res) "source_concentration") as [sc|e]; [|discriminate].
  destruct (get_number (diversity_metrics res) "source_type_diversity") as [td|e];
    [|discriminate].
  destruct (get_number (quality_scores res) "source_reliability") as [sr|e]; [|discriminate].
  unfold bind at 1. rewrite (get_source_nodes_run g s Hs).
  cbn [bind lift get_graph warm graph].
  rewrite source_attr_defined. fold (source_types g). cbn [ret fst].
  intros [= <-].
  assert (Hin : forall t, str_in t (source_types g) = true <-> t ∈ source_types g).
  { intros t. unfold str_in. apply bool_decide_eq_true. }
  split; [|split; [|split; [|split; [|split]]]].
  - rewrite !length_append_if. cbn [length].
    repeat match goal with
           | |- context [if ?c then 1%nat else 0%nat] => destruct c
           end; lia.
  - exists oq. split; [done|]. rewrite !elem_of_append_if.
    split.
    + intros [[[[[?%elem_of_nil | [H _]] | [_ H]] | [_ H]] | [_ H]] | [_ H]];
        try done; discriminate H.
    + intros H. do 4 left. by right.
  - exists sc. split; [done|]. rewrite !recommends_append_if.
    pose proof (recommends_nil "High concentration from ") as Hnil.
    split.
    + intros [[[[[? | [_ H]] | [H _]] | [_ H]] | [_ H]] | [_ H]];
        try done; vm_compute in H; discriminate H.
    + intros H. do 3 left. right. split; [exact H | apply startswith_append].
  - exists td. split; [done|]. rewrite !elem_of_append_if.
    split.
    + intros [[[[[?%elem_of_nil | [_ H]] | [_ H]] | [H _]] | [_ H]] | [_ H]];
        try done; discriminate H.
    + intros H. do 2 left. by right.
  - exists sr. split; [done|]. rewrite !elem_of_append_if.
    split.
    + intros [[[[[?%elem_of_nil | [_ H]] | [_ H]] | [_ H]] | [H _]] | [_ H]];
        try done; discriminate H.
    + intros H. left. by right.
  - rewrite !recommends_append_if.
    pose proof (recommends_nil "Add citations from ") as Hnil.
    split.
    + intros [[[[[? | [_ H]] | [_ H]] | [_ H]] | [_ H]] | [H _]];
        try done; try (vm_compute in H; discriminate H).
      destruct (str_in "academic" (source_types g)) eqn:Ha;
        [|left; intros ?%Hin; congruence].
      destruct (str_in "government" (source_types g)) eqn:Hg;
        [|right; intros ?%Hin; congruence].
      vm_compute in H. discriminate H.
    + intros Hmiss. right. split; [|apply startswith_append].
      destruct (str_in "academic" (source_types g)) eqn:Ha;
        destruct (str_in "government" (source_types g)) eqn:Hg; try reflexivity.
      apply Hin in Ha. apply Hin in Hg. by destruct Hmiss.
Qed.

End recommendations.

Lemma recommendations_characterised_witness :
  exists res,
    (GraphAnalyzer.analyze (builtins := Sample.builtins) Sample.config
       (GraphAnalyzer.__init__ (scenario_graph five_types))).1 = Ok res /\
    let g := scenario_graph five_types in
    let recs := recommendations res in
    (length recs <= 5)%nat /\
    (exists quality,
       get_number (quality_scores res) "overall_quality" = Ok quality /\
       (quality_recommendation ∈ recs <-> (quality <? 0.6)%float = true)) /\
    (exists concentration,
       get_number (bias_metrics res) "source_concentration" = Ok concentration /\
       (recommends "High concentration from " recs
        <-> (0.5 <? concentration)%float = true)) /\
    (exists diversity,
       get_number (diversity_metrics res) "source_type_diversity" = Ok diversity /\
       (type_diversity_recommendation ∈ recs <-> (diversity <? 0.5)%float = true)) /\
    (exists reliability,
       get_number (quality_scores res) "source_reliability" = Ok reliability /\
       (reliability_recommendation ∈ recs <-> (reliability <? 0.6)%float = true)) /\
    (recommends "Add citations from " recs
     <-> "academic" ∉ source_types g \/ "government" ∉ source_types g).
Proof.
  destruct (GraphAnalyzer.analyze (builtins := Sample.builtins) Sample.config
              (GraphAnalyzer.__init__ (scenario_graph five_types))).1 as [res|e] eqn:Hres.
  - exists res. split; [reflexivity|].
    exact (recommendations_characterised (builtins := Sample.builtins) Sample.config
             (scenario_graph five_types) res Hres).
  - vm_compute in Hres. discriminate Hres.
Defined.

(** ** From the article to its analysis *)

Lemma citation_graph_node_data (article_data : ArticleData) (diversity : float)
    (citations : list Citation) (c : Citation) :
  NoDup (map cit_url citations) ->
  art_url article_data ∉ map cit_url citations ->
  c ∈ citations ->
  node_data (citation_graph article_data diversity citations) (cit_url c)
  = Ok (source_node_attrs c).
Proof.
  intros Hnd Hart Hc.
  assert (Hall : filter (fun c => cit_url c <> art_url article_data) citations = citations).
  { apply filter_all, Forall_forall. intros c' Hc' Heq. apply Hart.
    apply list_elem_of_fmap. by exists c'. }
  unfold node_data, citation_graph. cbn [nodes]. rewrite Hall.
  rewrite (find_node _ (cit_url c) (source_node_attrs c)); [done | |].
  - cbn [map fst]. apply NoDup_cons. split.
    + by rewrite <- list_fmap_compose.
    + by rewrite <- list_fmap_compose.
  - right. apply list_elem_of_fmap. by exists c.
Qed.

Lemma citation_graph_attrs {A} (article_data : ArticleData) (diversity : float)
    (citations : list Citation) (field : NodeAttrs -> option A) (dflt : A) :
  NoDup (map cit_url citations) ->
  art_url article_data ∉ map cit_url citations ->
  map (attr_of (citation_graph article_data diversity citations) field dflt)
      (map cit_url citations)
  = map (fun c => default dflt (field (source_node_attrs c))) citations.
Proof.
  intros Hnd Hart. rewrite <- list_fmap_compose.
  apply list_eq_Forall2, Forall2_fmap, Forall2_same_length_lookup_2; [done|].
  intros i c c' Hc Hc'. assert (c' = c) as -> by congruence.
  unfold compose, attr_of.
  rewrite (citation_graph_node_data article_data diversity citations c Hnd Hart); [done|].
  by eapply list_elem_of_lookup_2.
Qed.

Section article_analysis.
Context {url_lib : UrlLib} {builtins : Builtins}.
Variable config : Config.
Import CitationGraphBuilder GraphAnalyzer.

(** X20: graph building composed with the analysis.  For an article whose
    citations have pairwise distinct URLs, none of them the article's own,
    the analyzer reads from the built graph the lists of the article: its
    source nodes are the citation URLs, and their source types, domains and
    reliabilities are those of the citations, in their order, with the
    defaults [other], the empty string and 0.5.  So [analyze] flags
    insufficient citations exactly when the article has fewer citations than
    [MIN_CITATIONS], and missing viewpoint diversity exactly when no citation
    has one of the source types [academic], [government] and [news]. *)
Theorem built_graph_analysis (article_data : ArticleData) :
  let citations := citations_of article_data in
  NoDup (map cit_url citations) ->
  art_url article_data ∉ map cit_url citations ->
  exists g,
    build_graph article_data = Ok g /\
    source_nodes g = map cit_url citations /\
    source_types g = all_source_types article_data /\
    source_domains g = all_domains article_data /\
    source_reliabilities g = map (fun c => default 0.5%float (cit_reliability c)) citations /\
    forall res,
      (analyze config (__init__ g)).1 = Ok res ->
      (has_flag "insufficient_citations" "high" (red_flags res)
       <-> len citations < MIN_CITATIONS config) /\
      (has_flag "missing_viewpoint_diversity" "medium" (red_flags res)
       <-> exists t, t ∈ ["academic"; "government"; "news"] /\
                     t ∉ all_source_types article_data).
Proof.
  intros citations Hnd Hart.
  destruct (diversity_score_defined (all_domains article_data)) as [diversity Hd].
  set (g := citation_graph article_data diversity citations).
  assert (Hsrc : source_nodes g = map cit_url citations).
  { subst g. rewrite citation_graph_sources by done.
    apply filter_all, Forall_forall. by intros u Hu ->. }
  assert (Htypes : source_types g = all_source_types article_data).
  { unfold source_types. rewrite Hsrc. subst g.
    by rewrite citation_graph_attrs. }
  assert (Hdomains : source_domains g = all_domains article_data).
  { unfold source_domains. rewrite Hsrc. subst g.
    by rewrite citation_graph_attrs. }
  assert (Hrel : source_reliabilities g
                 = map (fun c => default 0.5%float (cit_reliability c)) citations).
  { unfold source_reliabilities. rewrite Hsrc. subst g.
    by rewrite citation_graph_attrs. }
  exists g. split; [by apply build_graph_exact|].
  split; [exact Hsrc|]. split; [exact Htypes|]. split; [exact Hdomains|].
  split; [exact Hrel|].
  intros res Hres.
  destruct (red_flags_of_analysis config g res Hres) as (_ & Hcount & _ & _ & _ & Hview).
  rewrite Hsrc in Hcount. rewrite Htypes in Hview.
  split; [|exact Hview].
  rewrite Hcount. unfold len. by rewrite length_map.
Qed.

End article_analysis.

Lemma built_graph_analysis_witness :
  NoDup (map cit_url (citations_of distinct_article)) /\
  (art_url distinct_article ∉ map cit_url (citations_of distinct_article)) /\
  exists g,
    CitationGraphBuilder.build_graph (url_lib := Sample.url_lib) distinct_article = Ok g /\
    source_nodes g = map cit_url (citations_of distinct_article) /\
    source_types g = all_source_types distinct_article /\
    source_domains g = all_domains distinct_article /\
    source_reliabilities g
    = map (fun c => default 0.5%float (cit_reliability c)) (citations_of distinct_article) /\
    forall res,
      (GraphAnalyzer.analyze (builtins := Sample.builtins) Sample.config
         (GraphAnalyzer.__init__ g)).1 = Ok res ->
      (has_flag "insufficient_citations" "high" (red_flags res)
       <-> len (citations_of distinct_article) < MIN_CITATIONS Sample.config) /\
      (has_flag "missing_viewpoint_diversity" "medium" (red_flags res)
       <-> exists t, t ∈ ["academic"; "government"; "news"] /\
                     t ∉ all_source_types distinct_article).
Proof.
  assert (H1 : NoDup (map cit_url (citations_of distinct_article))).
  { cbn. repeat (apply NoDup_cons; split;
      [rewrite ?not_elem_of_cons; repeat split; try discriminate; apply not_elem_of_nil|]).
    apply NoDup_nil_2. }
  assert (H2 : art_url distinct_article ∉ map cit_url (citations_of distinct_article)).
  { cbn. rewrite !not_elem_of_cons. repeat split; try discriminate.
    apply not_elem_of_nil. }
  split; [exact H1|]. split; [exact H2|].
  exact (built_graph_analysis (url_lib := Sample.url_lib) (builtins := Sample.builtins)
           Sample.config distinct_article H1 H2).
Defined.

(** ** graph_analyzer.py: the components of a result agree *)

Section result_consistency.
Context {builtins : Builtins}.
Variable config : Config.
Import GraphAnalyzer.

(** What [analyze] returns, when it returns: the three metric dictionaries
    are those the three methods return on the analyzer of the graph. *)
Lemma analyze_metrics (g : DiGraph) (res : AnalysisResult) :
  (analyze config (__init__ g)).1 = Ok res ->
  (_calculate_bias_metrics (warm g)).1 = Ok (bias_metrics res) /\
  (_calculate_diversity_metrics (warm g)).1 = Ok (diversity_metrics res) /\
  (_calculate_quality_scores (warm g)).1 = Ok (quality_scores res).
Proof.
  unfold analyze, bind at 1.
  pose proof (transparent_bias_metrics g _ (analyzer_of_init g)) as [Hr1 Hs1].
  destruct (_calculate_bias_metrics (__init__ g)) as [[b|e] s1]; [|discriminate].
  cbn [fst snd] in Hr1, Hs1. unfold bind at 1.
  pose proof (transparent_diversity_metrics g _ Hs1) as [Hr2 Hs2].
  destruct (_calculate_diversity_metrics s1) as [[d|e] s2]; [|discriminate].
  cbn [fst snd] in Hr2, Hs2. unfold bind at 1.
  pose proof (transparent_quality_scores g _ Hs2) as [Hr3 Hs3].
  destruct (_calculate_quality_scores s2) as [[q|e] s3]; [|discriminate].
  cbn [fst snd] in Hr3, Hs3. unfold bind at 1.
  destruct (_detect_red_flags config (Some b) (Some q) s3) as [[f|e] s4]; [|discriminate].
  unfold bind at 1.
  destruct (_generate_recommendations config (Some b) (Some d) (Some q) (Some f) s4)
    as [[r|e] s5]; [|discriminate].
  cbn [ret fst]. intros [= <-].
  cbn [bias_metrics diversity_metrics quality_scores]. by rewrite <- Hr1, <- Hr2, <- Hr3.
Qed.

Lemma quality_reads_diversity (g : DiGraph) (q : gmap string Value) :
  (_calculate_quality_scores (warm g)).1 = Ok q ->
  (exists d x,
     (_calculate_diversity_metrics (warm g)).1 = Ok d /\
     get_number d "overall_diversity" = Ok x /\
     get_number q "diversity_score" = Ok x) /\
  get_number q "citation_quality" = get_number q "overall_quality".
Proof.
  destruct (decide (source_nodes g = [])) as [Hnone | Hne].
  - rewrite (quality_scores_no_sources g Hnone).
    rewrite (diversity_metrics_no_sources g _ (analyzer_of_warm g) Hnone).
    cbn [fst]. intros [= <-]. split; [|reflexivity].
    exists zero_diversity_metrics, 0%float. by repeat split.
  - unfold _calculate_quality_scores. cbn [bind get_graph warm graph].
    destruct (source_nodes g) as [|n l] eqn:E; [done|]. rewrite <- E in *.
    cbn [bind lift]. rewrite source_attr_defined.
    rewrite float_div_int_defined by (apply len_nonzero; by intros ?%fmap_nil_inv).
    unfold float_truediv. change (10 =? 0)%float with false.
    fold (warm g). unfold bind.
    destruct (_calculate_diversity_metrics (warm g)) as [[d|e] s']; [|discriminate].
    cbn [lift]. destruct (get_number d "overall_diversity") as [x|e] eqn:Ex; [|discriminate].
    cbn [ret fst]. intros [= <-]. split.
    + exists d, x. split; [done|]. split; [done|].
      unfold get_number. do 2 (rewrite lookup_insert_ne by done).
      by rewrite lookup_insert_eq.
    + unfold get_number. rewrite lookup_insert_eq.
      do 4 (rewrite lookup_insert_ne by done). by rewrite lookup_insert_eq.
Qed.

(** X21: the components of the result of [analyze] agree.  The
    [diversity_score] of the quality scores, which [_calculate_quality_scores]
    computes by a second call of [_calculate_diversity_metrics], is the
    [overall_diversity] of the diversity metrics returned beside it;
    [citation_quality] is [overall_quality]; and [ideological_cluster_score]
    is [single_cluster_risk]. *)
Theorem analysis_components_agree (g : DiGraph) (res : AnalysisResult) :
  (analyze config (__init__ g)).1 = Ok res ->
  (exists x,
     get_number (diversity_metrics res) "overall_diversity" = Ok x /\
     get_number (quality_scores res) "diversity_score" = Ok x) /\
  get_number (quality_scores res) "citation_quality"
  = get_number (quality_scores res) "overall_quality" /\
  get_number (bias_metrics res) "ideological_cluster_score"
  = get_number (bias_metrics res) "single_cluster_risk".
Proof.
  intros Hres. destruct (analyze_metrics g res Hres) as (Hb & Hd & Hq).
  destruct (quality_reads_diversity g _ Hq) as [(d & x & Hd' & Hx & Hscore) Hsame].
  rewrite Hd in Hd'. injection Hd' as <-.
  split; [by exists x|]. split; [exact Hsame|].
  destruct (decide (source_nodes g = [])) as [Hnone | Hne].
  - rewrite (bias_metrics_no_sources g _ (analyzer_of_warm g) Hnone) in Hb.
    cbn [fst] in Hb. injection Hb as <-. reflexivity.
  - destruct (bias_metrics_run g _ (analyzer_of_warm g) Hne)
      as (max_d & max_t & top & _ & _ & _ & Hrun).
    rewrite Hrun in Hb. cbn [fst] in Hb. injection Hb as <-.
    rewrite full_bias_single_cluster_risk.
    unfold get_number, full_bias_metrics. cbn zeta.
    do 6 (rewrite lookup_insert_ne by done). by rewrite lookup_insert_eq.
Qed.

End result_consistency.

Lemma analysis_components_agree_witness :
  exists res,
    (GraphAnalyzer.analyze (builtins := Sample.builtins) Sample.config
       (GraphAnalyzer.__init__ (scenario_graph five_types))).1 = Ok res /\
    (exists x,
       get_number (diversity_metrics res) "overall_diversity" = Ok x /\
       get_number (quality_scores res) "diversity_score" = Ok x) /\
    get_number (quality_scores res) "citation_quality"
    = get_number (quality_scores res) "overall_quality" /\
    get_number (bias_metrics res) "ideological_cluster_score"
    = get_number (bias_metrics res) "single_cluster_risk".
Proof.
  destruct (GraphAnalyzer.analyze (builtins := Sample.builtins) Sample.config
              (GraphAnalyzer.__init__ (scenario_graph five_types))).1 as [res|e] eqn:Hres.
  - exists res. split; [reflexivity|].
    exact (analysis_components_agree (builtins := Sample.builtins) Sample.config
             (scenario_graph five_types) res Hres).
  - vm_compute in Hres. discriminate Hres.
Defined.
